(** * Poker table client: synchronisation core

    A shallow embedding of the real-time part of the poker front end:
    - [services/apiService.js], [gameService.connectToGameSocket];
    - [components/Profile.js], component [PokerTable] (the game view): the
      WebSocket handlers of [connectWebSocket], the 3-second poll, the
      pre-action effect and [handleAction].

    Handlers are modelled the way React runs them: the values a handler reads
    from its closure (popup flags, queued pre-action) are arguments; what it
    does (state setters, timers, API calls, callbacks) is a command emitted
    into a trace, in program order.  A handler's closure is that of the
    render that created it: the socket handlers are created by the mount
    effect and keep the mount render's values ([mountClosure]), a poll tick
    keeps those of the render that created its interval, a pre-action timer
    those of the render that armed it.  The [game] state cell, which the socket
    handler reads through a functional update, the mutable refs and the
    browser's timer table live in a small runtime record threaded by a state
    monad.  Money amounts are integers (chips in minor units). *)

From Stdlib Require Import ZArith List String Bool Lia.
Import ListNotations.

Open Scope string_scope.
Open Scope list_scope.
Open Scope Z_scope.

(* ------------------------------------------------------------------ *)
(** ** JavaScript values used by the handlers *)

Module Js.

(** Truthiness of a possibly-absent number: [undefined], [null] and [0]
    are falsy. *)
Definition truthyNum (x : option Z) : bool :=
  match x with
  | Some n => negb (n =? 0)
  | None => false
  end.

(** Truthiness of a possibly-absent string: the empty string is falsy. *)
Definition truthyStr (x : option string) : bool :=
  match x with
  | Some s => negb (s =? "")%string
  | None => false
  end.

(** [parseFloat(x || 0) || 0] on an already numeric or absent field. *)
Definition numOr0 (x : option Z) : Z :=
  match x with
  | Some n => n
  | None => 0
  end.

(** [a || b] on possibly-absent numbers. *)
Definition orNum (a b : option Z) : option Z :=
  if truthyNum a then a else b.

(** [a > b] where the left operand may be [undefined] (then [NaN > b] is
    false). *)
Definition gtNum (a : option Z) (b : Z) : bool :=
  match a with
  | Some n => b <? n
  | None => false
  end.

(** [a === b] on optional numbers that are both present. *)
Definition strictEqNum (a : option Z) (b : Z) : bool :=
  match a with
  | Some n => n =? b
  | None => false
  end.

Definition strictEqStr (a : option string) (b : string) : bool :=
  match a with
  | Some s => (s =? b)%string
  | None => false
  end.

End Js.

(* ------------------------------------------------------------------ *)
(** ** Data model: the game snapshot as the server sends it *)

(** A player's [cards] field is shape-shifting: missing, a bare array of card
    strings, or a wrapper object [{ cards: [...] }] whose inner field may
    itself be missing. *)
Inductive CardsField : Type :=
| CardsMissing
| CardsArray (cs : list string)
| CardsObject (inner : option (list string)).

Record User := mkUser {
  user_id : Z;
  username : string
}.

Record Player := mkPlayer {
  player_id : Z;
  user : User
}.

(** One seat of the game ([PlayerGame] on the server). *)
Record PlayerGame := mkPlayerGame {
  pg_id : Z;
  player : Player;
  stack : option Z;
  pg_current_bet : option Z;
  is_active : bool;
  cashed_out : bool;
  ready_for_next_hand : bool;
  cards : CardsField
}.

Record Winner := mkWinner {
  player_name : string;
  hand_name : option string;
  winning_amount : Z
}.

Record WinnerInfo := mkWinnerInfo {
  wi_winners : option (list Winner);
  wi_pot_amount : option Z;
  wi_type : option string
}.

Record Table := mkTable {
  big_blind : option Z
}.

Record Game := mkGame {
  game_id : Z;
  status : string;
  phase : string;
  pot : option Z;
  current_bet : option Z;
  current_player : option Player;
  hand_count : option Z;
  winner_info : option WinnerInfo;
  table : option Table;
  community_cards : list string;
  players : option (list PlayerGame)
}.

(** [{ ...newPlayer, cards: c }] *)
Definition withCards (p : PlayerGame) (c : CardsField) : PlayerGame :=
  {| pg_id := pg_id p;
     player := player p;
     stack := stack p;
     pg_current_bet := pg_current_bet p;
     is_active := is_active p;
     cashed_out := cashed_out p;
     ready_for_next_hand := ready_for_next_hand p;
     cards := c |}.

(** [updatedGame.players = ps] on the copy [{ ...data }]. *)
Definition withPlayers (g : Game) (ps : option (list PlayerGame)) : Game :=
  {| game_id := game_id g;
     status := status g;
     phase := phase g;
     pot := pot g;
     current_bet := current_bet g;
     current_player := current_player g;
     hand_count := hand_count g;
     winner_info := winner_info g;
     table := table g;
     community_cards := community_cards g;
     players := ps |}.

(** The entry shown by the hand-result popup. *)
Record HandResult := mkHandResult {
  timestamp : Z;
  winners : list Winner;
  potAmount : Z;
  resultType : string;
  handNumber : Z;
  allPlayers : list PlayerGame
}.

(** The parsed [user] item of [localStorage]. *)
Record UserInfo := mkUserInfo {
  info_id : option Z;
  info_username : option string
}.

(* ------------------------------------------------------------------ *)
(** ** Decidable equality on snapshots

    [JSON.stringify(a) !== JSON.stringify(b)] on two [winner_info] objects of
    the same shape is structural inequality. *)

Definition option_eqb {A : Type} (eqb : A -> A -> bool) (a b : option A) : bool :=
  match a, b with
  | Some x, Some y => eqb x y
  | None, None => true
  | _, _ => false
  end.

Fixpoint list_eqb {A : Type} (eqb : A -> A -> bool) (a b : list A) : bool :=
  match a, b with
  | [], [] => true
  | x :: a', y :: b' => eqb x y && list_eqb eqb a' b'
  | _, _ => false
  end.

Definition winner_eqb (a b : Winner) : bool :=
  (player_name a =? player_name b)%string
  && option_eqb String.eqb (hand_name a) (hand_name b)
  && (winning_amount a =? winning_amount b).

Definition winnerInfo_eqb (a b : WinnerInfo) : bool :=
  option_eqb (list_eqb winner_eqb) (wi_winners a) (wi_winners b)
  && option_eqb Z.eqb (wi_pot_amount a) (wi_pot_amount b)
  && option_eqb String.eqb (wi_type a) (wi_type b).

(* ------------------------------------------------------------------ *)
(** ** Runtime: commands, timers and refs *)

Inductive Route : Type :=
| ToTables                      (* navigate("/tables") *)
| ToSummary (gameId : Z).       (* navigate(`/games/${gameId}/summary`) *)

(** What a timer does when it fires. *)
Inductive TimerTask : Type :=
| HideMessage                   (* () => setMessage(null) *)
| Navigate (r : Route)
| Reconnect (gameId : Z)        (* if (gameId && id === gameId) connectWebSocket(gameId) *)
| ExecutePreAction.

Record Timer := mkTimer {
  handle : nat;
  delay : Z;
  task : TimerTask
}.

(** Everything a handler does to the outside, in program order. *)
Inductive Cmd : Type :=
| SetShowHandResults (b : bool)
| SetCurrentHandResult (r : option HandResult)
| SetPreAction (a : option string)
| SetPreActionAmount (n : Z)
| SetTakingAction (b : bool)
| SetLastBetAmount (n : Z)
| SetShowBettingInterface (b : bool)
| SetUserModifiedSlider (b : bool)
| SetConnectionStatus (s : string)
| OnConnectionStatusChange (s : string)
| SetMessage (m : option string)
| SetMessageType (t : string)
| SetError (e : option string)
| ConsoleError (s : string)
| Sleep (ms : Z)                                  (* await new Promise(r => setTimeout(r, ms)) *)
| TakeAction (id : Z) (actionType : string) (amount : Z)
| NewWebSocket (gameId : Z) (token : string)
| SetTimeout (h : nat) (ms : Z) (t : TimerTask).

Record Runtime := mkRuntime {
  game : option Game;            (* the [game] state cell, read by functional updates *)
  reconnectTimeoutRef : option nat;
  messageTimeoutRef : option nat;
  timers : list Timer;           (* pending timers of the browser *)
  nextHandle : nat;
  trace : list Cmd
}.

Definition initialRuntime (g : option Game) : Runtime :=
  {| game := g;
     reconnectTimeoutRef := None;
     messageTimeoutRef := None;
     timers := [];
     nextHandle := 1%nat;
     trace := [] |}.

(** A handler is a state transformer on the runtime. *)
Definition M (A : Type) : Type := Runtime -> A * Runtime.

Definition ret {A : Type} (a : A) : M A := fun rt => (a, rt).

Definition bind {A B : Type} (m : M A) (k : A -> M B) : M B :=
  fun rt => let (a, rt') := m rt in k a rt'.

Notation "x <- m ;; k" := (bind m (fun x => k))
  (at level 61, m at next level, right associativity).
Notation "m ;;; k" := (bind m (fun _ => k))
  (at level 61, right associativity).

Definition when (b : bool) (m : M unit) : M unit :=
  if b then m else ret tt.

Definition emit (c : Cmd) : M unit :=
  fun rt =>
    (tt, {| game := game rt;
            reconnectTimeoutRef := reconnectTimeoutRef rt;
            messageTimeoutRef := messageTimeoutRef rt;
            timers := timers rt;
            nextHandle := nextHandle rt;
            trace := trace rt ++ [c] |}).

(** [setTimeout(task, ms)]: a fresh handle, the timer becomes pending. *)
Definition setTimeout (t : TimerTask) (ms : Z) : M nat :=
  fun rt =>
    let h := nextHandle rt in
    (h, {| game := game rt;
           reconnectTimeoutRef := reconnectTimeoutRef rt;
           messageTimeoutRef := messageTimeoutRef rt;
           timers := timers rt ++ [mkTimer h ms t];
           nextHandle := S h;
           trace := trace rt ++ [SetTimeout h ms t] |}).

(** [clearTimeout(h)]: the timer is no longer pending (a no-op on a handle
    that already fired). *)
Definition clearTimeout (h : nat) : M unit :=
  fun rt =>
    (tt, {| game := game rt;
            reconnectTimeoutRef := reconnectTimeoutRef rt;
            messageTimeoutRef := messageTimeoutRef rt;
            timers := filter (fun t => negb (Nat.eqb (handle t) h)) (timers rt);
            nextHandle := nextHandle rt;
            trace := trace rt |}).

Definition getGame : M (option Game) :=
  fun rt => (game rt, rt).

(** [setGame(g)] *)
Definition setGame (g : Game) : M unit :=
  fun rt =>
    (tt, {| game := Some g;
            reconnectTimeoutRef := reconnectTimeoutRef rt;
            messageTimeoutRef := messageTimeoutRef rt;
            timers := timers rt;
            nextHandle := nextHandle rt;
            trace := trace rt |}).

Definition getReconnectTimeoutRef : M (option nat) :=
  fun rt => (reconnectTimeoutRef rt, rt).

Definition setReconnectTimeoutRef (h : nat) : M unit :=
  fun rt =>
    (tt, {| game := game rt;
            reconnectTimeoutRef := Some h;
            messageTimeoutRef := messageTimeoutRef rt;
            timers := timers rt;
            nextHandle := nextHandle rt;
            trace := trace rt |}).

Definition getMessageTimeoutRef : M (option nat) :=
  fun rt => (messageTimeoutRef rt, rt).

Definition setMessageTimeoutRef (h : nat) : M unit :=
  fun rt =>
    (tt, {| game := game rt;
            reconnectTimeoutRef := reconnectTimeoutRef rt;
            messageTimeoutRef := Some h;
            timers := timers rt;
            nextHandle := nextHandle rt;
            trace := trace rt |}).

(** Run a handler on a runtime and keep what it did. *)
Definition exec {A : Type} (m : M A) (rt : Runtime) : Runtime := snd (m rt).
Definition eval {A : Type} (m : M A) (rt : Runtime) : A := fst (m rt).

(** Observations on a runtime. *)
Definition isReconnect (t : TimerTask) : bool :=
  match t with Reconnect _ => true | _ => false end.

Definition isNavigate (t : TimerTask) : bool :=
  match t with Navigate _ => true | _ => false end.

(** Reconnects (resp. navigations) that are pending. *)
Definition pendingReconnects (rt : Runtime) : list Timer :=
  filter (fun t => isReconnect (task t)) (timers rt).

Definition pendingNavigations (rt : Runtime) : list Timer :=
  filter (fun t => isNavigate (task t)) (timers rt).

(** Reconnects that were scheduled at all, cancelled later or not. *)
Definition scheduledReconnects (cs : list Cmd) : list Cmd :=
  filter (fun c => match c with SetTimeout _ _ t => isReconnect t | _ => false end) cs.

Definition scheduledNavigations (cs : list Cmd) : list Cmd :=
  filter (fun c => match c with SetTimeout _ _ t => isNavigate t | _ => false end) cs.

(* ------------------------------------------------------------------ *)
(** ** services/apiService.js: the game socket *)

Record CloseEvent := mkCloseEvent {
  code : Z
}.

(** A server message: the side-channel notice or a full game snapshot. *)
Inductive Inbound : Type :=
| SummaryAvailable              (* { type: 'game_summary_available' } *)
| Snapshot (g : Game).

(** The handlers [connectToGameSocket] installs on the socket it returns. *)
Record Socket := mkSocket {
  onmessage : option Inbound -> M unit;   (* [None]: event.data does not parse *)
  onerror : M unit;
  onclose : CloseEvent -> M unit
}.

Module GameService.

(** [if (cb) cb(arg)] *)
Definition call {A : Type} (cb : option (A -> M unit)) (arg : A) : M unit :=
  match cb with
  | Some f => f arg
  | None => ret tt
  end.

(** [socket.onclose = (event) => { switch (event.code) ... }] *)
Definition socket_onclose
    (onErrorCallback : option (string -> M unit))
    (onCloseCallback : option (CloseEvent -> M unit))
    (event : CloseEvent) : M unit :=
  (if code event =? 4001 then
     emit (ConsoleError "WebSocket closed: Authentication failed") ;;;
     call onErrorCallback "Authentication failed"
   else if code event =? 4003 then
     emit (ConsoleError "WebSocket closed: Permission denied") ;;;
     call onErrorCallback "Permission denied"
   else if code event =? 4004 then
     emit (ConsoleError "WebSocket closed: Game not found") ;;;
     call onErrorCallback "Game not found"
   else if code event =? 1006 then
     emit (ConsoleError "WebSocket closed: Connection lost") ;;;
     call onErrorCallback "Connection lost"
   else ret tt) ;;;
  call onCloseCallback event.

Definition socket_onmessage
    (onMessageCallback : Inbound -> M unit)
    (onErrorCallback : option (string -> M unit))
    (parsed : option Inbound) : M unit :=
  match parsed with
  | Some data => onMessageCallback data
  | None =>
      emit (ConsoleError "Error parsing WebSocket message:") ;;;
      call onErrorCallback "Failed to parse message"
  end.

Definition socket_onerror
    (onErrorCallback : option (string -> M unit)) : M unit :=
  emit (ConsoleError "WebSocket error:") ;;;
  call onErrorCallback "WebSocket connection error".

(** [connectToGameSocket(gameId, onMessageCallback, onErrorCallback = null,
    onCloseCallback = null)].  [accessToken] is
    [localStorage.getItem("accessToken")]; [constructorThrows] says whether
    [new WebSocket(wsUrl)] raises. *)
Definition connectToGameSocket
    (accessToken : option string) (constructorThrows : bool)
    (gameId : Z)
    (onMessageCallback : Inbound -> M unit)
    (onErrorCallback : option (string -> M unit))
    (onCloseCallback : option (CloseEvent -> M unit)) : M (option Socket) :=
  if negb (Js.truthyStr accessToken) then
    emit (ConsoleError "No access token found for WebSocket connection") ;;;
    call onErrorCallback "No authentication token" ;;;
    ret None
  else if constructorThrows then
    emit (ConsoleError "Error creating WebSocket:") ;;;
    call onErrorCallback "Failed to create WebSocket connection" ;;;
    ret None
  else
    emit (NewWebSocket gameId (match accessToken with Some t => t | None => "" end)) ;;;
    ret (Some {| onmessage := socket_onmessage onMessageCallback onErrorCallback;
                 onerror := socket_onerror onErrorCallback;
                 onclose := socket_onclose onErrorCallback onCloseCallback |}).

End GameService.

(* ------------------------------------------------------------------ *)
(** ** components/Profile.js: the PokerTable component *)

Module PokerTable.

(** What a handler sees of the component when it runs: the route id, the
    stored user, the state values in its closure, the clock, and the
    collaborators' answers. *)
Record Closure := mkClosure {
  id : Z;                                   (* useParams().id *)
  userInfo : option UserInfo;               (* getCurrentUserInfo() *)
  showHandResults : bool;
  currentHandResult : option HandResult;
  preAction : option string;
  preActionAmount : Z;
  betAmount : Z;
  now : Z;                                  (* Date.now() *)
  onConnectionStatusChange : bool;          (* is the prop supplied? *)
  webSocketSupported : bool;                (* gameService.isWebSocketSupported() *)
  accessToken : option string;              (* localStorage accessToken *)
  constructorThrows : bool;
  takeActionError : Z -> string -> Z -> option string
                                            (* rejection message of gameService.takeAction, if any *)
}.

(** [showMessage(text, type = "error", duration = 3000)] *)
Definition showMessage (text type : string) (duration : Z) : M unit :=
  old <- getMessageTimeoutRef ;;
  match old with
  | Some h => clearTimeout h
  | None => ret tt
  end ;;;
  emit (SetMessage (Some text)) ;;;
  emit (SetMessageType type) ;;;
  h <- setTimeout HideMessage duration ;;
  setMessageTimeoutRef h.

Definition notifyStatus (c : Closure) (s : string) : M unit :=
  emit (SetConnectionStatus s) ;;;
  when (onConnectionStatusChange c) (emit (OnConnectionStatusChange s)).

(** *** Card-preserving merge *)

(** [existingPlayer.cards] as a condition: arrays and objects are truthy,
    also when empty. *)
Definition cardsTruthy (c : CardsField) : bool :=
  match c with
  | CardsMissing => false
  | CardsArray _ => true
  | CardsObject _ => true
  end.

(** [!newPlayer.cards ||
     (Array.isArray(newPlayer.cards) && newPlayer.cards.length === 0) ||
     (newPlayer.cards.cards && newPlayer.cards.cards.length === 0)] *)
Definition cardsLacking (c : CardsField) : bool :=
  match c with
  | CardsMissing => true
  | CardsArray cs => (Z.of_nat (List.length cs) =? 0)
  | CardsObject (Some cs) => (Z.of_nat (List.length cs) =? 0)
  | CardsObject None => false
  end.

(** The callback of [updatedGame.players.map]. *)
Definition mergePlayer (currentPlayers : list PlayerGame) (newPlayer : PlayerGame)
  : PlayerGame :=
  match find (fun p => pg_id p =? pg_id newPlayer) currentPlayers with
  | Some existingPlayer =>
      if cardsTruthy (cards existingPlayer) && cardsLacking (cards newPlayer)
      then withCards newPlayer (cards existingPlayer)
      else newPlayer
  | None => newPlayer
  end.

(** [const updatedGame = { ...data }] followed by the players rewrite. *)
Definition mergeGame (data currentGame : Game) : Game :=
  match players data, players currentGame with
  | Some newPlayers, Some currentPlayers =>
      withPlayers data (Some (map (mergePlayer currentPlayers) newPlayers))
  | _, _ => data
  end.

(** *** The viewer's seat *)

(** [players?.find(player => currentUserInfo &&
      (currentUserInfo.id === player.player.user.id ||
       currentUserInfo.username === player.player.user.username))] *)
Definition findViewer (ui : option UserInfo) (ps : option (list PlayerGame))
  : option PlayerGame :=
  match ps with
  | Some l =>
      find (fun p =>
              match ui with
              | Some u =>
                  Js.strictEqNum (info_id u) (user_id (user (player p)))
                  || Js.strictEqStr (info_username u) (username (user (player p)))
              | None => false
              end) l
  | None => None
  end.

(** The lookup of the pre-action effect: by user id first, then by name. *)
Definition findCurrentPlayer (ui : option UserInfo) (ps : list PlayerGame)
  : option PlayerGame :=
  match ui with
  | None => None
  | Some u =>
      let byId :=
        if Js.truthyNum (info_id u)
        then find (fun p => Js.strictEqNum (info_id u) (user_id (user (player p)))) ps
        else None in
      match byId with
      | Some p => Some p
      | None =>
          if Js.truthyStr (info_username u)
          then find (fun p => Js.strictEqStr (info_username u) (username (user (player p)))) ps
          else None
      end
  end.

(** *** Hand-result popup *)

(** [newHistoryEntry.winners && newHistoryEntry.winners.length > 1] *)
Definition isSplitPot (entry : HandResult) : bool :=
  1 <? Z.of_nat (List.length (winners entry)).

(** [(!showHandResults || (currentHandResult &&
      currentHandResult.handNumber !== newHistoryEntry.handNumber))
     && !currentPlayerIsReady && !currentPlayerIsCashedOut] *)
Definition shouldShowPopup (show : bool) (current : option HandResult)
    (entry : HandResult) (isReady isCashedOut : bool) : bool :=
  (negb show
   || match current with
      | Some r => negb (handNumber r =? handNumber entry)
      | None => false
      end)
  && negb isReady && negb isCashedOut.

(** The popup decision taken on a detected hand completion. *)
Definition onHandCompletion (show : bool) (current : option HandResult)
    (entry : HandResult) (isReady isCashedOut : bool) : M unit :=
  if shouldShowPopup show current entry isReady isCashedOut
     || (isSplitPot entry && negb show)
  then
    emit (SetCurrentHandResult (Some entry)) ;;;
    emit (SetShowHandResults true)
  else ret tt.

(** The popup state the next render sees after a run of commands. *)
Fixpoint popupAfter (cs : list Cmd) (st : bool * option HandResult)
  : bool * option HandResult :=
  match cs with
  | [] => st
  | SetShowHandResults b :: cs' => popupAfter cs' (b, snd st)
  | SetCurrentHandResult r :: cs' => popupAfter cs' (fst st, r)
  | _ :: cs' => popupAfter cs' st
  end.

(** Does a run of commands put a popup on screen? *)
Definition showsPopup (cs : list Cmd) : bool :=
  existsb (fun c => match c with SetShowHandResults true => true | _ => false end) cs.

(** *** Reconciliation of a pushed snapshot *)

(** [updatedGame.winner_info && (!currentGame.winner_info ||
      JSON.stringify(updatedGame.winner_info) !==
      JSON.stringify(currentGame.winner_info))] *)
Definition handJustCompleted (updatedGame currentGame : Game) : bool :=
  match winner_info updatedGame with
  | Some w =>
      match winner_info currentGame with
      | Some w' => negb (winnerInfo_eqb w w')
      | None => true
      end
  | None => false
  end.

(** [updatedGame.hand_count > (currentGame.hand_count || 0)] *)
Definition newHandStarted (updatedGame currentGame : Game) : bool :=
  Js.gtNum (hand_count updatedGame) (Js.numOr0 (hand_count currentGame)).

Definition newHistoryEntry (c : Closure) (updatedGame currentGame : Game)
    (winnerInfo : WinnerInfo) : HandResult :=
  {| timestamp := now c;
     winners := match wi_winners winnerInfo with Some ws => ws | None => [] end;
     potAmount := Js.numOr0 (wi_pot_amount winnerInfo);
     resultType := if Js.truthyStr (wi_type winnerInfo)
                   then match wi_type winnerInfo with Some t => t | None => "" end
                   else "Unknown";
     handNumber := Js.numOr0 (Js.orNum (hand_count updatedGame) (hand_count currentGame));
     allPlayers := match players updatedGame with Some ps => ps | None => [] end |}.

(** [(handJustCompleted || newHandStarted) && updatedGame.winner_info]:
    a hand completion is detected. *)
Definition handCompletionDetected (updatedGame currentGame : Game) : bool :=
  (handJustCompleted updatedGame currentGame || newHandStarted updatedGame currentGame)
  && match winner_info updatedGame with Some _ => true | None => false end.

(** [updatedGame.status === 'FINISHED' && updatedGame.players] with
    [allPlayersCashedOut && hasPlayers]: the session has ended. *)
Definition sessionEnded (updatedGame : Game) : bool :=
  (status updatedGame =? "FINISHED")%string
  && match players updatedGame with
     | Some ps => forallb cashed_out ps && (0 <? Z.of_nat (List.length ps))
     | None => false
     end.

Definition completedMessage : string :=
  "Game completed! All players have cashed out. Redirecting to summary...".

(** The function handed to [setGame] by the socket's message handler.
    [processGameActions] only contains placeholders and does nothing. *)
Definition gameUpdater (c : Closure) (gameId : Z) (data : Game)
    (currentGame : option Game) : M Game :=
  match currentGame with
  | None => ret data
  | Some currentGame =>
      let updatedGame := mergeGame data currentGame in
      match winner_info updatedGame with
      | Some winnerInfo =>
          if handJustCompleted updatedGame currentGame
             || newHandStarted updatedGame currentGame
          then
            let currentPlayerGame := findViewer (userInfo c) (players updatedGame) in
            let currentPlayerIsReady :=
              match currentPlayerGame with
              | Some p => ready_for_next_hand p
              | None => false
              end in
            let currentPlayerIsCashedOut :=
              match currentPlayerGame with
              | Some p => cashed_out p
              | None => false
              end in
            onHandCompletion (showHandResults c) (currentHandResult c)
              (newHistoryEntry c updatedGame currentGame winnerInfo)
              currentPlayerIsReady currentPlayerIsCashedOut
          else ret tt
      | None => ret tt
      end ;;;
      when (sessionEnded updatedGame)
        (showMessage completedMessage "info" 3000 ;;;
         _ <- setTimeout (Navigate (ToSummary gameId)) 2000 ;;
         ret tt) ;;;
      ret updatedGame
  end.

(** [onMessage]: the first callback given to [connectToGameSocket]. *)
Definition onMessage (c : Closure) (gameId : Z) (data : Inbound) : M unit :=
  match data with
  | SummaryAvailable =>
      showMessage completedMessage "info" 3000 ;;;
      _ <- setTimeout (Navigate (ToSummary gameId)) 2000 ;;
      ret tt
  | Snapshot g =>
      currentGame <- getGame ;;
      updatedGame <- gameUpdater c gameId g currentGame ;;
      setGame updatedGame ;;;
      notifyStatus c "connected" ;;;
      emit (SetError None) ;;;
      emit (SetMessage None)
  end.

(** *** Poll path *)

(** One tick of the 3-second interval; [response] is [None] when
    [gameService.getGame] rejects (the tick then only warns on the console).
    [winner_info] is taken in its parsed, object form. *)
Definition poll (c : Closure) (response : option Game) : M unit :=
  match response with
  | None => ret tt
  | Some updatedGame =>
      setGame updatedGame ;;;
      match winner_info updatedGame with
      | Some winnerInfo =>
          if (phase updatedGame =? "WAITING_FOR_PLAYERS")%string
             && negb (showHandResults c)
          then
            let currentPlayerGame := findViewer (userInfo c) (players updatedGame) in
            let currentPlayerIsReady :=
              match currentPlayerGame with
              | Some p => ready_for_next_hand p
              | None => false
              end in
            let currentPlayerIsCashedOut :=
              match currentPlayerGame with
              | Some p => cashed_out p
              | None => false
              end in
            if negb currentPlayerIsReady && negb currentPlayerIsCashedOut then
              emit (SetCurrentHandResult (Some
                {| timestamp := now c;
                   winners := match wi_winners winnerInfo with Some ws => ws | None => [] end;
                   potAmount := Js.numOr0 (wi_pot_amount winnerInfo);
                   resultType := if Js.truthyStr (wi_type winnerInfo)
                                 then match wi_type winnerInfo with Some t => t | None => "" end
                                 else "Unknown";
                   handNumber := if Js.truthyNum (hand_count updatedGame)
                                 then Js.numOr0 (hand_count updatedGame) else 1;
                   allPlayers := match players updatedGame with Some ps => ps | None => [] end |})) ;;;
              emit (SetShowHandResults true)
            else ret tt
          else ret tt
      | None => ret tt
      end
  end.

(** *** Socket error and close handlers *)

(** The reconnect scheduling shared by both handlers:
    cancel the previous timer, arm a new one for 3 seconds. *)
Definition scheduleReconnect (gameId : Z) : M unit :=
  old <- getReconnectTimeoutRef ;;
  match old with
  | Some h => clearTimeout h
  | None => ret tt
  end ;;;
  h <- setTimeout (Reconnect gameId) 3000 ;;
  setReconnectTimeoutRef h.

Definition goneMessage : string :=
  "Game no longer exists. Redirecting to tables...".

(** [onError]: the second callback given to [connectToGameSocket]. *)
Definition onError (c : Closure) (gameId : Z) (errorMessage : string) : M unit :=
  notifyStatus c "error" ;;;
  if (errorMessage =? "Game not found")%string then
    showMessage goneMessage "info" 3000 ;;;
    _ <- setTimeout (Navigate ToTables) 2000 ;;
    ret tt
  else
    showMessage (String.append "Connection error: " errorMessage) "error" 3000 ;;;
    scheduleReconnect gameId.

(** [onClose]: the third callback given to [connectToGameSocket]. *)
Definition onClose (c : Closure) (gameId : Z) (event : CloseEvent) : M unit :=
  notifyStatus c "disconnected" ;;;
  if negb (code event =? 1000) && negb (code event =? 4001)
     && negb (code event =? 4003) && negb (code event =? 4004)
  then scheduleReconnect gameId
  else if code event =? 4004 then
    showMessage goneMessage "info" 3000 ;;;
    _ <- setTimeout (Navigate ToTables) 2000 ;;
    ret tt
  else ret tt.

(** [connectWebSocket(gameId)]; the result is what is stored in
    [socketRef.current]. *)
Definition connectWebSocket (c : Closure) (gameId : Z) : M (option Socket) :=
  if negb (webSocketSupported c) then
    showMessage "Real-time updates not supported in this browser" "error" 3000 ;;;
    ret None
  else
    notifyStatus c "connecting" ;;;
    socket <- GameService.connectToGameSocket (accessToken c) (constructorThrows c)
                gameId
                (onMessage c gameId)
                (Some (onError c gameId))
                (Some (onClose c gameId)) ;;
    match socket with
    | Some s => ret (Some s)
    | None =>
        emit (SetConnectionStatus "error") ;;;
        showMessage "Failed to create WebSocket connection" "error" 3000 ;;;
        ret None
    end.

(** The close handler of the table's socket: the service's [onclose] with
    the component's [onError] and [onClose] as its callbacks. *)
Definition socketClosed (c : Closure) (gameId : Z) (event : CloseEvent) : M unit :=
  GameService.socket_onclose (Some (onError c gameId)) (Some (onClose c gameId)) event.

(** *** Betting actions and the pre-action queue *)

Definition validActionTypes : list string :=
  ["FOLD"; "CHECK"; "CALL"; "BET"; "RAISE"].

Definition isBetOrRaise (a : string) : bool :=
  (a =? "BET")%string || (a =? "RAISE")%string.

(** [handleAction(actionTypeParam, amountParam = null)].  Every failure is
    caught inside, so the returned promise always fulfils. *)
Definition handleAction (c : Closure) (actionTypeParam : string)
    (amountParam : option Z) : M unit :=
  emit (SetTakingAction true) ;;;
  (if negb (existsb (String.eqb actionTypeParam) validActionTypes) then
     showMessage "Invalid action type" "error" 3000 ;;;
     emit (SetTakingAction false)
   else
     let amountToUse := match amountParam with Some a => a | None => betAmount c end in
     if isBetOrRaise actionTypeParam && (amountToUse <? 0) then
       showMessage "Invalid bet amount" "error" 3000 ;;;
       emit (SetTakingAction false)
     else
       when (isBetOrRaise actionTypeParam && (0 <? amountToUse))
            (emit (SetLastBetAmount amountToUse)) ;;;
       emit (Sleep 300) ;;;
       emit (TakeAction (id c) actionTypeParam amountToUse) ;;;
       match takeActionError c (id c) actionTypeParam amountToUse with
       | None =>
           emit (SetPreAction None) ;;;
           emit (SetPreActionAmount 0) ;;;
           emit (SetShowBettingInterface false) ;;;
           emit (SetUserModifiedSlider false) ;;;
           emit (SetError None) ;;;
           emit (SetMessage None)
       | Some err =>
           emit (ConsoleError "handleAction error:") ;;;
           showMessage err "error" 3000
       end) ;;;
  emit (SetTakingAction false).

(** [isMyTurn]: the viewer is seated and is the player to act. *)
Definition isMyTurn (g : Game) (currentPlayer : option PlayerGame) : bool :=
  match currentPlayer, current_player g with
  | Some p, Some holder => player_id holder =? player_id (player p)
  | _, _ => false
  end.

(** The betting parameters [executePreAction] computes from the game. *)
Definition currentBet (g : Game) : Z := Js.numOr0 (current_bet g).
Definition playerBet (p : PlayerGame) : Z := Js.numOr0 (pg_current_bet p).
Definition canCheck (g : Game) (p : PlayerGame) : bool := currentBet g =? playerBet p.
Definition minBet (g : Game) : Z :=
  Js.numOr0 (match table g with Some t => big_blind t | None => None end).
Definition minRaise (g : Game) : Z :=
  Z.max (currentBet g * 2) (currentBet g + minBet g).

(** The action the queued pre-action resolves to, if any: the [if]/[else if]
    chain of [executePreAction]. *)
Definition resolvePreAction (g : Game) (p : PlayerGame) (kind : string)
    (amount : Z) : option (string * option Z) :=
  if (kind =? "CHECK_FOLD")%string then
    if canCheck g p then Some ("CHECK", None) else Some ("FOLD", None)
  else if (kind =? "CALL")%string && negb (canCheck g p) then Some ("CALL", None)
  else if (kind =? "CHECK")%string && canCheck g p then Some ("CHECK", None)
  else if (kind =? "FOLD")%string then Some ("FOLD", None)
  else if (kind =? "BET")%string && (currentBet g =? 0) && (minBet g <=? amount)
    then Some ("BET", Some amount)
  else if (kind =? "RAISE")%string && (0 <? currentBet g) && (minRaise g <=? amount)
    then Some ("RAISE", Some amount)
  else None.

(** [executePreAction], run by the timer of the pre-action effect.  Its
    [catch] is never entered, [handleAction] never rejecting, so the two
    clearing setters always run. *)
Definition executePreAction (c : Closure) (g : Game) (currentPlayer : PlayerGame)
    (kind : string) : M unit :=
  match resolvePreAction g currentPlayer kind (preActionAmount c) with
  | Some (a, amt) => handleAction c a amt
  | None => ret tt
  end ;;;
  emit (SetPreAction None) ;;;
  emit (SetPreActionAmount 0).

(** The seat and pre-action for which the effect fires:
    [isMyTurn && preAction && currentPlayer && !currentPlayer.cashed_out]. *)
Definition preActionDue (c : Closure) (g : option Game)
  : option (Game * PlayerGame * string) :=
  match g with
  | Some g =>
      match players g with
      | Some ps =>
          match findCurrentPlayer (userInfo c) ps with
          | Some p =>
              if isMyTurn g (Some p) && Js.truthyStr (preAction c)
                 && negb (cashed_out p)
              then match preAction c with
                   | Some kind => Some (g, p, kind)
                   | None => None
                   end
              else None
          | None => None
          end
      | None => None
      end
  | None => None
  end.

(** The effect "auto-submit pre-action when it becomes player's turn":
    arms the 100 ms timer that runs [executePreAction]. *)
Definition preActionEffect (c : Closure) (g : option Game) : M unit :=
  match preActionDue c g with
  | Some _ => _ <- setTimeout ExecutePreAction 100 ;; ret tt
  | None => ret tt
  end.

(** The timer fires: the pre-action is resolved against the game the
    effect saw. *)
Definition turnArrival (c : Closure) (g : option Game) : M unit :=
  match preActionDue c g with
  | Some (g', p, kind) => executePreAction c g' p kind
  | None => ret tt
  end.

(** The queue the next render sees after a run of commands. *)
Fixpoint preActionAfter (cs : list Cmd) (st : option string * Z)
  : option string * Z :=
  match cs with
  | [] => st
  | SetPreAction a :: cs' => preActionAfter cs' (a, snd st)
  | SetPreActionAmount n :: cs' => preActionAfter cs' (fst st, n)
  | _ :: cs' => preActionAfter cs' st
  end.

(** The actions submitted to the server by a run of commands. *)
Definition submissions (cs : list Cmd) : list Cmd :=
  filter (fun c => match c with TakeAction _ _ _ => true | _ => false end) cs.

(** The user-visible messages raised by a run of commands. *)
Definition messagesShown (cs : list Cmd) : list Cmd :=
  filter (fun c => match c with SetMessage (Some _) => true | _ => false end) cs.

End PokerTable.

(* ================================================================== *)
(** * Properties *)

Import PokerTable.

(** A runtime on which nothing is pending and nothing has been done yet. *)
Definition quiet (g : option Game) (r m : option nat) (n : nat) : Runtime :=
  {| game := g;
     reconnectTimeoutRef := r;
     messageTimeoutRef := m;
     timers := [];
     nextHandle := n;
     trace := [] |}.

(** A participant's cards are known: a non-empty list, bare or wrapped. *)
Definition holdsCards (c : CardsField) : bool :=
  match c with
  | CardsArray (_ :: _) => true
  | CardsObject (Some (_ :: _)) => true
  | _ => false
  end.

(** Sample snapshots: a two-seat table in mid-hand as the client knows it,
    and the same table as the server pushes it with the hole cards masked. *)
Module Sample.

Definition alice : PlayerGame :=
  {| pg_id := 1; player := mkPlayer 11 (mkUser 101 "alice");
     stack := Some 990; pg_current_bet := Some 0;
     is_active := true; cashed_out := false; ready_for_next_hand := false;
     cards := CardsArray ["AS"; "KD"] |}.

Definition bob : PlayerGame :=
  {| pg_id := 2; player := mkPlayer 12 (mkUser 102 "bob");
     stack := Some 980; pg_current_bet := Some 10;
     is_active := true; cashed_out := false; ready_for_next_hand := false;
     cards := CardsMissing |}.

Definition localGame : Game :=
  {| game_id := 7; status := "PLAYING"; phase := "FLOP";
     pot := Some 30; current_bet := Some 10;
     current_player := Some (mkPlayer 12 (mkUser 102 "bob"));
     hand_count := Some 3; winner_info := None;
     table := Some (mkTable (Some 10));
     community_cards := ["2H"; "7C"; "9D"];
     players := Some [alice; bob] |}.

(** The next push: it is alice's turn, her cards are masked. *)
Definition inboundGame : Game :=
  {| game_id := 7; status := "PLAYING"; phase := "FLOP";
     pot := Some 40; current_bet := Some 10;
     current_player := Some (mkPlayer 11 (mkUser 101 "alice"));
     hand_count := Some 3; winner_info := None;
     table := Some (mkTable (Some 10));
     community_cards := ["2H"; "7C"; "9D"];
     players := Some [withCards alice (CardsArray []); bob] |}.

(** The table after everybody has cashed out and the game is closed. *)
Definition finishedGame : Game :=
  {| game_id := 7; status := "FINISHED"; phase := "WAITING_FOR_PLAYERS";
     pot := Some 0; current_bet := Some 0;
     current_player := None;
     hand_count := Some 3; winner_info := None;
     table := Some (mkTable (Some 10));
     community_cards := [];
     players := Some [{| pg_id := 1; player := mkPlayer 11 (mkUser 101 "alice");
                         stack := Some 1010; pg_current_bet := Some 0;
                         is_active := false; cashed_out := true;
                         ready_for_next_hand := false; cards := CardsMissing |};
                      {| pg_id := 2; player := mkPlayer 12 (mkUser 102 "bob");
                         stack := Some 990; pg_current_bet := Some 0;
                         is_active := false; cashed_out := true;
                         ready_for_next_hand := false; cards := CardsMissing |}] |}.

(** Hand 1 won outright by alice; hand 2 split between alice and bob. *)
Definition handOne : HandResult :=
  {| timestamp := 1700000000000;
     winners := [mkWinner "alice" (Some "Pair") 40];
     potAmount := 40; resultType := "Showdown"; handNumber := 1;
     allPlayers := [alice; bob] |}.

Definition splitHandTwo : HandResult :=
  {| timestamp := 1700000060000;
     winners := [mkWinner "alice" (Some "Straight") 30;
                 mkWinner "bob" (Some "Straight") 30];
     potAmount := 60; resultType := "Showdown"; handNumber := 2;
     allPlayers := [alice; bob] |}.

(** Bob has bet 50 and the turn has come to alice, who has put in nothing. *)
Definition raisedGame : Game :=
  {| game_id := 7; status := "PLAYING"; phase := "FLOP";
     pot := Some 80; current_bet := Some 50;
     current_player := Some (mkPlayer 11 (mkUser 101 "alice"));
     hand_count := Some 3; winner_info := None;
     table := Some (mkTable (Some 10));
     community_cards := ["2H"; "7C"; "9D"];
     players := Some [alice; bob] |}.

(** Alice's browser: no popup, nothing queued, every request accepted. *)
Definition viewer : Closure :=
  {| id := 7;
     userInfo := Some (mkUserInfo (Some 101) (Some "alice"));
     showHandResults := false;
     currentHandResult := None;
     preAction := None;
     preActionAmount := 0;
     betAmount := 0;
     now := 1700000000000;
     onConnectionStatusChange := true;
     webSocketSupported := true;
     accessToken := Some "token";
     constructorThrows := false;
     takeActionError := fun _ _ _ => None |}.

(** The same browser with a raise to 20 queued while no bet was open. *)
Definition raiser : Closure :=
  {| id := 7;
     userInfo := Some (mkUserInfo (Some 101) (Some "alice"));
     showHandResults := false;
     currentHandResult := None;
     preAction := Some "RAISE";
     preActionAmount := 20;
     betAmount := 0;
     now := 1700000000000;
     onConnectionStatusChange := true;
     webSocketSupported := true;
     accessToken := Some "token";
     constructorThrows := false;
     takeActionError := fun _ _ _ => None |}.

(** The same browser with a call queued. *)
Definition caller : Closure :=
  {| id := 7;
     userInfo := Some (mkUserInfo (Some 101) (Some "alice"));
     showHandResults := false;
     currentHandResult := None;
     preAction := Some "CALL";
     preActionAmount := 0;
     betAmount := 0;
     now := 1700000000000;
     onConnectionStatusChange := true;
     webSocketSupported := true;
     accessToken := Some "token";
     constructorThrows := false;
     takeActionError := fun _ _ _ => None |}.

End Sample.

(** The cards the stored game shows for the seat at position [i]. *)
Definition cardsAt (rt : Runtime) (i : nat) : option CardsField :=
  match game rt with
  | Some g =>
      match players g with
      | Some ps => option_map cards (nth_error ps i)
      | None => None
      end
  | None => None
  end.

(** The validity table of the pre-action queue, read against a game [g] and
    the viewer's seat [p]: check-or-fold and fold are always valid, a call
    needs a call to be owed, a check needs none to be owed, a bet needs no
    outstanding bet and at least the minimum opening bet, a raise needs an
    outstanding bet and at least max(2 x currentBet, currentBet +
    minimum increment). *)
Definition callOwed (g : Game) (p : PlayerGame) : bool :=
  negb (currentBet g =? playerBet p).

Definition preActionValid (g : Game) (p : PlayerGame) (kind : string) (amount : Z)
  : bool :=
  if (kind =? "CHECK_FOLD")%string then true
  else if (kind =? "CALL")%string then callOwed g p
  else if (kind =? "CHECK")%string then negb (callOwed g p)
  else if (kind =? "FOLD")%string then true
  else if (kind =? "BET")%string then
    (currentBet g =? 0) && (minBet g <=? amount)
  else if (kind =? "RAISE")%string then
    (0 <? currentBet g)
    && (Z.max (2 * currentBet g) (currentBet g + minBet g) <=? amount)
  else false.

(** The commands a handler issues when started on a fresh runtime. *)
Definition issued (m : M unit) : list Cmd :=
  trace (exec m (initialRuntime None)).

(** How many times a run of commands puts the popup on screen. *)
Definition popupCount (cs : list Cmd) : nat :=
  List.length
    (filter (fun c => match c with SetShowHandResults true => true | _ => false end) cs).

(** Participant ids are unique within a snapshot. *)
Definition uniqueIds (g : Game) : Prop :=
  match players g with
  | Some ps => NoDup (map pg_id ps)
  | None => True
  end.

(** The game state after a snapshot arrives on the push path (the socket's
    message handler) and on the poll path (one tick of the interval). *)
Definition afterPush (c : Closure) (gameId : Z) (data : Game) (rt : Runtime) : Runtime :=
  exec (onMessage c gameId (Snapshot data)) rt.

Definition afterPoll (c : Closure) (data : Game) (rt : Runtime) : Runtime :=
  exec (poll c (Some data)) rt.

(** Handlers that leave the [game] cell alone. *)
Definition keepsGame {A : Type} (m : M A) : Prop :=
  forall rt, game (snd (m rt)) = game rt.

(* ------------------------------------------------------------------ *)
(** ** Timer discipline *)

Definition isHide (t : TimerTask) : bool :=
  match t with HideMessage => true | _ => false end.

(** Message auto-hide timers that are pending. *)
Definition pendingHides (rt : Runtime) : list Timer :=
  filter (fun t => isHide (task t)) (timers rt).

(** The timer table and the two refs agree: handles, also those in the refs,
    are distinct and below the next one to be handed out; a pending timer is
    a reconnect exactly when [reconnectTimeoutRef] holds its handle, and an
    auto-hide exactly when [messageTimeoutRef] does. *)
Record timersOk (rt : Runtime) : Prop := mkTimersOk {
  handles_fresh :
    forall t, In t (timers rt) -> (handle t < nextHandle rt)%nat;
  handles_distinct : NoDup (map handle (timers rt));
  reconnect_ref_fresh :
    forall h, reconnectTimeoutRef rt = Some h -> (h < nextHandle rt)%nat;
  message_ref_fresh :
    forall h, messageTimeoutRef rt = Some h -> (h < nextHandle rt)%nat;
  reconnect_tracked :
    forall t, In t (timers rt) ->
              (isReconnect (task t) = true <-> reconnectTimeoutRef rt = Some (handle t));
  message_tracked :
    forall t, In t (timers rt) ->
              (isHide (task t) = true <-> messageTimeoutRef rt = Some (handle t))
}.

(** Handlers that keep the timer discipline. *)
Definition keepsTimers {A : Type} (m : M A) : Prop :=
  forall rt, timersOk rt -> timersOk (snd (m rt)).

(** What the browser can deliver to the table's socket. *)
Inductive SocketEvent : Type :=
| Closed (e : CloseEvent)
| Errored
| Received (parsed : option Inbound).

(** The handler [connectWebSocket] has installed for each event. *)
Definition deliver (c : Closure) (gameId : Z) (ev : SocketEvent) : M unit :=
  match ev with
  | Closed e => socketClosed c gameId e
  | Errored => GameService.socket_onerror (Some (onError c gameId))
  | Received parsed =>
      GameService.socket_onmessage (onMessage c gameId) (Some (onError c gameId)) parsed
  end.

(** What the component reacts to between mount and unmount: socket events,
    poll ticks, the viewer's betting actions, and the firing of the
    pre-action timer.  Each reaction is given a closure of its own, any
    render's: the runs include those of the open table, whose socket
    handlers keep the closure of the render that mounted it. *)
Inductive AppEvent : Type :=
| FromSocket (ev : SocketEvent)
| PollTick (response : option Game)
| UserAction (actionType : string) (amount : option Z)
| PreActionTimer.

Definition react (gameId : Z) (e : Closure * AppEvent) : M unit :=
  let (c, ev) := e in
  match ev with
  | FromSocket sev => deliver c gameId sev
  | PollTick response => poll c response
  | UserAction a amount => handleAction c a amount
  | PreActionTimer => g <- getGame ;; turnArrival c g
  end.

Fixpoint reactAll (gameId : Z) (es : list (Closure * AppEvent)) (rt : Runtime)
  : Runtime :=
  match es with
  | [] => rt
  | e :: es' => reactAll gameId es' (exec (react gameId e) rt)
  end.

(** The cleanup of the mount effect: [socketRef.current.close()] when a
    socket is held (the result says whether it was called), then both timers
    are cancelled through their refs. *)
Definition cleanup (socket : option Socket) : M bool :=
  r <- getReconnectTimeoutRef ;;
  match r with
  | Some h => clearTimeout h
  | None => ret tt
  end ;;;
  m <- getMessageTimeoutRef ;;
  match m with
  | Some h => clearTimeout h
  | None => ret tt
  end ;;;
  ret (match socket with Some _ => true | None => false end).

(** The timer table after [if (ref.current) clearTimeout(ref.current)]. *)
Definition cancelled (ref : option nat) (l : list Timer) : list Timer :=
  match ref with
  | Some h => filter (fun t => negb (handle t =? h)%nat) l
  | None => l
  end.

(** More browsers for the examples: one without a stored token, one without
    WebSocket support. *)
Module Browsers.

Definition loggedOut : Closure :=
  {| id := 7;
     userInfo := None;
     showHandResults := false;
     currentHandResult := None;
     preAction := None;
     preActionAmount := 0;
     betAmount := 0;
     now := 1700000000000;
     onConnectionStatusChange := false;
     webSocketSupported := true;
     accessToken := None;
     constructorThrows := false;
     takeActionError := fun _ _ _ => None |}.

Definition legacy : Closure :=
  {| id := 7;
     userInfo := Some (mkUserInfo (Some 101) (Some "alice"));
     showHandResults := false;
     currentHandResult := None;
     preAction := None;
     preActionAmount := 0;
     betAmount := 0;
     now := 1700000000000;
     onConnectionStatusChange := false;
     webSocketSupported := false;
     accessToken := Some "token";
     constructorThrows := false;
     takeActionError := fun _ _ _ => None |}.

(** Alice's browser while the popup of hand 1 is on screen. *)
Definition watching : Closure :=
  {| id := 7;
     userInfo := Some (mkUserInfo (Some 101) (Some "alice"));
     showHandResults := true;
     currentHandResult := Some Sample.handOne;
     preAction := None;
     preActionAmount := 0;
     betAmount := 0;
     now := 1700000000000;
     onConnectionStatusChange := true;
     webSocketSupported := true;
     accessToken := Some "token";
     constructorThrows := false;
     takeActionError := fun _ _ _ => None |}.

End Browsers.

(* ------------------------------------------------------------------ *)
(** ** Runs of pushes *)

(** The cards the stored game shows for participant [k], looked up the way
    the merge looks seats up (first seat with that id). *)
Definition seatCards (g : option Game) (k : Z) : option CardsField :=
  match g with
  | Some g =>
      match players g with
      | Some ps => option_map cards (find (fun p => pg_id p =? k) ps)
      | None => None
      end
  | None => None
  end.

(** Snapshots pushed one after the other, each handled with a closure of its
    own (any render's; on the open table it is the mount render's). *)
Fixpoint pushAll (gameId : Z) (ds : list (Closure * Game)) (rt : Runtime) : Runtime :=
  match ds with
  | [] => rt
  | (c, data) :: ds' => pushAll gameId ds' (afterPush c gameId data rt)
  end.

(** The viewer's flags as the push and poll handlers read them off a
    snapshot: [currentPlayerGame?.ready_for_next_hand || false] and
    [currentPlayerGame?.cashed_out || false]. *)
Definition currentPlayerIsReady (ui : option UserInfo) (g : Game) : bool :=
  match findViewer ui (players g) with
  | Some p => ready_for_next_hand p
  | None => false
  end.

Definition currentPlayerIsCashedOut (ui : option UserInfo) (g : Game) : bool :=
  match findViewer ui (players g) with
  | Some p => cashed_out p
  | None => false
  end.

(* ------------------------------------------------------------------ *)
(** ** components/Profile.js: betting controls of [renderActionButtons] *)

Module Controls.

(** [isPlayerTurn()] on the rendered game. *)
Definition isPlayerTurn (ui : option UserInfo) (g : Game) : bool :=
  isMyTurn g (match players g with
              | Some ps => findCurrentPlayer ui ps
              | None => None
              end).

(** [handlePreAction(action, amount = 0)]: act at once on the viewer's turn,
    queue otherwise.  [myTurn] is the [isMyTurn] of the render. *)
Definition handlePreAction (c : Closure) (myTurn : bool) (action : string)
    (amount : Z) : M unit :=
  if myTurn then handleAction c action (Some amount)
  else
    emit (SetPreAction (Some action)) ;;;
    emit (SetPreActionAmount amount).

(** [parseFloat(currentPlayer.stack || 0) || 0] *)
Definition playerStack (p : PlayerGame) : Z := Js.numOr0 (stack p).

(** [currentBet === 0 ? 'BET' : 'RAISE'] *)
Definition betKind (g : Game) : string :=
  if currentBet g =? 0 then "BET" else "RAISE".

(** The slider's [min]: [currentBet === 0 ? minBet : minRaise]. *)
Definition betFloor (g : Game) : Z :=
  if currentBet g =? 0 then minBet g else minRaise g.

(** The slider's [max]: [currentBet === 0 ? playerStack : playerStack + playerBet]. *)
Definition betCeiling (g : Game) (p : PlayerGame) : Z :=
  if currentBet g =? 0 then playerStack p else playerStack p + playerBet p.

(** What each control hands to [handlePreAction] when clicked, if anything. *)

(** "Min Bet" / "Min Raise". *)
Definition minButton (g : Game) : string * Z := (betKind g, betFloor g).

(** "All-In": only [if (playerStack > 0)]. *)
Definition allInButton (g : Game) (p : PlayerGame) : option (string * Z) :=
  if 0 <? playerStack p then Some (betKind g, betCeiling g p) else None.

(** "Bet" / "Raise to": only [if (betSliderValue >= min)]. *)
Definition executeBetButton (g : Game) (betSliderValue : Z) : option (string * Z) :=
  if betFloor g <=? betSliderValue then Some (betKind g, betSliderValue) else None.

(** The slider's step buttons:
    [Math.max(betSliderValue - minBet, min)] and
    [Math.min(betSliderValue + minBet, max)]. *)
Definition sliderMinus (g : Game) (betSliderValue : Z) : Z :=
  Z.max (betSliderValue - minBet g) (betFloor g).

Definition sliderPlus (g : Game) (p : PlayerGame) (betSliderValue : Z) : Z :=
  Z.min (betSliderValue + minBet g) (betCeiling g p).

End Controls.

(** The busy flag the next render sees after a run of commands. *)
Fixpoint takingActionAfter (cs : list Cmd) (busy : bool) : bool :=
  match cs with
  | [] => busy
  | SetTakingAction b :: cs' => takingActionAfter cs' b
  | _ :: cs' => takingActionAfter cs' busy
  end.

(** More tables for the examples. *)
Module Tables.

(** Hand 3 is over, alice took the pot, nobody is ready yet. *)
Definition betweenHands : Game :=
  {| game_id := 7; status := "PLAYING"; phase := "WAITING_FOR_PLAYERS";
     pot := Some 0; current_bet := Some 0;
     current_player := None;
     hand_count := Some 3;
     winner_info := Some (mkWinnerInfo (Some [mkWinner "alice" (Some "Pair") 40])
                            (Some 40) (Some "Showdown"));
     table := Some (mkTable (Some 10));
     community_cards := ["2H"; "7C"; "9D"; "JS"; "QH"];
     players := Some [Sample.alice; Sample.bob] |}.

(** A new street: no bet is open and it is alice's turn. *)
Definition newStreet : Game :=
  {| game_id := 7; status := "PLAYING"; phase := "TURN";
     pot := Some 100; current_bet := Some 0;
     current_player := Some (mkPlayer 11 (mkUser 101 "alice"));
     hand_count := Some 3; winner_info := None;
     table := Some (mkTable (Some 10));
     community_cards := ["2H"; "7C"; "9D"; "JS"];
     players := Some [Sample.alice; Sample.bob] |}.

(** Alice with 15 chips left and nothing committed. *)
Definition shortAlice : PlayerGame :=
  {| pg_id := 1; player := mkPlayer 11 (mkUser 101 "alice");
     stack := Some 15; pg_current_bet := Some 0;
     is_active := true; cashed_out := false; ready_for_next_hand := false;
     cards := CardsArray ["AS"; "KD"] |}.

(** A third seat. *)
Definition carol : PlayerGame :=
  {| pg_id := 3; player := mkPlayer 13 (mkUser 103 "carol");
     stack := Some 500; pg_current_bet := Some 0;
     is_active := true; cashed_out := false; ready_for_next_hand := false;
     cards := CardsMissing |}.

Definition threeSeats : list PlayerGame := [Sample.alice; Sample.bob; carol].

End Tables.

(* ------------------------------------------------------------------ *)
(** ** components/Profile.js: seating around the table *)

Module Seating.

(** The object [calculatePlayerPosition] returns.  Its early return carries
    [index], not [positionIndex]. *)
Record Placement := mkPlacement {
  position : string;
  positionIndex : option Z;
  index : option Z
}.

Definition placed (pos : string) (i : Z) : Placement :=
  {| position := pos; positionIndex := Some i; index := None |}.

(** [players.findIndex(p => p.id === k)], counting from [i]; [k] may be
    [null], which no id equals. *)
Fixpoint findIndexFrom (i : Z) (players : list PlayerGame) (k : option Z) : Z :=
  match players with
  | [] => -1
  | p :: rest =>
      if match k with Some k => pg_id p =? k | None => false end
      then i
      else findIndexFrom (i + 1) rest k
  end.

Definition findIndex (players : list PlayerGame) (k : option Z) : Z :=
  findIndexFrom 0 players k.

(** The [switch (opponentCount)] on a relative index. *)
Definition placeAmong (opponentCount relativeIndex : Z) : Placement :=
  if opponentCount =? 1 then placed "top" 0
  else if opponentCount =? 2 then
    if relativeIndex =? 1 then placed "left" 0 else placed "right" 0
  else if opponentCount =? 3 then
    if relativeIndex =? 1 then placed "left" 0
    else if relativeIndex =? 2 then placed "top" 0
    else placed "right" 0
  else if opponentCount =? 4 then
    if relativeIndex =? 1 then placed "left" 0
    else if relativeIndex =? 2 then placed "top" 0
    else if relativeIndex =? 3 then placed "top" 1
    else placed "right" 0
  else if opponentCount =? 5 then
    if relativeIndex =? 1 then placed "left" 0
    else if relativeIndex =? 2 then placed "top" 0
    else if relativeIndex =? 3 then placed "top" 1
    else if relativeIndex =? 4 then placed "top" 2
    else placed "right" 0
  else if opponentCount =? 6 then
    if relativeIndex =? 1 then placed "left" 0
    else if relativeIndex =? 2 then placed "left" 1
    else if relativeIndex =? 3 then placed "top" 0
    else if relativeIndex =? 4 then placed "top" 1
    else if relativeIndex =? 5 then placed "top" 2
    else placed "right" 0
  else if opponentCount =? 7 then
    if relativeIndex =? 1 then placed "left" 0
    else if relativeIndex =? 2 then placed "left" 1
    else if relativeIndex =? 3 then placed "top" 0
    else if relativeIndex =? 4 then placed "top" 1
    else if relativeIndex =? 5 then placed "top" 2
    else if relativeIndex =? 6 then placed "right" 0
    else placed "right" 1
  else placed "top" 0.

(** The placement of the seat at index [target] seen from the seat at index
    [current], among [totalPlayers]:
    [(target - current + totalPlayers) % totalPlayers], with 0 turned into
    [totalPlayers]. *)
Definition placeByIndex (totalPlayers current target : Z) : Placement :=
  let r := Z.rem (target - current + totalPlayers) totalPlayers in
  let relativeIndex := if r =? 0 then totalPlayers else r in
  placeAmong (totalPlayers - 1) relativeIndex.

(** [calculatePlayerPosition(players, currentPlayerId, targetPlayerId)] *)
Definition calculatePlayerPosition (players : list PlayerGame)
    (currentPlayerId : option Z) (targetPlayerId : Z) : Placement :=
  let totalPlayers := Z.of_nat (List.length players) in
  let currentUserIndex := findIndex players currentPlayerId in
  let targetPlayerIndex := findIndex players (Some targetPlayerId) in
  if (currentUserIndex =? -1) || (targetPlayerIndex =? -1) then
    {| position := "top"; positionIndex := None; index := Some 0 |}
  else placeByIndex totalPlayers currentUserIndex targetPlayerIndex.

Definition placement_eqb (a b : Placement) : bool :=
  (position a =? position b)%string
  && option_eqb Z.eqb (positionIndex a) (positionIndex b)
  && option_eqb Z.eqb (index a) (index b).

(** For [n] seats: do two different opponents of any viewer ever share a
    placement? *)
Definition indices (n : nat) : list Z := map Z.of_nat (seq 0 n).

Definition opponentsApart (n : nat) : bool :=
  forallb (fun c =>
    forallb (fun t1 =>
      forallb (fun t2 =>
        (t1 =? c) || (t2 =? c) || (t1 =? t2)
        || negb (placement_eqb (placeByIndex (Z.of_nat n) c t1)
                               (placeByIndex (Z.of_nat n) c t2)))
        (indices n)) (indices n)) (indices n).

End Seating.

(* ------------------------------------------------------------------ *)
(** ** services/apiService.js: tokens, interceptors, authService *)

Module Auth.

(** The parsed [user] item: the fields [isAdmin] reads. *)
Record StoredUser := mkStoredUser {
  is_superuser : bool;
  is_staff : bool;
  stored_username : option string
}.

(** The [user] item of [localStorage]: absent (or empty), present but not
    valid JSON, or a user object. *)
Inductive UserItem : Type :=
| NoUser
| BadJson
| GoodUser (u : StoredUser).

Record LocalStorage := mkLocalStorage {
  accessTokenItem : option string;
  refreshTokenItem : option string;
  userItem : UserItem
}.

(** A request config as the interceptors see it. *)
Record Request := mkRequest {
  url : string;
  authorization : option string;      (* headers.Authorization *)
  _retry : bool
}.

(** What the server does with a request: answers, or fails with a status,
    or gives no response at all ([error.response] undefined). *)
Inductive Reply : Type :=
| Answer (data : string)
| Failure (status : Z)
| NoResponse.

Inductive Reason : Type :=
| HttpError (status : Z)          (* the axios error of the request *)
| TypeError                       (* reading [status] of an undefined response *)
| RefreshError.                   (* the error of the refresh call *)

Inductive Outcome : Type :=
| Resolved (data : string)
| Rejected (why : Reason)
| OutOfFuel.

(** The browser as the service sees it: storage, the page location once it
    has been reassigned, the requests put on the wire through [apiClient],
    and the refresh calls made (with the refresh token each sent). *)
Record World := mkWorld {
  storage : LocalStorage;
  href : option string;
  wire : list Request;
  refreshCalls : list (option string)
}.

(** The collaborators: the API server, seen through the Authorization header
    it is shown, and the token-refresh endpoint, which answers a refresh
    token with a new access token or fails. *)
Record Backend := mkBackend {
  respond : string -> option string -> Reply;
  refresh : option string -> option string
}.

Definition setStorage (w : World) (s : LocalStorage) : World :=
  {| storage := s; href := href w; wire := wire w; refreshCalls := refreshCalls w |}.

(** The request interceptor: attach [Bearer <token>] when a token is stored. *)
Definition requestInterceptor (s : LocalStorage) (config : Request) : Request :=
  if Js.truthyStr (accessTokenItem s)
  then {| url := url config;
          authorization :=
            Some (String.append "Bearer "
                    (match accessTokenItem s with Some t => t | None => "" end));
          _retry := _retry config |}
  else config.

(** [apiClient(config)]: request interceptor, the wire, response
    interceptor.  The response interceptor's failure branch calls
    [apiClient] again for the retry; [fuel] bounds that recursion.

    On a failure: a missing response makes [error.response.status] throw;
    a 401 on a request not yet retried marks it, calls the refresh endpoint
    with the stored refresh token and, on success, stores the new access
    token, rewrites the header and retries (the promise of the retry is
    returned, not awaited, so its rejection is not caught); a failed refresh
    removes both tokens, sends the page to /login and rejects with the
    refresh error.  Every other failure is rejected as it is. *)
Fixpoint apiClient (fuel : nat) (b : Backend) (config : Request) (w : World)
  : Outcome * World :=
  match fuel with
  | O => (OutOfFuel, w)
  | S fuel' =>
      let sent := requestInterceptor (storage w) config in
      let w1 := {| storage := storage w; href := href w;
                   wire := wire w ++ [sent];
                   refreshCalls := refreshCalls w |} in
      match respond b (url sent) (authorization sent) with
      | Answer data => (Resolved data, w1)
      | NoResponse => (Rejected TypeError, w1)
      | Failure status =>
          if (status =? 401) && negb (_retry sent) then
            let w2 := {| storage := storage w1; href := href w1; wire := wire w1;
                         refreshCalls :=
                           refreshCalls w1 ++ [refreshTokenItem (storage w1)] |} in
            match refresh b (refreshTokenItem (storage w1)) with
            | Some access =>
                let s3 := {| accessTokenItem := Some access;
                             refreshTokenItem := refreshTokenItem (storage w2);
                             userItem := userItem (storage w2) |} in
                apiClient fuel' b
                  {| url := url sent;
                     authorization := Some (String.append "Bearer " access);
                     _retry := true |}
                  (setStorage w2 s3)
            | None =>
                (Rejected RefreshError,
                 {| storage := {| accessTokenItem := None;
                                  refreshTokenItem := None;
                                  userItem := userItem (storage w2) |};
                    href := Some "/login";
                    wire := wire w2;
                    refreshCalls := refreshCalls w2 |})
            end
          else (Rejected (HttpError status), w1)
      end
  end.

(** [authService.login]: [reply] is the token pair the server answers
    with, if it accepts the credentials. *)
Definition login (reply : option (string * string)) (s : LocalStorage)
  : bool * LocalStorage :=
  match reply with
  | Some (access, refreshTok) =>
      (true, {| accessTokenItem := Some access;
                refreshTokenItem := Some refreshTok;
                userItem := userItem s |})
  | None => (false, s)
  end.

(** [authService.logout] *)
Definition logout (s : LocalStorage) : LocalStorage :=
  {| accessTokenItem := None; refreshTokenItem := None; userItem := userItem s |}.

(** [authService.isAuthenticated]: [!!localStorage.getItem("accessToken")] *)
Definition isAuthenticated (s : LocalStorage) : bool :=
  Js.truthyStr (accessTokenItem s).

(** [authService.isAdmin] *)
Definition isAdmin (s : LocalStorage) : bool :=
  match userItem s with
  | GoodUser u =>
      is_superuser u || is_staff u || Js.strictEqStr (stored_username u) "admin"
  | BadJson => false
  | NoUser => false
  end.

(** [authService.getCurrentUser] *)
Definition getCurrentUser (s : LocalStorage) : option StoredUser :=
  match userItem s with
  | GoodUser u => Some u
  | BadJson => None
  | NoUser => None
  end.

(** A fresh request and a world in which nothing has been sent yet. *)
Definition request (u : string) : Request :=
  {| url := u; authorization := None; _retry := false |}.

Definition freshWorld (s : LocalStorage) : World :=
  {| storage := s; href := None; wire := []; refreshCalls := [] |}.

(** A backend whose access tokens have all expired: every request is answered
    401 and the refresh endpoint accepts only the token "r1". *)
Definition expiredBackend : Backend :=
  {| respond := fun _ _ => Failure 401;
     refresh := fun r => if Js.strictEqStr r "r1" then Some "a2" else None |}.

End Auth.

(* ------------------------------------------------------------------ *)
(** ** components/Profile.js: ready, cash out, buy back in, leave *)

Module Dialogs.

(** The texts these handlers pass to [showMessage]. *)
Inductive Notice : Type :=
| NotAtTable            (* "You are not at this table" *)
| AlreadyCashedOut      (* "You have already cashed out" *)
| MustCashOutFirst      (* "You must cash out before leaving the table" *)
| NotCashedOut          (* "You have not cashed out, so you cannot buy back in" *)
| InvalidBuyIn          (* "Please enter a valid buy-in amount" *)
| NoTableInfo           (* "Table information not available. Cannot buy back in to a finished game." *)
| BuyInAtLeast (n : Z)  (* `Buy-in must be at least $${table.min_buy_in}` *)
| BuyInAtMost (n : Z)   (* `Buy-in cannot exceed $${table.max_buy_in}` *)
| ReadyForNextHand      (* "You're ready for the next hand!" *)
| CashedOutNotice       (* "Cashed out successfully! ..." *)
| BoughtBackIn          (* `Bought back in with $...! Total stack: $...` *)
| LeftTable             (* `Left table with $...!` *)
| Failed (what err : string)
                        (* `Failed to <what>: ${err.response?.data?.error || err.message}` *)
| ServerError (err : string).
                        (* err.response?.data?.error || "Failed to leave table" *)

(** What a handler calls, in program order. *)
Inductive Call : Type :=
| Notify (n : Notice) (type : string) (duration : Z)   (* showMessage(text, type, duration) *)
| Ask                                                  (* window.confirm(...) *)
| Post (endpoint : string) (amount : option Z)         (* gameService.<endpoint>(id, amount) *)
| Ui (c : Cmd)                                         (* a state setter *)
| SetCashingOut (b : bool)
| SetShowBuyInDialog (b : bool)
| SetBuyInAmount (n : Z)
| NavigateAfter (r : Route) (ms : Z).                  (* setTimeout(() => navigate(r), ms) *)

(** The buy-in limits of [game.table]. *)
Record Limits := mkLimits {
  min_buy_in : Z;
  max_buy_in : Z
}.

(** The component-level [findCurrentPlayer()]. *)
Definition seatOf (ui : option UserInfo) (g : Game) : option PlayerGame :=
  match players g with
  | Some ps => findCurrentPlayer ui ps
  | None => None
  end.

(** [handlePlayerReady]; [reply] is the error of [setPlayerReady], if it
    rejects. *)
Definition handlePlayerReady (reply : option string) : list Call :=
  Post "ready" None
  :: match reply with
     | None =>
         [Ui (SetShowHandResults false); Ui (SetCurrentHandResult None);
          Notify ReadyForNextHand "success" 2000]
     | Some err => [Notify (Failed "set ready status" err) "error" 3000]
     end.

(** [handleCashOut]; [confirmed] is the answer to [window.confirm]. *)
Definition handleCashOut (ui : option UserInfo) (g : Game) (confirmed : bool)
    (reply : option string) : list Call :=
  match seatOf ui g with
  | None => [Notify NotAtTable "error" 3000]
  | Some currentPlayer =>
      if cashed_out currentPlayer then [Notify AlreadyCashedOut "error" 3000]
      else
        Ask
        :: (if negb confirmed then []
            else
              SetCashingOut true
              :: Post "cash_out" None
              :: match reply with
                 | None =>
                     [Ui (SetShowHandResults false); Ui (SetCurrentHandResult None);
                      Notify CashedOutNotice "success" 3000]
                 | Some err => [Notify (Failed "cash out" err) "error" 3000]
                 end
              ++ [SetCashingOut false])
  end.

(** [handleBuyBackIn]; [table] is [game.table] with its limits. *)
Definition handleBuyBackIn (ui : option UserInfo) (g : Game) (buyInAmount : Z)
    (table : option Limits) (reply : option string) : list Call :=
  match seatOf ui g with
  | None => [Notify NotAtTable "error" 3000]
  | Some currentPlayer =>
      if negb (cashed_out currentPlayer) then [Notify NotCashedOut "error" 3000]
      else if negb (Js.truthyNum (Some buyInAmount)) || (buyInAmount <=? 0) then
        [Notify InvalidBuyIn "error" 3000]
      else
        match table with
        | None => [Notify NoTableInfo "error" 3000]
        | Some t =>
            if buyInAmount <? min_buy_in t then
              [Notify (BuyInAtLeast (min_buy_in t)) "error" 3000]
            else if max_buy_in t <? buyInAmount then
              [Notify (BuyInAtMost (max_buy_in t)) "error" 3000]
            else
              Post "buy_back_in" (Some buyInAmount)
              :: match reply with
                 | None =>
                     [SetShowBuyInDialog false; SetBuyInAmount 0;
                      Notify BoughtBackIn "success" 3000]
                 | Some err => [Notify (Failed "buy back in" err) "error" 3000]
                 end
        end
  end.

(** [handleLeaveTable] *)
Definition handleLeaveTable (ui : option UserInfo) (g : Game) (confirmed : bool)
    (reply : option string) : list Call :=
  match seatOf ui g with
  | None => [Notify NotAtTable "error" 3000]
  | Some currentPlayer =>
      if negb (cashed_out currentPlayer) then [Notify MustCashOutFirst "error" 3000]
      else
        Ask
        :: (if negb confirmed then []
            else
              Post "leave" None
              :: match reply with
                 | None =>
                     [Notify LeftTable "success" 2000; NavigateAfter ToTables 2000]
                 | Some err =>
                     [Notify (ServerError err) "error" 3000;
                      NavigateAfter ToTables 2000]
                 end)
  end.

(** Observations on a run of calls. *)
Definition posts (cs : list Call) : list Call :=
  filter (fun c => match c with Post _ _ => true | _ => false end) cs.

Definition navigations (cs : list Call) : list Call :=
  filter (fun c => match c with NavigateAfter _ _ => true | _ => false end) cs.

Definition dismissesPopup (cs : list Call) : bool :=
  existsb (fun c => match c with Ui (SetShowHandResults false) => true | _ => false end) cs.

Fixpoint cashingOutAfter (cs : list Call) (busy : bool) : bool :=
  match cs with
  | [] => busy
  | SetCashingOut b :: cs' => cashingOutAfter cs' b
  | _ :: cs' => cashingOutAfter cs' busy
  end.

End Dialogs.

(* ------------------------------------------------------------------ *)
(** ** The open table: the render each handler belongs to *)

(** [connectWebSocket] is called by the mount effect and, after that, by the
    reconnect timers its own handlers arm; the effect depends on the route id
    and on [navigate] only.  The three handlers on the table's socket are
    therefore those of the render that mounted the table: whenever they run,
    the [showHandResults] and [currentHandResult] they read are that render's,
    the initial [useState(false)] and [useState(null)], whatever popup is on
    screen by then.  What a handler fetches when it runs
    ([getCurrentUserInfo()], [Date.now()], the stored token) is as in [c].
    The socket is opened only after the fetched game has been stored, so a
    game is in the [game] cell when its messages arrive.  (Were the route id
    to change with the table still mounted, the effect would run again, in
    the render of that change; nothing in the component navigates from one
    table to another.) *)
Definition mountClosure (c : Closure) : Closure :=
  {| id := id c;
     userInfo := userInfo c;
     showHandResults := false;
     currentHandResult := None;
     preAction := preAction c;
     preActionAmount := preActionAmount c;
     betAmount := betAmount c;
     now := now c;
     onConnectionStatusChange := onConnectionStatusChange c;
     webSocketSupported := webSocketSupported c;
     accessToken := accessToken c;
     constructorThrows := constructorThrows c;
     takeActionError := takeActionError c |}.

(** The runtime with an empty log: the trace then holds what the next
    handler issues. *)
Definition unlogged (rt : Runtime) : Runtime :=
  {| game := game rt;
     reconnectTimeoutRef := reconnectTimeoutRef rt;
     messageTimeoutRef := messageTimeoutRef rt;
     timers := timers rt;
     nextHandle := nextHandle rt;
     trace := [] |}.

(** A snapshot pushed to the open table: the message handler installed at
    mount runs on the stored game. *)
Definition pushed (c : Closure) (gameId : Z) (data : Game) (rt : Runtime) : Runtime :=
  afterPush (mountClosure c) gameId data (unlogged rt).

(** The commands that write the popup cells. *)
Definition isPopupCmd (c : Cmd) : bool :=
  match c with
  | SetShowHandResults _ => true
  | SetCurrentHandResult _ => true
  | _ => false
  end.

Definition popupCmds (cs : list Cmd) : list Cmd := filter isPopupCmd cs.

(** Handlers that write neither popup cell. *)
Definition keepsPopup {A : Type} (m : M A) : Prop :=
  forall rt, popupCmds (trace (snd (m rt))) = popupCmds (trace rt).

(** The entry a poll tick builds from the polled snapshot
    ([restoredHandResult]). *)
Definition restoredHandResult (c : Closure) (updatedGame : Game)
    (winnerInfo : WinnerInfo) : HandResult :=
  {| timestamp := now c;
     winners := match wi_winners winnerInfo with Some ws => ws | None => [] end;
     potAmount := Js.numOr0 (wi_pot_amount winnerInfo);
     resultType := if Js.truthyStr (wi_type winnerInfo)
                   then match wi_type winnerInfo with Some t => t | None => "" end
                   else "Unknown";
     handNumber := if Js.truthyNum (hand_count updatedGame)
                   then Js.numOr0 (hand_count updatedGame) else 1;
     allPlayers := match players updatedGame with Some ps => ps | None => [] end |}.

(** Hands for the examples. *)
Module Hands.

(** Alice has pressed "ready". *)
Definition readyAlice : PlayerGame :=
  {| pg_id := 1; player := mkPlayer 11 (mkUser 101 "alice");
     stack := Some 1030; pg_current_bet := Some 0;
     is_active := true; cashed_out := false; ready_for_next_hand := true;
     cards := CardsArray ["AS"; "KD"] |}.

(** Hand 3 is over, alice took the pot and is already marked ready. *)
Definition wonByReadyAlice : Game :=
  {| game_id := 7; status := "PLAYING"; phase := "WAITING_FOR_PLAYERS";
     pot := Some 0; current_bet := Some 0;
     current_player := None;
     hand_count := Some 3;
     winner_info := Some (mkWinnerInfo (Some [mkWinner "alice" (Some "Pair") 40])
                            (Some 40) (Some "Showdown"));
     table := Some (mkTable (Some 10));
     community_cards := ["2H"; "7C"; "9D"; "JS"; "QH"];
     players := Some [readyAlice; Sample.bob] |}.

(** Hand 4 is over and the pot is split between alice and bob; alice is
    marked ready. *)
Definition splitPot : Game :=
  {| game_id := 7; status := "PLAYING"; phase := "WAITING_FOR_PLAYERS";
     pot := Some 0; current_bet := Some 0;
     current_player := None;
     hand_count := Some 4;
     winner_info := Some (mkWinnerInfo
                            (Some [mkWinner "alice" (Some "Straight") 30;
                                   mkWinner "bob" (Some "Straight") 30])
                            (Some 60) (Some "Showdown"));
     table := Some (mkTable (Some 10));
     community_cards := ["5H"; "6C"; "7D"; "8S"; "9H"];
     players := Some [readyAlice; Sample.bob] |}.

(** The popup of hand 3 as the first completion puts it up. *)
Definition handThree : HandResult :=
  {| timestamp := 1700000000000;
     winners := [mkWinner "alice" (Some "Pair") 40];
     potAmount := 40; resultType := "Showdown"; handNumber := 3;
     allPlayers := [Sample.alice; Sample.bob] |}.

(** Hand 3 is over as in [Tables.betweenHands], and bob has pressed
    "ready". *)
Definition bobReady : Game :=
  {| game_id := 7; status := "PLAYING"; phase := "WAITING_FOR_PLAYERS";
     pot := Some 0; current_bet := Some 0;
     current_player := None;
     hand_count := Some 3;
     winner_info := Some (mkWinnerInfo (Some [mkWinner "alice" (Some "Pair") 40])
                            (Some 40) (Some "Showdown"));
     table := Some (mkTable (Some 10));
     community_cards := ["2H"; "7C"; "9D"; "JS"; "QH"];
     players := Some [Sample.alice;
                      {| pg_id := 2; player := mkPlayer 12 (mkUser 102 "bob");
                         stack := Some 980; pg_current_bet := Some 10;
                         is_active := true; cashed_out := false;
                         ready_for_next_hand := true; cards := CardsMissing |}] |}.

(** Alice's browser in a render that has the popup of hand 3 on screen. *)
Definition watching : Closure :=
  {| id := 7;
     userInfo := Some (mkUserInfo (Some 101) (Some "alice"));
     showHandResults := true;
     currentHandResult := Some handThree;
     preAction := None;
     preActionAmount := 0;
     betAmount := 0;
     now := 1700000000000;
     onConnectionStatusChange := true;
     webSocketSupported := true;
     accessToken := Some "token";
     constructorThrows := false;
     takeActionError := fun _ _ _ => None |}.

End Hands.

(* ------------------------------------------------------------------ *)
(** ** The reconnect timer *)

(** The operands of the guard [id === gameId] in the timer's callback.  [id]
    is the route segment [useParams().id], a string; [gameId] is the argument
    [connectWebSocket] was called with, [response.data.id] of the fetched
    game, a number or a string as the server's JSON has it. *)
Inductive IdValue : Type :=
| IdString (s : string)
| IdNumber (n : Z).

(** [a === b]: values of different types are never strictly equal. *)
Definition strictEqId (a b : IdValue) : bool :=
  match a, b with
  | IdString s, IdString t => (s =? t)%string
  | IdNumber n, IdNumber m => n =? m
  | _, _ => false
  end.

(** An id as a condition: the empty string and zero are falsy. *)
Definition truthyId (v : IdValue) : bool :=
  match v with
  | IdString s => negb (s =? "")%string
  | IdNumber n => negb (n =? 0)
  end.

(** A timer that fires is no longer pending; the ref that held its handle
    keeps it. *)
Definition timerFired (h : nat) : M unit :=
  fun rt =>
    (tt, {| game := game rt;
            reconnectTimeoutRef := reconnectTimeoutRef rt;
            messageTimeoutRef := messageTimeoutRef rt;
            timers := filter (fun t => negb (Nat.eqb (handle t) h)) (timers rt);
            nextHandle := nextHandle rt;
            trace := trace rt |}).

(** The reconnect timer [h] fires and runs its callback
    [if (gameId && id === gameId) connectWebSocket(gameId)].  [routeId] and
    [gameIdValue] are the two operands as JavaScript values; [gameId] is the
    key under which the model carries the same game id. *)
Definition reconnectFires (c : Closure) (routeId gameIdValue : IdValue)
    (gameId : Z) (h : nat) : M (option Socket) :=
  timerFired h ;;;
  if truthyId gameIdValue && strictEqId routeId gameIdValue
  then connectWebSocket c gameId
  else ret None.

(* ------------------------------------------------------------------ *)
(** ** The pre-action effect over several renders *)

(** The effect runs after every render whose game or queue changed, and has
    no cleanup: a timer armed after an earlier render is not cancelled, and
    fires with that render's game and queue. *)

(** The effect after two renders in a row. *)
Definition preActionEffects (c1 c2 : Closure) (g1 g2 : option Game) : M unit :=
  preActionEffect c1 g1 ;;; preActionEffect c2 g2.

(** The timers the two renders armed fire, in the order they were armed. *)
Definition preActionTimersFire (c1 c2 : Closure) (g1 g2 : option Game) : M unit :=
  turnArrival c1 g1 ;;; turnArrival c2 g2.

(** Running a handler symbolically: evaluate everything except the
    comparisons of timer handles, then split on those and discard the
    impossible cases. *)
Ltac case_handles :=
  repeat match goal with
         | |- context [Nat.eqb ?a ?b] =>
             let E := fresh "E" in destruct (Nat.eqb a b) eqn:E
         end;
  repeat match goal with
         | E : Nat.eqb _ _ = true |- _ => apply Nat.eqb_eq in E
         | E : Nat.eqb _ _ = false |- _ => apply Nat.eqb_neq in E
         end.

Ltac run_handler :=
  cbv -[Nat.eqb]; case_handles;
  first [ exfalso; lia | repeat split; reflexivity ].

(* ------------------------------------------------------------------ *)
(** ** Transport: token guard and close-code policy *)

Section Transport.

Variable c : Closure.
Variable gameId : Z.

(** A successful [connectWebSocket] installs [socketClosed] as the socket's
    close handler. *)
Lemma connectWebSocket_installs (rt : Runtime) :
  webSocketSupported c = true ->
  Js.truthyStr (accessToken c) = true ->
  constructorThrows c = false ->
  exists s, eval (connectWebSocket c gameId) rt = Some s
            /\ onclose s = socketClosed c gameId.
Proof.
  intros Hs Ht Hc.
  unfold eval, connectWebSocket, GameService.connectToGameSocket, bind.
  rewrite Hs, Ht, Hc. cbn.
  destruct (onConnectionStatusChange c); cbn; eexists; split; reflexivity.
Qed.

(** A normal closure (1000) schedules nothing at all. *)
Lemma close_1000_schedules_nothing g r m n :
  timers (exec (socketClosed c gameId (mkCloseEvent 1000)) (quiet g r m n)) = [].
Proof.
  unfold exec, socketClosed, GameService.socket_onclose, onClose, notifyStatus.
  destruct (onConnectionStatusChange c); run_handler.
Qed.

(** An unlisted code such as 1011 schedules exactly one reconnect, 3000 ms
    ahead, and no navigation. *)
Lemma close_1011_one_reconnect g r m n :
  let rt := exec (socketClosed c gameId (mkCloseEvent 1011)) (quiet g r m n) in
  scheduledReconnects (trace rt) = [SetTimeout n 3000 (Reconnect gameId)]
  /\ pendingReconnects rt = [mkTimer n 3000 (Reconnect gameId)]
  /\ scheduledNavigations (trace rt) = []
  /\ reconnectTimeoutRef rt = Some n.
Proof.
  unfold exec, socketClosed, GameService.socket_onclose, onClose, notifyStatus.
  destruct (onConnectionStatusChange c), r; run_handler.
Qed.

(** A "game not found" closure (4004) schedules no reconnect. *)
Lemma close_4004_no_reconnect g r m n :
  scheduledReconnects
    (trace (exec (socketClosed c gameId (mkCloseEvent 4004)) (quiet g r m n))) = [].
Proof.
  unfold exec, socketClosed, GameService.socket_onclose, onError, onClose, notifyStatus.
  destruct (onConnectionStatusChange c), m; run_handler.
Qed.

(** C4 (the code at the failing inputs): a closure with code 4001
    (authentication failed) or 4003 (permission denied) reaches the
    component's [onError] through the service's error callback, and
    [onError] arms the 3-second reconnect timer for every message other
    than "Game not found"; [onClose] then leaves that timer pending.  So a
    reconnect is scheduled for these two terminal codes. *)
Theorem C4_terminal_codes_4001_4003_arm_reconnect g r m n :
  pendingReconnects (exec (socketClosed c gameId (mkCloseEvent 4001)) (quiet g r m n))
    = [mkTimer (S n) 3000 (Reconnect gameId)]
  /\ pendingReconnects (exec (socketClosed c gameId (mkCloseEvent 4003)) (quiet g r m n))
    = [mkTimer (S n) 3000 (Reconnect gameId)].
Proof.
  unfold exec, socketClosed, GameService.socket_onclose, onError, onClose, notifyStatus.
  destruct (onConnectionStatusChange c), r, m; run_handler.
Qed.

(** C9 (the code at the failing input): a closure with code 4004 runs the
    "game not found" branch of [onError] and then the 4004 branch of
    [onClose]; each arms its own 2-second navigation to the table list, so
    two navigations are scheduled and both stay pending.  No reconnect is
    scheduled. *)
Theorem C9_close_4004_navigates_twice g r m n :
  let rt := exec (socketClosed c gameId (mkCloseEvent 4004)) (quiet g r m n) in
  scheduledNavigations (trace rt)
    = [SetTimeout (S n) 2000 (Navigate ToTables);
       SetTimeout (S (S (S n))) 2000 (Navigate ToTables)]
  /\ List.length (pendingNavigations rt) = 2%nat
  /\ scheduledReconnects (trace rt) = [].
Proof.
  unfold exec, socketClosed, GameService.socket_onclose, onError, onClose, notifyStatus.
  destruct (onConnectionStatusChange c), m; run_handler.
Qed.

End Transport.

(** C10: with no access token stored, [connectToGameSocket] returns [null];
    all it does is log to the console and then run the error callback, when
    one is supplied, once on "No authentication token".  No socket is
    constructed. *)
Theorem C10_no_token_guard
    (token : option string) (throws : bool) (gameId : Z)
    (onMessageCallback : Inbound -> M unit)
    (onErrorCallback : option (string -> M unit))
    (onCloseCallback : option (CloseEvent -> M unit)) (rt : Runtime) :
  Js.truthyStr token = false ->
  let run := GameService.connectToGameSocket token throws gameId
               onMessageCallback onErrorCallback onCloseCallback in
  let logged :=
    exec (emit (ConsoleError "No access token found for WebSocket connection")) rt in
  eval run rt = None
  /\ match onErrorCallback with
     | Some f => exec run rt = exec (f "No authentication token") logged
     | None => exec run rt = logged
     end.
Proof.
  intros Htoken.
  unfold eval, exec, GameService.connectToGameSocket, GameService.call, bind, ret.
  rewrite Htoken. cbn.
  destruct onErrorCallback as [f|]; cbn.
  - destruct (f "No authentication token" _) as [u rt']. split; reflexivity.
  - split; reflexivity.
Qed.

(** C10 at a concrete call: nothing stored, an error callback that records
    its argument. *)
Lemma C10_no_token_guard_witness :
  Js.truthyStr None = false
  /\ (eval (GameService.connectToGameSocket None false 7
              (fun _ => ret tt) (Some (fun msg => emit (ConsoleError msg))) None)
           (initialRuntime None) = None
      /\ exec (GameService.connectToGameSocket None false 7
                 (fun _ => ret tt) (Some (fun msg => emit (ConsoleError msg))) None)
              (initialRuntime None)
         = exec (emit (ConsoleError "No authentication token"))
             (exec (emit (ConsoleError "No access token found for WebSocket connection"))
                (initialRuntime None))).
Proof.
  split; [reflexivity |].
  exact (C10_no_token_guard None false 7 (fun _ => ret tt)
           (Some (fun msg => emit (ConsoleError msg))) None (initialRuntime None)
           eq_refl).
Defined.

(* ------------------------------------------------------------------ *)
(** ** Reconciliation *)

Lemma keepsGame_ret {A : Type} (a : A) : keepsGame (ret a).
Proof. intro rt. reflexivity. Qed.

Lemma keepsGame_bind {A B : Type} (m : M A) (k : A -> M B) :
  keepsGame m -> (forall a, keepsGame (k a)) -> keepsGame (bind m k).
Proof.
  intros Hm Hk rt. unfold bind.
  specialize (Hm rt). destruct (m rt) as [a rt']. cbn in Hm.
  rewrite Hk. exact Hm.
Qed.

Lemma keepsGame_emit (c : Cmd) : keepsGame (emit c).
Proof. intro rt. reflexivity. Qed.

Lemma keepsGame_setTimeout t ms : keepsGame (setTimeout t ms).
Proof. intro rt. reflexivity. Qed.

Lemma keepsGame_clearTimeout h : keepsGame (clearTimeout h).
Proof. intro rt. reflexivity. Qed.

Lemma keepsGame_when b (m : M unit) : keepsGame m -> keepsGame (when b m).
Proof. intros Hm. destruct b; [exact Hm | apply keepsGame_ret]. Qed.

Lemma keepsGame_showMessage text type duration :
  keepsGame (showMessage text type duration).
Proof.
  unfold showMessage.
  apply keepsGame_bind; [intro rt; reflexivity | intros [h|]].
  all: repeat (apply keepsGame_bind; [| intros ?]);
    auto using keepsGame_emit, keepsGame_setTimeout, keepsGame_clearTimeout,
               keepsGame_ret.
  all: intro rt; reflexivity.
Qed.

Lemma keepsGame_onHandCompletion show cur entry r co :
  keepsGame (onHandCompletion show cur entry r co).
Proof.
  unfold onHandCompletion.
  destruct (_ || _); [| apply keepsGame_ret].
  apply keepsGame_bind; [apply keepsGame_emit | intros _; apply keepsGame_emit].
Qed.

Lemma keepsGame_notifyStatus c s : keepsGame (notifyStatus c s).
Proof.
  unfold notifyStatus.
  apply keepsGame_bind; [apply keepsGame_emit |].
  intros _. apply keepsGame_when, keepsGame_emit.
Qed.

Lemma keepsGame_gameUpdater c gameId data cur :
  keepsGame (gameUpdater c gameId data cur).
Proof.
  unfold gameUpdater. destruct cur as [cur|]; [| apply keepsGame_ret].
  apply keepsGame_bind.
  - destruct (winner_info _); [| apply keepsGame_ret].
    destruct (_ || _); [apply keepsGame_onHandCompletion | apply keepsGame_ret].
  - intros _. apply keepsGame_bind; [| intros _; apply keepsGame_ret].
    apply keepsGame_when.
    apply keepsGame_bind; [apply keepsGame_showMessage |].
    intros _. apply keepsGame_bind; [apply keepsGame_setTimeout |].
    intros _. apply keepsGame_ret.
Qed.

(** The updater returns the merged snapshot, whatever it does on the way. *)
Lemma gameUpdater_result c gameId data cur rt :
  fst (gameUpdater c gameId data cur rt)
  = match cur with
    | Some currentGame => mergeGame data currentGame
    | None => data
    end.
Proof.
  unfold gameUpdater. destruct cur as [cur|]; [| reflexivity].
  unfold bind.
  repeat match goal with
         | |- context [let (_, _) := ?m ?r in _] => destruct (m r)
         end.
  reflexivity.
Qed.

(** The push path stores the merge of the inbound snapshot into the local
    game; with no local game yet it stores the snapshot. *)
Lemma afterPush_game c gameId data rt :
  game (afterPush c gameId data rt)
  = Some match game rt with
         | Some currentGame => mergeGame data currentGame
         | None => data
         end.
Proof.
  unfold afterPush, exec, onMessage, bind, getGame.
  pose proof (gameUpdater_result c gameId data (game rt) rt) as Hres.
  destruct (gameUpdater c gameId data (game rt) rt) as [g rt1]. cbn in Hres.
  subst g.
  assert (Hk : keepsGame (notifyStatus c "connected" ;;; emit (SetError None) ;;;
                          emit (SetMessage None))).
  { apply keepsGame_bind; [apply keepsGame_notifyStatus | intros _].
    apply keepsGame_bind; intros; apply keepsGame_emit. }
  unfold setGame.
  match goal with
  | |- context [notifyStatus c "connected" ?r] => specialize (Hk r)
  end.
  unfold bind in Hk. exact Hk.
Qed.

(** The poll path stores the inbound snapshot as it is. *)
Lemma afterPoll_game c data rt :
  game (afterPoll c data rt) = Some data.
Proof.
  unfold afterPoll, exec, poll, bind, setGame.
  destruct (winner_info data); [| reflexivity].
  destruct (_ && _); [| reflexivity].
  destruct (_ && _); reflexivity.
Qed.

(** Looking a seat up by id finds that very seat when ids are unique. *)
Lemma find_by_id (l : list PlayerGame) (x : PlayerGame) (k : Z) :
  NoDup (map pg_id l) -> In x l -> pg_id x = k ->
  find (fun p => pg_id p =? k) l = Some x.
Proof.
  induction l as [|y l IH]; intros Hnd Hin Hk; [contradiction|].
  cbn in Hnd. inversion Hnd as [|? ? Hnotin Hnd']; subst.
  cbn. destruct Hin as [->|Hin].
  - rewrite Z.eqb_refl. reflexivity.
  - destruct (pg_id y =? pg_id x) eqn:E.
    + apply Z.eqb_eq in E. exfalso. apply Hnotin. rewrite E.
      apply in_map. exact Hin.
    + apply IH; auto.
Qed.

Lemma withCards_same (p : PlayerGame) : withCards p (cards p) = p.
Proof. destruct p; reflexivity. Qed.

(** The merge never touches anything but a seat's cards. *)
Lemma mergePlayer_only_cards (cps : list PlayerGame) (np : PlayerGame) :
  mergePlayer cps np = withCards np (cards (mergePlayer cps np)).
Proof.
  unfold mergePlayer.
  destruct (find _ cps) as [e|]; [| symmetry; apply withCards_same].
  destruct (_ && _); [reflexivity | symmetry; apply withCards_same].
Qed.

Lemma holdsCards_truthy (c : CardsField) : holdsCards c = true -> cardsTruthy c = true.
Proof. destruct c as [|[|]|[[|]|]]; cbn; intros; congruence. Qed.

(** C2: on the push path, a seat present in both snapshots whose cards the
    client holds and the inbound snapshot leaves missing or empty keeps the
    client's cards in the merged game; every other field of that seat, of all
    other seats and of the game is the inbound snapshot's. *)
Theorem C2_masking_carry_forward
    (c : Closure) (gameId : Z) (rt : Runtime) (data currentGame : Game)
    (newPlayers currentPlayers : list PlayerGame) (i : nat)
    (newPlayer localPlayer : PlayerGame) :
  game rt = Some currentGame ->
  players data = Some newPlayers ->
  players currentGame = Some currentPlayers ->
  NoDup (map pg_id currentPlayers) ->
  nth_error newPlayers i = Some newPlayer ->
  In localPlayer currentPlayers ->
  pg_id localPlayer = pg_id newPlayer ->
  holdsCards (cards localPlayer) = true ->
  cards newPlayer = CardsMissing \/ cards newPlayer = CardsArray []
    \/ cards newPlayer = CardsObject (Some []) ->
  exists merged mergedPlayers,
    game (afterPush c gameId data rt) = Some merged
    /\ players merged = Some mergedPlayers
    /\ nth_error mergedPlayers i = Some (withCards newPlayer (cards localPlayer))
    /\ merged = withPlayers data (Some mergedPlayers)
    /\ (forall j m, nth_error mergedPlayers j = Some m ->
          exists np, nth_error newPlayers j = Some np /\ m = withCards np (cards m)).
Proof.
  intros Hgame Hnew Hcur Hnd Hnth Hin Hid Hheld Hlack.
  exists (mergeGame data currentGame), (map (mergePlayer currentPlayers) newPlayers).
  rewrite afterPush_game, Hgame.
  unfold mergeGame. rewrite Hnew, Hcur.
  repeat split.
  - rewrite nth_error_map, Hnth. cbn. f_equal.
    unfold mergePlayer.
    rewrite (find_by_id currentPlayers localPlayer (pg_id newPlayer) Hnd Hin Hid).
    rewrite (holdsCards_truthy _ Hheld).
    destruct Hlack as [-> | [-> | ->]]; reflexivity.
  - intros j m Hj. rewrite nth_error_map in Hj.
    destruct (nth_error newPlayers j) as [np|]; [| discriminate].
    cbn in Hj. injection Hj as <-.
    exists np. split; [reflexivity | apply mergePlayer_only_cards].
Qed.

(** C2 on the sample table: alice's masked cards come back at seat 0. *)
Lemma C2_masking_carry_forward_witness :
  exists merged mergedPlayers,
    game (afterPush Sample.viewer 7 Sample.inboundGame
            (initialRuntime (Some Sample.localGame))) = Some merged
    /\ players merged = Some mergedPlayers
    /\ nth_error mergedPlayers 0
       = Some (withCards (withCards Sample.alice (CardsArray []))
                 (CardsArray ["AS"; "KD"]))
    /\ merged = withPlayers Sample.inboundGame (Some mergedPlayers)
    /\ (forall j m, nth_error mergedPlayers j = Some m ->
          exists np, nth_error [withCards Sample.alice (CardsArray []); Sample.bob] j
                     = Some np /\ m = withCards np (cards m)).
Proof.
  apply (C2_masking_carry_forward Sample.viewer 7
           (initialRuntime (Some Sample.localGame))
           Sample.inboundGame Sample.localGame
           [withCards Sample.alice (CardsArray []); Sample.bob]
           [Sample.alice; Sample.bob] 0
           (withCards Sample.alice (CardsArray [])) Sample.alice).
  - reflexivity.
  - reflexivity.
  - reflexivity.
  - cbn. repeat constructor; cbn; intuition discriminate.
  - reflexivity.
  - left. reflexivity.
  - reflexivity.
  - reflexivity.
  - right. left. reflexivity.
Defined.

(** Merging a snapshot into itself changes nothing when ids are unique. *)
Lemma mergeGame_self (data : Game) : uniqueIds data -> mergeGame data data = data.
Proof.
  unfold uniqueIds, mergeGame. intros Hu.
  destruct data as [gid st ph po cb cp hc wi tb cc [ps|]]; cbn in *; [| reflexivity].
  unfold withPlayers; cbn. f_equal. f_equal.
  transitivity (map (fun x : PlayerGame => x) ps); [| apply map_id].
  apply map_ext_in. intros x Hx.
  unfold mergePlayer.
  rewrite (find_by_id ps x (pg_id x) Hu Hx eq_refl).
  destruct (_ && _); [apply withCards_same | reflexivity].
Qed.

(** C1 (as stated, refuted): one and the same snapshot, delivered against
    the sample table, leaves different games on the two paths.  The poll
    stores alice's masked (empty) cards; the push keeps the cards the client
    held. *)
Lemma C1_poll_differs_from_push :
  let rt := initialRuntime (Some Sample.localGame) in
  cardsAt (afterPoll Sample.viewer Sample.inboundGame rt) 0 = Some (CardsArray [])
  /\ cardsAt (afterPush Sample.viewer 7 Sample.inboundGame rt) 0
     = Some (CardsArray ["AS"; "KD"])
  /\ game (afterPoll Sample.viewer Sample.inboundGame rt)
     <> game (afterPush Sample.viewer 7 Sample.inboundGame rt).
Proof.
  cbv zeta. unfold cardsAt.
  rewrite afterPoll_game, afterPush_game.
  repeat split; try reflexivity.
  cbn. intros H. discriminate H.
Qed.

(** C1 (amended): the push path stores the card-preserving merge, the poll
    path stores the inbound snapshot as it is.  When one snapshot with unique
    participant ids is delivered once on each path, the stored game is the
    same in either order: that snapshot. *)
Theorem C1_order_insensitive_on_equal_payloads
    (c c' : Closure) (gameId : Z) (data : Game) (rt : Runtime) :
  uniqueIds data ->
  game (afterPush c gameId data rt)
    = Some match game rt with
           | Some currentGame => mergeGame data currentGame
           | None => data
           end
  /\ game (afterPoll c' data rt) = Some data
  /\ game (afterPush c gameId data (afterPoll c' data rt)) = Some data
  /\ game (afterPoll c' data (afterPush c gameId data rt)) = Some data.
Proof.
  intros Hu. repeat split.
  - apply afterPush_game.
  - apply afterPoll_game.
  - rewrite afterPush_game, afterPoll_game, (mergeGame_self data Hu). reflexivity.
  - apply afterPoll_game.
Qed.

Lemma C1_order_insensitive_on_equal_payloads_witness :
  let rt := initialRuntime (Some Sample.localGame) in
  game (afterPush Sample.viewer 7 Sample.inboundGame
          (afterPoll Sample.viewer Sample.inboundGame rt))
  = game (afterPoll Sample.viewer Sample.inboundGame
            (afterPush Sample.viewer 7 Sample.inboundGame rt)).
Proof.
  cbv zeta.
  assert (Hu : uniqueIds Sample.inboundGame).
  { cbn. repeat constructor; cbn; intuition discriminate. }
  destruct (C1_order_insensitive_on_equal_payloads Sample.viewer Sample.viewer 7
              Sample.inboundGame (initialRuntime (Some Sample.localGame)) Hu)
    as (_ & _ & Hpp & Hpl).
  rewrite Hpp, Hpl. reflexivity.
Defined.

Lemma list_eqb_refl {A : Type} (eqb : A -> A -> bool) (l : list A) :
  (forall x, eqb x x = true) -> list_eqb eqb l l = true.
Proof.
  intros Hrefl. induction l as [|x l IH]; cbn; [reflexivity|].
  rewrite Hrefl, IH. reflexivity.
Qed.

Lemma option_eqb_refl {A : Type} (eqb : A -> A -> bool) (o : option A) :
  (forall x, eqb x x = true) -> option_eqb eqb o o = true.
Proof. intros Hrefl. destruct o; cbn; auto. Qed.

Lemma winner_eqb_refl (w : Winner) : winner_eqb w w = true.
Proof.
  unfold winner_eqb.
  rewrite String.eqb_refl, Z.eqb_refl, (option_eqb_refl _ _ String.eqb_refl).
  reflexivity.
Qed.

Lemma winnerInfo_eqb_refl (w : WinnerInfo) : winnerInfo_eqb w w = true.
Proof.
  unfold winnerInfo_eqb.
  rewrite (option_eqb_refl _ _ (fun l => list_eqb_refl winner_eqb l winner_eqb_refl)).
  rewrite (option_eqb_refl _ _ Z.eqb_refl), (option_eqb_refl _ _ String.eqb_refl).
  reflexivity.
Qed.

Lemma mergeGame_winner_info data cur : winner_info (mergeGame data cur) = winner_info data.
Proof. unfold mergeGame. destruct (players data), (players cur); reflexivity. Qed.

Lemma mergeGame_hand_count data cur : hand_count (mergeGame data cur) = hand_count data.
Proof. unfold mergeGame. destruct (players data), (players cur); reflexivity. Qed.

Lemma mergePlayer_cashed_out cps np : cashed_out (mergePlayer cps np) = cashed_out np.
Proof. rewrite mergePlayer_only_cards. reflexivity. Qed.

Lemma forallb_cashed_out_merge cps nps :
  forallb cashed_out (map (mergePlayer cps) nps) = forallb cashed_out nps.
Proof.
  induction nps as [|x nps IH]; cbn; [reflexivity|].
  rewrite mergePlayer_cashed_out, IH. reflexivity.
Qed.

(** The session-end test only reads fields the merge takes from the inbound
    snapshot. *)
Lemma sessionEnded_mergeGame data cur : sessionEnded (mergeGame data cur) = sessionEnded data.
Proof.
  unfold sessionEnded, mergeGame.
  destruct (players data) as [nps|] eqn:Hn; [| rewrite Hn; reflexivity].
  destruct (players cur) as [cps|]; [| rewrite Hn; reflexivity].
  cbn. rewrite length_map, forallb_cashed_out_merge. reflexivity.
Qed.

(** A snapshot merged into the game it produced shows no hand completion:
    its winner info is the stored one and its hand count is not larger. *)
Lemma no_completion_on_repeat data g1 :
  winner_info g1 = winner_info data ->
  hand_count g1 = hand_count data ->
  handJustCompleted (mergeGame data g1) g1 = false
  /\ newHandStarted (mergeGame data g1) g1 = false.
Proof.
  intros Hw Hh.
  unfold handJustCompleted, newHandStarted.
  rewrite mergeGame_winner_info, mergeGame_hand_count, Hw, Hh.
  split.
  - destruct (winner_info data) as [w|]; [| reflexivity].
    rewrite winnerInfo_eqb_refl. reflexivity.
  - destruct (hand_count data) as [n|]; cbn; [apply Z.ltb_irrefl | reflexivity].
Qed.

(** The game stored by a push has the snapshot's winner info and hand count. *)
Lemma afterPush_fields c gameId data rt g1 :
  game (afterPush c gameId data rt) = Some g1 ->
  winner_info g1 = winner_info data /\ hand_count g1 = hand_count data.
Proof.
  rewrite afterPush_game. intros [= <-].
  destruct (game rt); [| split; reflexivity].
  split; [apply mergeGame_winner_info | apply mergeGame_hand_count].
Qed.

(** C8 (as stated, refuted): the finished table's snapshot, pushed twice in
    a row, raises the completed-game message and arms the summary navigation
    on the second application as well. *)
Lemma C8_session_end_repeats :
  let rt1 := afterPush Sample.viewer 7 Sample.finishedGame
               (initialRuntime (Some Sample.localGame)) in
  let rt2 := afterPush Sample.viewer 7 Sample.finishedGame rt1 in
  scheduledNavigations (trace rt1) = [SetTimeout 2 2000 (Navigate (ToSummary 7))]
  /\ scheduledNavigations (trace rt2)
     = [SetTimeout 2 2000 (Navigate (ToSummary 7));
        SetTimeout 4 2000 (Navigate (ToSummary 7))]
  /\ List.length (messagesShown (trace rt2)) = 2%nat.
Proof. vm_compute. repeat split; reflexivity. Qed.

(** C8 (amended): when a snapshot is pushed again onto the game its first
    push produced, the second application detects no hand completion and
    puts no popup on screen.  The session-end reaction has no memory: the
    second application arms the summary navigation again exactly when the
    snapshot is a finished game whose seats, at least one, are all cashed
    out. *)
Theorem C8_repeat_emits_no_hand_completion
    (c1 c2 : Closure) (gameId : Z) (data : Game) (rt : Runtime) (g1 : Game)
    (r m : option nat) (n : nat) :
  game (afterPush c1 gameId data rt) = Some g1 ->
  let second := trace (afterPush c2 gameId data (quiet (Some g1) r m n)) in
  handCompletionDetected (mergeGame data g1) g1 = false
  /\ showsPopup second = false
  /\ scheduledNavigations second
     = if sessionEnded data
       then [SetTimeout (S n) 2000 (Navigate (ToSummary gameId))]
       else [].
Proof.
  intros Hg. destruct (afterPush_fields _ _ _ _ _ Hg) as [Hw Hh].
  destruct (no_completion_on_repeat data g1 Hw Hh) as [Hjc Hns].
  cbv zeta. split.
  { unfold handCompletionDetected. rewrite Hjc, Hns. reflexivity. }
  unfold afterPush, exec, onMessage, gameUpdater, notifyStatus.
  cbv [bind getGame quiet game].
  rewrite Hjc, Hns, sessionEnded_mergeGame. cbn [orb].
  destruct (winner_info (mergeGame data g1)), (sessionEnded data), m,
    (onConnectionStatusChange c2); run_handler.
Qed.

(** C8 on the sample table: the masked snapshot pushed twice. *)
Lemma C8_repeat_emits_no_hand_completion_witness :
  showsPopup
    (trace (afterPush Sample.viewer 7 Sample.inboundGame
              (quiet (Some (mergeGame Sample.inboundGame Sample.localGame))
                 None None 1))) = false.
Proof.
  apply (C8_repeat_emits_no_hand_completion Sample.viewer Sample.viewer 7
           Sample.inboundGame (initialRuntime (Some Sample.localGame))
           (mergeGame Sample.inboundGame Sample.localGame) None None 1%nat).
  reflexivity.
Defined.

(* ------------------------------------------------------------------ *)
(** ** Hand-result popup *)

(** What the popup decision issues: both setters, or nothing. *)
Lemma onHandCompletion_issued show current entry isReady isCashedOut :
  issued (onHandCompletion show current entry isReady isCashedOut)
  = if shouldShowPopup show current entry isReady isCashedOut
       || (isSplitPot entry && negb show)
    then [SetCurrentHandResult (Some entry); SetShowHandResults true]
    else [].
Proof.
  unfold issued, exec, onHandCompletion.
  destruct (_ || _); reflexivity.
Qed.

(** Only the two popup setters matter to the popup cells. *)
Lemma popupAfter_popupCmds (cs : list Cmd) (st : bool * option HandResult) :
  popupAfter cs st = popupAfter (popupCmds cs) st.
Proof.
  revert st. induction cs as [|x cs IH]; intros st; [reflexivity|].
  destruct x; cbn; auto.
Qed.

Lemma popupCount_popupCmds (cs : list Cmd) :
  popupCount cs = popupCount (popupCmds cs).
Proof.
  unfold popupCount, popupCmds.
  induction cs as [|x cs IH]; [reflexivity|].
  destruct x as [[|]| | | | | | | | | | | | | | | | |]; cbn; auto.
Qed.

Lemma showsPopup_popupCmds (cs : list Cmd) :
  showsPopup cs = showsPopup (popupCmds cs).
Proof.
  unfold showsPopup, popupCmds.
  induction cs as [|x cs IH]; [reflexivity|].
  destruct x as [[|]| | | | | | | | | | | | | | | | |]; cbn; auto.
Qed.

Lemma keepsPopup_ret {A : Type} (a : A) : keepsPopup (ret a).
Proof. intro rt. reflexivity. Qed.

Lemma keepsPopup_bind {A B : Type} (m : M A) (k : A -> M B) :
  keepsPopup m -> (forall a, keepsPopup (k a)) -> keepsPopup (bind m k).
Proof.
  intros Hm Hk rt. unfold bind.
  specialize (Hm rt). destruct (m rt) as [a rt1]. cbn in Hm.
  rewrite (Hk a rt1). exact Hm.
Qed.

Lemma keepsPopup_when (b : bool) (m : M unit) : keepsPopup m -> keepsPopup (when b m).
Proof. intros Hm. destruct b; [exact Hm | apply keepsPopup_ret]. Qed.

Lemma keepsPopup_emit (x : Cmd) : isPopupCmd x = false -> keepsPopup (emit x).
Proof.
  intros Hx rt. unfold emit, popupCmds. cbn [snd trace].
  rewrite filter_app. cbn [filter]. rewrite Hx. apply app_nil_r.
Qed.

Lemma keepsPopup_setTimeout (t : TimerTask) (ms : Z) : keepsPopup (setTimeout t ms).
Proof.
  intros rt. unfold setTimeout, popupCmds. cbn [snd trace].
  rewrite filter_app. cbn [filter isPopupCmd]. apply app_nil_r.
Qed.

Lemma keepsPopup_showMessage (text type : string) (duration : Z) :
  keepsPopup (showMessage text type duration).
Proof.
  unfold showMessage.
  apply keepsPopup_bind; [intro rt; reflexivity | intros [h|]].
  all: repeat (apply keepsPopup_bind; [| intros ?]);
    auto using keepsPopup_emit, keepsPopup_setTimeout, keepsPopup_ret.
  all: intro rt; reflexivity.
Qed.

Lemma keepsPopup_notifyStatus (c : Closure) (s : string) :
  keepsPopup (notifyStatus c s).
Proof.
  unfold notifyStatus.
  apply keepsPopup_bind; [apply keepsPopup_emit; reflexivity |].
  intros _. apply keepsPopup_when, keepsPopup_emit. reflexivity.
Qed.

(** What the popup decision adds to the log, whatever was logged before. *)
Lemma onHandCompletion_popupCmds show current entry isReady isCashedOut rt :
  popupCmds (trace (snd (onHandCompletion show current entry isReady isCashedOut rt)))
  = popupCmds (trace rt)
    ++ (if shouldShowPopup show current entry isReady isCashedOut
           || (isSplitPot entry && negb show)
        then [SetCurrentHandResult (Some entry); SetShowHandResults true]
        else []).
Proof.
  unfold onHandCompletion.
  destruct (_ || _).
  - unfold bind, emit, popupCmds. cbn [snd trace].
    rewrite <- app_assoc, filter_app. reflexivity.
  - cbn. symmetry. apply app_nil_r.
Qed.

(** The popup setters a pushed snapshot issues, for a handler of any
    render: both, with the entry built from the merged snapshot, when a hand
    completion is detected and the popup test passes; none otherwise. *)
Lemma gameUpdater_popupCmds (c : Closure) (gameId : Z) (data cur : Game) (rt : Runtime) :
  popupCmds (trace (snd (gameUpdater c gameId data (Some cur) rt)))
  = popupCmds (trace rt)
    ++ match winner_info data with
       | Some w =>
           let updated := mergeGame data cur in
           let entry := newHistoryEntry c updated cur w in
           if (handJustCompleted updated cur || newHandStarted updated cur)
              && (shouldShowPopup (showHandResults c) (currentHandResult c) entry
                    (currentPlayerIsReady (userInfo c) updated)
                    (currentPlayerIsCashedOut (userInfo c) updated)
                  || (isSplitPot entry && negb (showHandResults c)))
           then [SetCurrentHandResult (Some entry); SetShowHandResults true]
           else []
       | None => []
       end.
Proof.
  unfold gameUpdater, currentPlayerIsReady, currentPlayerIsCashedOut.
  set (updated := mergeGame data cur).
  assert (Hw : winner_info updated = winner_info data) by apply mergeGame_winner_info.
  assert (Hrest : keepsPopup
            (when (sessionEnded updated)
               (showMessage completedMessage "info" 3000 ;;;
                _ <- setTimeout (Navigate (ToSummary gameId)) 2000 ;; ret tt) ;;;
             ret updated)).
  { apply keepsPopup_bind; [| intros _; apply keepsPopup_ret].
    apply keepsPopup_when, keepsPopup_bind; [apply keepsPopup_showMessage |].
    intros _. apply keepsPopup_bind; [apply keepsPopup_setTimeout |].
    intros _. apply keepsPopup_ret. }
  unfold bind at 1.
  rewrite Hw. destruct (winner_info data) as [w|].
  - destruct (handJustCompleted updated cur || newHandStarted updated cur); cbn [andb].
    + pose proof (onHandCompletion_popupCmds (showHandResults c) (currentHandResult c)
                    (newHistoryEntry c updated cur w)
                    match findViewer (userInfo c) (players updated) with
                    | Some p => ready_for_next_hand p | None => false end
                    match findViewer (userInfo c) (players updated) with
                    | Some p => cashed_out p | None => false end rt) as Hpop.
      destruct (onHandCompletion _ _ _ _ _ rt) as [x rt1]. cbn [snd] in Hpop.
      rewrite (Hrest rt1). exact Hpop.
    + cbn [ret]. rewrite (Hrest rt). symmetry. apply app_nil_r.
  - cbn [ret]. rewrite (Hrest rt). symmetry. apply app_nil_r.
Qed.

(** With nothing displayed in its closure, the handler's popup test is the
    viewer's flags or a split pot. *)
Lemma popup_test_at_mount (entry : HandResult) (isReady isCashedOut : bool) :
  shouldShowPopup false None entry isReady isCashedOut || (isSplitPot entry && negb false)
  = (negb isReady && negb isCashedOut) || isSplitPot entry.
Proof. unfold shouldShowPopup. cbn. rewrite andb_true_r. reflexivity. Qed.

(** The popup setters a snapshot pushed to the open table issues. *)
Lemma pushed_popupCmds (c : Closure) (gameId : Z) (data cur : Game) (rt : Runtime) :
  game rt = Some cur ->
  popupCmds (trace (pushed c gameId data rt))
  = match winner_info data with
    | Some w =>
        let updated := mergeGame data cur in
        let entry := newHistoryEntry (mountClosure c) updated cur w in
        if (handJustCompleted updated cur || newHandStarted updated cur)
           && ((negb (currentPlayerIsReady (userInfo c) updated)
                && negb (currentPlayerIsCashedOut (userInfo c) updated))
               || isSplitPot entry)
        then [SetCurrentHandResult (Some entry); SetShowHandResults true]
        else []
    | None => []
    end.
Proof.
  intros Hgame.
  unfold pushed, afterPush, exec, onMessage.
  unfold bind at 1. unfold getGame. cbn [unlogged game]. rewrite Hgame.
  unfold bind at 1.
  pose proof (gameUpdater_popupCmds (mountClosure c) gameId data cur (unlogged rt))
    as Hupd.
  destruct (gameUpdater _ _ _ _ _) as [u rt1]. cbn [snd] in Hupd.
  change (popupCmds (trace (unlogged rt))) with (@nil Cmd) in Hupd.
  cbn [app] in Hupd.
  assert (Hrest : keepsPopup
            (setGame u ;;; notifyStatus (mountClosure c) "connected" ;;;
             emit (SetError None) ;;; emit (SetMessage None))).
  { apply keepsPopup_bind; [intro r0; reflexivity | intros _].
    apply keepsPopup_bind; [apply keepsPopup_notifyStatus | intros _].
    apply keepsPopup_bind; intros; apply keepsPopup_emit; reflexivity. }
  rewrite (Hrest rt1), Hupd.
  destruct (winner_info data) as [w|]; [| reflexivity].
  cbv zeta. cbn [showHandResults currentHandResult userInfo mountClosure].
  rewrite popup_test_at_mount. reflexivity.
Qed.

Lemma isSplitPot_many (entry : HandResult) :
  (1 < List.length (winners entry))%nat -> isSplitPot entry = true.
Proof. unfold isSplitPot. intros H. apply Z.ltb_lt. lia. Qed.

Lemma isSplitPot_few (entry : HandResult) :
  (List.length (winners entry) <= 1)%nat -> isSplitPot entry = false.
Proof. unfold isSplitPot. intros H. apply Z.ltb_ge. lia. Qed.

(** A detected completion passed the first half of the handler's test. *)
Lemma detected_completed (updated cur : Game) :
  handCompletionDetected updated cur = true ->
  handJustCompleted updated cur || newHandStarted updated cur = true.
Proof. unfold handCompletionDetected. intros H. apply andb_prop in H. apply H. Qed.

(** C5: a hand completion with more than one winner, detected by the message
    handler of the open table, always puts its own result on screen: whatever
    the viewer's flags, and whatever popup is displayed when the snapshot
    arrives, the popup cells end up holding the split pot's entry.  A result
    on display, of another hand or of this one, is replaced. *)
Theorem C5_split_pot_always_shown
    (c : Closure) (gameId : Z) (data cur : Game) (rt : Runtime)
    (w : WinnerInfo) (ws : list Winner) (screen : bool * option HandResult) :
  game rt = Some cur ->
  handCompletionDetected (mergeGame data cur) cur = true ->
  winner_info data = Some w ->
  wi_winners w = Some ws ->
  (1 < List.length ws)%nat ->
  let entry := newHistoryEntry (mountClosure c) (mergeGame data cur) cur w in
  let issuedNow := trace (pushed c gameId data rt) in
  winners entry = ws
  /\ handNumber entry = Js.numOr0 (Js.orNum (hand_count data) (hand_count cur))
  /\ popupCmds issuedNow = [SetCurrentHandResult (Some entry); SetShowHandResults true]
  /\ popupAfter issuedNow screen = (true, Some entry).
Proof.
  intros Hgame Hdet Hw Hws Hmany. cbv zeta.
  assert (Hwin : winners (newHistoryEntry (mountClosure c) (mergeGame data cur) cur w) = ws).
  { unfold newHistoryEntry. cbn [winners]. rewrite Hws. reflexivity. }
  assert (Hcmds : popupCmds (trace (pushed c gameId data rt))
                  = [SetCurrentHandResult
                       (Some (newHistoryEntry (mountClosure c) (mergeGame data cur) cur w));
                     SetShowHandResults true]).
  { rewrite (pushed_popupCmds c gameId data cur rt Hgame), Hw. cbv zeta.
    rewrite (detected_completed _ _ Hdet), isSplitPot_many by (rewrite Hwin; exact Hmany).
    rewrite orb_true_r. reflexivity. }
  repeat split.
  - exact Hwin.
  - unfold newHistoryEntry. cbn [handNumber]. rewrite mergeGame_hand_count. reflexivity.
  - exact Hcmds.
  - rewrite popupAfter_popupCmds, Hcmds. reflexivity.
Qed.

(** C5 on the sample table: the popup of hand 3 is on screen and alice is
    marked ready when the split pot of hand 4 is pushed; the popup then shows
    hand 4. *)
Lemma C5_split_pot_always_shown_witness :
  let screen :=
    popupAfter
      (trace (pushed Sample.viewer 7 Hands.splitPot
                (initialRuntime (Some Tables.betweenHands))))
      (true, Some Hands.handThree) in
  fst screen = true /\ option_map handNumber (snd screen) = Some 4.
Proof.
  assert (Hmany : (1 < List.length [mkWinner "alice" (Some "Straight") 30;
                                    mkWinner "bob" (Some "Straight") 30])%nat)
    by (cbn [List.length]; lia).
  destruct (C5_split_pot_always_shown Sample.viewer 7 Hands.splitPot Tables.betweenHands
              (initialRuntime (Some Tables.betweenHands))
              (mkWinnerInfo (Some [mkWinner "alice" (Some "Straight") 30;
                                   mkWinner "bob" (Some "Straight") 30])
                 (Some 60) (Some "Showdown"))
              [mkWinner "alice" (Some "Straight") 30; mkWinner "bob" (Some "Straight") 30]
              (true, Some Hands.handThree)
              eq_refl eq_refl eq_refl eq_refl Hmany)
    as (_ & _ & _ & Hscreen).
  cbv zeta. rewrite Hscreen. split; reflexivity.
Defined.

(** C7 (as stated, refuted): nothing is displayed, the viewer is marked
    ready, and a split pot completes: its popup is put up all the same. *)
Lemma C7_split_pot_shown_to_ready_viewer :
  issued (onHandCompletion false None Sample.splitHandTwo true false)
  = [SetCurrentHandResult (Some Sample.splitHandTwo); SetShowHandResults true].
Proof. reflexivity. Qed.

(** C7 (amended): when the snapshot of a detected completion marks the viewer
    ready or cashed out, the message handler of the open table puts no popup
    up for a hand with at most one winner and leaves the screen as it is; a
    hand with more than one winner is put up despite the flags, whatever is
    on screen. *)
Theorem C7_flags_suppress_all_but_split_pots
    (c : Closure) (gameId : Z) (data cur : Game) (rt : Runtime)
    (w : WinnerInfo) (screen : bool * option HandResult) :
  game rt = Some cur ->
  handCompletionDetected (mergeGame data cur) cur = true ->
  winner_info data = Some w ->
  currentPlayerIsReady (userInfo c) (mergeGame data cur) = true
    \/ currentPlayerIsCashedOut (userInfo c) (mergeGame data cur) = true ->
  let entry := newHistoryEntry (mountClosure c) (mergeGame data cur) cur w in
  let issuedNow := trace (pushed c gameId data rt) in
  ((List.length (winners entry) <= 1)%nat ->
     showsPopup issuedNow = false
     /\ popupCmds issuedNow = []
     /\ popupAfter issuedNow screen = screen)
  /\ ((1 < List.length (winners entry))%nat ->
        showsPopup issuedNow = true
        /\ popupAfter issuedNow screen = (true, Some entry)).
Proof.
  intros Hgame Hdet Hw Hflag. cbv zeta.
  pose proof (pushed_popupCmds c gameId data cur rt Hgame) as Hcmds.
  rewrite Hw in Hcmds. cbv zeta in Hcmds.
  rewrite (detected_completed _ _ Hdet) in Hcmds. cbn [andb] in Hcmds.
  assert (Hoff : negb (currentPlayerIsReady (userInfo c) (mergeGame data cur))
                 && negb (currentPlayerIsCashedOut (userInfo c) (mergeGame data cur))
                 = false).
  { destruct Hflag as [-> | ->]; [reflexivity | apply andb_false_r]. }
  rewrite Hoff in Hcmds. cbn [orb] in Hcmds.
  split; intros Hn.
  - rewrite (isSplitPot_few _ Hn) in Hcmds.
    rewrite showsPopup_popupCmds, popupAfter_popupCmds, Hcmds.
    repeat split; reflexivity.
  - rewrite (isSplitPot_many _ Hn) in Hcmds.
    rewrite showsPopup_popupCmds, popupAfter_popupCmds, Hcmds.
    split; reflexivity.
Qed.

(** C7 on the sample table: hand 3 is won outright and pushed with alice
    already marked ready; nothing is put up. *)
Lemma C7_flags_suppress_all_but_split_pots_witness :
  showsPopup
    (trace (pushed Sample.viewer 7 Hands.wonByReadyAlice
              (initialRuntime (Some Sample.localGame)))) = false.
Proof.
  assert (Hone : (List.length [mkWinner "alice" (Some "Pair") 40] <= 1)%nat)
    by (cbn [List.length]; lia).
  refine (proj1 (proj1
            (C7_flags_suppress_all_but_split_pots Sample.viewer 7 Hands.wonByReadyAlice
               Sample.localGame (initialRuntime (Some Sample.localGame))
               (mkWinnerInfo (Some [mkWinner "alice" (Some "Pair") 40])
                  (Some 40) (Some "Showdown"))
               (false, None) eq_refl eq_refl eq_refl (or_introl eq_refl)) Hone)).
Defined.

(** C6 (the code at the failing input): the message handler of the open
    table reads the popup cells of the render that mounted it, so its test
    "a popup for this hand is already showing" never finds one.  Every hand
    completion it detects for a viewer who is neither ready nor cashed out
    issues both popup setters and puts its entry on screen, whatever is
    displayed: a second completion of the hand on display, with the same
    single winner, shows the popup again. *)
Theorem C6_completion_shown_whatever_is_displayed
    (c : Closure) (gameId : Z) (data cur : Game) (rt : Runtime) (w : WinnerInfo) :
  game rt = Some cur ->
  handCompletionDetected (mergeGame data cur) cur = true ->
  winner_info data = Some w ->
  currentPlayerIsReady (userInfo c) (mergeGame data cur) = false ->
  currentPlayerIsCashedOut (userInfo c) (mergeGame data cur) = false ->
  let entry := newHistoryEntry (mountClosure c) (mergeGame data cur) cur w in
  let issuedNow := trace (pushed c gameId data rt) in
  popupCmds issuedNow = [SetCurrentHandResult (Some entry); SetShowHandResults true]
  /\ popupCount issuedNow = 1%nat
  /\ (forall screen, popupAfter issuedNow screen = (true, Some entry)).
Proof.
  intros Hgame Hdet Hw Hready Hcashed. cbv zeta.
  pose proof (pushed_popupCmds c gameId data cur rt Hgame) as Hcmds.
  rewrite Hw in Hcmds. cbv zeta in Hcmds.
  rewrite (detected_completed _ _ Hdet), Hready, Hcashed in Hcmds.
  cbn [andb negb orb] in Hcmds.
  split; [exact Hcmds |]. split.
  - rewrite popupCount_popupCmds, Hcmds. reflexivity.
  - intros screen. rewrite popupAfter_popupCmds, Hcmds. reflexivity.
Qed.

(** C6 on the sample table.  Hand 3 completes and is pushed: the popup goes
    up.  A poll tick then stores a snapshot taken before the completion, and
    the next push, sent when bob presses "ready", carries hand 3 and its
    winner again: the handler detects the completion a second time and puts
    the popup of hand 3, which is on display, up again. *)
Lemma C6_completion_shown_whatever_is_displayed_witness :
  let rt1 := pushed Sample.viewer 7 Tables.betweenHands
               (initialRuntime (Some Sample.localGame)) in
  let rt2 := afterPoll Hands.watching Sample.localGame rt1 in
  let rt3 := pushed Sample.viewer 7 Hands.bobReady rt2 in
  let screen1 := popupAfter (trace rt1) (false, None) in
  let screen3 := popupAfter (trace rt3) screen1 in
  screen1 = (true, Some Hands.handThree)
  /\ popupCount (trace rt1 ++ trace rt3) = 2%nat
  /\ fst screen3 = true
  /\ option_map handNumber (snd screen3) = Some 3
  /\ option_map winners (snd screen3) = Some [mkWinner "alice" (Some "Pair") 40].
Proof.
  cbv zeta.
  destruct (C6_completion_shown_whatever_is_displayed Sample.viewer 7
              Tables.betweenHands Sample.localGame
              (initialRuntime (Some Sample.localGame))
              (mkWinnerInfo (Some [mkWinner "alice" (Some "Pair") 40])
                 (Some 40) (Some "Showdown"))
              eq_refl eq_refl eq_refl eq_refl eq_refl)
    as (_ & Hcount1 & Hfirst).
  destruct (C6_completion_shown_whatever_is_displayed Sample.viewer 7
              Hands.bobReady Sample.localGame
              (afterPoll Hands.watching Sample.localGame
                 (pushed Sample.viewer 7 Tables.betweenHands
                    (initialRuntime (Some Sample.localGame))))
              (mkWinnerInfo (Some [mkWinner "alice" (Some "Pair") 40])
                 (Some 40) (Some "Showdown"))
              eq_refl eq_refl eq_refl eq_refl eq_refl)
    as (_ & Hcount3 & Hsecond).
  unfold popupCount in *. rewrite filter_app, length_app.
  rewrite Hfirst, Hcount1, Hcount3, Hsecond. repeat split; reflexivity.
Defined.

(* ------------------------------------------------------------------ *)
(** ** Pre-action queue *)

(** The code's chain resolves to an action exactly on the valid rows of the
    table, read against the game given to it. *)
Lemma resolvePreAction_valid (g : Game) (p : PlayerGame) (kind : string) (amount : Z) :
  preActionValid g p kind amount
  = match resolvePreAction g p kind amount with
    | Some _ => true
    | None => false
    end.
Proof.
  unfold preActionValid, resolvePreAction, callOwed.
  replace (2 * currentBet g) with (currentBet g * 2) by lia.
  fold (minRaise g).
  destruct (String.eqb_spec kind "CHECK_FOLD") as [-> | _].
  { destruct (canCheck g p); reflexivity. }
  destruct (String.eqb_spec kind "CALL") as [-> | _].
  { unfold canCheck. destruct (currentBet g =? playerBet p); reflexivity. }
  destruct (String.eqb_spec kind "CHECK") as [-> | _].
  { unfold canCheck. destruct (currentBet g =? playerBet p); reflexivity. }
  destruct (String.eqb_spec kind "FOLD") as [-> | _]; [reflexivity|].
  cbn [andb].
  destruct (String.eqb_spec kind "BET") as [-> | _].
  { cbn. destruct (_ && _); reflexivity. }
  destruct (String.eqb_spec kind "RAISE") as [-> | _]; cbn [andb].
  { destruct (_ && _); reflexivity. }
  reflexivity.
Qed.

Lemma issued_then_emit2 (m : M unit) (a b : Cmd) :
  issued (m ;;; emit a ;;; emit b) = issued m ++ [a; b].
Proof.
  unfold issued, exec, bind, emit.
  destruct (m (initialRuntime None)) as [u rt]. cbn.
  rewrite <- app_assoc. reflexivity.
Qed.

(** Whatever ran before, the two closing setters leave the queue empty. *)
Lemma preActionAfter_cleared (cs : list Cmd) (st : option string * Z) :
  preActionAfter (cs ++ [SetPreAction None; SetPreActionAmount 0]) st = (None, 0).
Proof.
  revert st. induction cs as [|x cs IH]; intros st; [reflexivity|].
  destruct x; cbn; apply IH.
Qed.

(** A well-formed action is sent to the server exactly once. *)
Lemma handleAction_submits (c : Closure) (a : string) (amount : option Z) :
  let amountToUse := match amount with Some n => n | None => betAmount c end in
  In a validActionTypes ->
  (isBetOrRaise a = true -> 0 <= amountToUse) ->
  submissions (issued (handleAction c a amount))
  = [TakeAction (id c) a amountToUse].
Proof.
  cbv zeta. intros Hin Hamount.
  unfold issued, exec, handleAction.
  set (amountToUse := match amount with Some n => n | None => betAmount c end) in *.
  assert (Hneg : isBetOrRaise a && (amountToUse <? 0) = false).
  { destruct (isBetOrRaise a); [| reflexivity].
    cbn. apply Z.ltb_ge. auto. }
  assert (Hvalid : negb (existsb (String.eqb a) validActionTypes) = false).
  { apply negb_false_iff, existsb_exists. exists a.
    split; [exact Hin | apply String.eqb_refl]. }
  rewrite Hvalid, Hneg.
  destruct (isBetOrRaise a && (0 <? amountToUse));
    destruct (takeActionError c (id c) a amountToUse); reflexivity.
Qed.

(** What the chain resolves to is an action the server knows, and a bet or
    raise it resolves to carries a non-negative amount when the big blind is
    not negative. *)
Lemma resolvePreAction_wellformed (g : Game) (p : PlayerGame) (kind : string)
    (amt : Z) (a : string) (amount : option Z) :
  resolvePreAction g p kind amt = Some (a, amount) ->
  0 <= minBet g ->
  In a validActionTypes
  /\ (isBetOrRaise a = true -> amount = Some amt /\ 0 <= amt).
Proof.
  unfold resolvePreAction, minRaise. intros Hres Hbb.
  repeat match type of Hres with
         | context [if ?b then _ else _] => destruct b eqn:?
         end;
    inversion Hres; subst; clear Hres; cbn;
    (split; [tauto | intros Hbr; try discriminate Hbr]).
  - repeat match goal with
           | H : _ && _ = true |- _ => apply andb_prop in H; destruct H
           end.
    split; [reflexivity | lia].
  - repeat match goal with
           | H : _ && _ = true |- _ => apply andb_prop in H; destruct H
           end.
    split; [reflexivity | lia].
Qed.

(** C3: when the turn arrives at a seated viewer who has not cashed out and
    has a pre-action queued, the pre-action is judged by the validity table
    read against the game of that moment.  A pre-action that fails its row is
    dropped: nothing is sent to the server and no message is raised.  In
    every case, also when the server rejects the action, the queue is empty
    afterwards.  A pre-action that passes its row is sent once. *)
Theorem C3_turn_arrival_resolution
    (c : Closure) (g : Game) (ps : list PlayerGame) (p : PlayerGame) (kind : string) :
  players g = Some ps ->
  findCurrentPlayer (userInfo c) ps = Some p ->
  isMyTurn g (Some p) = true ->
  cashed_out p = false ->
  preAction c = Some kind ->
  kind <> "" ->
  let cmds := issued (turnArrival c (Some g)) in
  let valid := preActionValid g p kind (preActionAmount c) in
  preActionAfter cmds (preAction c, preActionAmount c) = (None, 0)
  /\ (valid = false ->
      cmds = [SetPreAction None; SetPreActionAmount 0]
      /\ submissions cmds = [] /\ messagesShown cmds = [])
  /\ (valid = true -> 0 <= minBet g ->
      exists a amount,
        resolvePreAction g p kind (preActionAmount c) = Some (a, amount)
        /\ submissions cmds
           = [TakeAction (id c) a
                (match amount with Some n => n | None => betAmount c end)]).
Proof.
  intros Hps Hseat Hturn Hcash Hpre Hkind. cbv zeta.
  assert (Hdue : preActionDue c (Some g) = Some (g, p, kind)).
  { unfold preActionDue. rewrite Hps, Hseat, Hturn, Hcash, Hpre. cbn.
    apply String.eqb_neq in Hkind. rewrite Hkind. reflexivity. }
  unfold turnArrival. rewrite Hdue. unfold executePreAction.
  rewrite issued_then_emit2, resolvePreAction_valid.
  split; [apply preActionAfter_cleared |].
  destruct (resolvePreAction g p kind (preActionAmount c)) as [[a amount]|] eqn:Hres.
  - split; [discriminate|].
    intros _ Hbb.
    destruct (resolvePreAction_wellformed _ _ _ _ _ _ Hres Hbb) as [Hin Hamt].
    exists a, amount. split; [reflexivity|].
    unfold submissions. rewrite filter_app. cbn. rewrite app_nil_r.
    apply handleAction_submits; [exact Hin |].
    intros Hbr. destruct (Hamt Hbr) as [-> Hpos]. exact Hpos.
  - split; [| discriminate].
    intros _. repeat split; reflexivity.
Qed.

(** C3 on the sample table: alice queued a raise to 20; bob's bet of 50 has
    made the minimum raise 100, and at her turn the raise is dropped. *)
Lemma C3_turn_arrival_resolution_witness :
  issued (turnArrival Sample.raiser (Some Sample.raisedGame))
  = [SetPreAction None; SetPreActionAmount 0].
Proof.
  refine (proj1 (proj1 (proj2
            (C3_turn_arrival_resolution Sample.raiser Sample.raisedGame
               [Sample.alice; Sample.bob] Sample.alice "RAISE"
               eq_refl eq_refl eq_refl eq_refl eq_refl _)) eq_refl)).
  discriminate.
Defined.

(** A queued call on the sample table, where 10 is owed: it is sent when the
    turn arrives, with the bet input as its amount, and the queue is
    cleared. *)
Example queued_call_is_sent :
  submissions (issued (turnArrival Sample.caller (Some Sample.inboundGame)))
  = [TakeAction 7 "CALL" 0]
  /\ preActionAfter (issued (turnArrival Sample.caller (Some Sample.inboundGame)))
       (Some "CALL", 0) = (None, 0).
Proof. split; reflexivity. Qed.

(** With the turn elsewhere nothing is resolved and the queue is kept. *)
Example no_resolution_off_turn :
  issued (turnArrival Sample.caller (Some Sample.localGame)) = [].
Proof. reflexivity. Qed.

(** A lost connection (1006) arms a reconnect in [onError] and replaces it in
    [onClose]: one reconnect is left pending. *)
Example close_1006_one_pending_reconnect :
  pendingReconnects
    (exec (socketClosed Sample.viewer 7 (mkCloseEvent 1006)) (initialRuntime None))
  = [mkTimer 3 3000 (Reconnect 7)].
Proof. reflexivity. Qed.

(* ------------------------------------------------------------------ *)
(** ** Timer discipline *)

Lemma handles_distinct_kept (keep : Timer -> bool) (ts : list Timer)
    (Hts : NoDup (map handle ts)) :
  NoDup (map handle (filter keep ts)).
Proof.
  induction ts as [|t ts IH]; cbn in *; [exact Hts|].
  inversion Hts as [|? ? Hfresh Hrest]; subst.
  destruct (keep t); cbn; [constructor|]; auto.
  intros Hin. apply Hfresh.
  apply in_map_iff in Hin. destruct Hin as (y & Hy & Hiny).
  apply filter_In in Hiny. apply in_map_iff. exists y. tauto.
Qed.

Lemma keepsTimers_ret {A : Type} (a : A) : keepsTimers (ret a).
Proof. intros rt H. exact H. Qed.

Lemma keepsTimers_bind {A B : Type} (m : M A) (k : A -> M B) :
  keepsTimers m -> (forall a, keepsTimers (k a)) -> keepsTimers (bind m k).
Proof.
  intros Hm Hk rt Hrt. unfold bind.
  specialize (Hm rt Hrt). destruct (m rt) as [a rt']. cbn in Hm.
  apply Hk. exact Hm.
Qed.

Lemma keepsTimers_when (b : bool) (m : M unit) :
  keepsTimers m -> keepsTimers (when b m).
Proof. intros Hm. destruct b; [exact Hm | apply keepsTimers_ret]. Qed.

Lemma keepsTimers_emit (c : Cmd) : keepsTimers (emit c).
Proof. intros rt [H1 H2 H3 H4 H5 H6]. constructor; cbn; assumption. Qed.

Lemma keepsTimers_setGame (g : Game) : keepsTimers (setGame g).
Proof. intros rt [H1 H2 H3 H4 H5 H6]. constructor; cbn; assumption. Qed.

Lemma keepsTimers_getGame : keepsTimers getGame.
Proof. intros rt H. exact H. Qed.

(** Cancelling a timer never breaks the discipline. *)
Lemma keepsTimers_clearTimeout (h : nat) : keepsTimers (clearTimeout h).
Proof.
  intros rt [H1 H2 H3 H4 H5 H6]. constructor; cbn; auto.
  - intros t Ht. apply filter_In in Ht. apply H1. tauto.
  - apply handles_distinct_kept. exact H2.
  - intros t Ht. apply filter_In in Ht. apply H5. tauto.
  - intros t Ht. apply filter_In in Ht. apply H6. tauto.
Qed.

(** A timer table grown by a freshly armed timer. *)
Lemma timersOk_grow (rt : Runtime) (old : list Timer) (ms : Z) (t : TimerTask)
    (r m : option nat) (g : option Game) (tr : list Cmd) :
  timersOk rt ->
  (forall x, In x old -> In x (timers rt)) ->
  NoDup (map handle old) ->
  (if isReconnect t
   then r = Some (nextHandle rt)
        /\ forall x, In x old -> isReconnect (task x) = false
   else r = reconnectTimeoutRef rt) ->
  (if isHide t
   then m = Some (nextHandle rt)
        /\ forall x, In x old -> isHide (task x) = false
   else m = messageTimeoutRef rt) ->
  timersOk {| game := g;
              reconnectTimeoutRef := r;
              messageTimeoutRef := m;
              timers := old ++ [mkTimer (nextHandle rt) ms t];
              nextHandle := S (nextHandle rt);
              trace := tr |}.
Proof.
  intros [H1 H2 H3 H4 H5 H6] Hsub Hnd Hrec Hhide.
  assert (Hlt : forall x, In x old -> (handle x < nextHandle rt)%nat).
  { intros x Hx. apply H1, Hsub, Hx. }
  constructor; cbn.
  - intros x Hx. apply in_app_or in Hx. destruct Hx as [Hx | [<- | []]]; cbn.
    + specialize (Hlt x Hx). lia.
    + lia.
  - rewrite map_app. cbn. apply NoDup_app; [exact Hnd | repeat constructor; auto |].
    intros a Ha [<- | []]. apply in_map_iff in Ha. destruct Ha as (x & Hx & Hin).
    specialize (Hlt x Hin). lia.
  - intros h Hh. destruct (isReconnect t).
    + destruct Hrec as [-> _]. injection Hh as <-. lia.
    + subst r. specialize (H3 h Hh). lia.
  - intros h Hh. destruct (isHide t).
    + destruct Hhide as [-> _]. injection Hh as <-. lia.
    + subst m. specialize (H4 h Hh). lia.
  - intros x Hx. apply in_app_or in Hx. destruct Hx as [Hx | [<- | []]]; cbn.
    + destruct (isReconnect t).
      * destruct Hrec as [-> Hnone]. rewrite (Hnone x Hx).
        split; [discriminate |]. intros [= He]. specialize (Hlt x Hx). lia.
      * subst r. apply H5, Hsub, Hx.
    + destruct (isReconnect t).
      * destruct Hrec as [-> _]. tauto.
      * subst r. split; [discriminate |]. intros He. specialize (H3 _ He). lia.
  - intros x Hx. apply in_app_or in Hx. destruct Hx as [Hx | [<- | []]]; cbn.
    + destruct (isHide t).
      * destruct Hhide as [-> Hnone]. rewrite (Hnone x Hx).
        split; [discriminate |]. intros [= He]. specialize (Hlt x Hx). lia.
      * subst m. apply H6, Hsub, Hx.
    + destruct (isHide t).
      * destruct Hhide as [-> _]. tauto.
      * subst m. split; [discriminate |]. intros He. specialize (H4 _ He). lia.
Qed.

(** Arming a timer that is neither a reconnect nor an auto-hide keeps it. *)
Lemma keepsTimers_setTimeout_other (t : TimerTask) (ms : Z) :
  isReconnect t = false -> isHide t = false -> keepsTimers (setTimeout t ms).
Proof.
  intros Hr Hh rt Hok. unfold setTimeout. cbn.
  apply (timersOk_grow rt); auto.
  - apply Hok.
  - rewrite Hr. reflexivity.
  - rewrite Hh. reflexivity.
Qed.

(** With the ref's timer cancelled, or no timer in the ref, no timer of the
    ref's kind is left. *)
Lemma none_left_after_cancel (l : list Timer) (p : Timer -> bool) (ref : option nat) :
  (forall t, In t l -> (p t = true <-> ref = Some (handle t))) ->
  forall x, In x (cancelled ref l) -> p x = false.
Proof.
  intros Htr x Hx. destruct (p x) eqn:Ex; [| reflexivity]. exfalso.
  unfold cancelled in Hx. destruct ref as [h|].
  - apply filter_In in Hx. destruct Hx as [Hin Hne].
    apply (Htr x Hin) in Ex. injection Ex as ->.
    rewrite Nat.eqb_refl in Hne. discriminate.
  - apply (Htr x Hx) in Ex. discriminate.
Qed.

(** [scheduleReconnect] cancels the reconnect it replaces. *)
Lemma keepsTimers_scheduleReconnect (gameId : Z) : keepsTimers (scheduleReconnect gameId).
Proof.
  intros rt Hok. pose proof Hok as [H1 H2 H3 H4 H5 H6].
  pose proof (none_left_after_cancel (timers rt) (fun t => isReconnect (task t))
                (reconnectTimeoutRef rt) H5) as Hnone.
  unfold scheduleReconnect, bind, getReconnectTimeoutRef, setReconnectTimeoutRef,
    setTimeout, clearTimeout, ret.
  unfold cancelled in Hnone.
  destruct (reconnectTimeoutRef rt) as [h|]; cbn.
  - apply (timersOk_grow rt); cbn; auto.
    + intros x Hx. apply filter_In in Hx. tauto.
    + apply handles_distinct_kept. exact H2.
  - apply (timersOk_grow rt); cbn; auto.
Qed.

(** [showMessage] cancels the auto-hide it replaces. *)
Lemma keepsTimers_showMessage (text type : string) (duration : Z) :
  keepsTimers (showMessage text type duration).
Proof.
  intros rt Hok. pose proof Hok as [H1 H2 H3 H4 H5 H6].
  pose proof (none_left_after_cancel (timers rt) (fun t => isHide (task t))
                (messageTimeoutRef rt) H6) as Hnone.
  unfold showMessage, bind, getMessageTimeoutRef, setMessageTimeoutRef,
    setTimeout, clearTimeout, emit, ret.
  unfold cancelled in Hnone.
  destruct (messageTimeoutRef rt) as [h|]; cbn.
  - apply (timersOk_grow rt); cbn; auto.
    + intros x Hx. apply filter_In in Hx. tauto.
    + apply handles_distinct_kept. exact H2.
  - apply (timersOk_grow rt); cbn; auto.
Qed.

Lemma keepsTimers_notifyStatus c s : keepsTimers (notifyStatus c s).
Proof.
  unfold notifyStatus.
  apply keepsTimers_bind; [apply keepsTimers_emit |].
  intros _. apply keepsTimers_when, keepsTimers_emit.
Qed.

(** A message followed by a delayed navigation. *)
Lemma keepsTimers_message_then_navigate text type r :
  keepsTimers (showMessage text type 3000 ;;;
               _ <- setTimeout (Navigate r) 2000 ;; ret tt).
Proof.
  apply keepsTimers_bind; [apply keepsTimers_showMessage | intros _].
  apply keepsTimers_bind; [| intros _; apply keepsTimers_ret].
  apply keepsTimers_setTimeout_other; reflexivity.
Qed.

Lemma keepsTimers_onError c gameId msg : keepsTimers (onError c gameId msg).
Proof.
  unfold onError.
  apply keepsTimers_bind; [apply keepsTimers_notifyStatus | intros _].
  destruct (msg =? "Game not found")%string.
  - apply keepsTimers_message_then_navigate.
  - apply keepsTimers_bind; [apply keepsTimers_showMessage | intros _].
    apply keepsTimers_scheduleReconnect.
Qed.

Lemma keepsTimers_onClose c gameId ev : keepsTimers (onClose c gameId ev).
Proof.
  unfold onClose.
  apply keepsTimers_bind; [apply keepsTimers_notifyStatus | intros _].
  destruct (_ && _); [apply keepsTimers_scheduleReconnect |].
  destruct (code ev =? 4004); [| apply keepsTimers_ret].
  apply keepsTimers_message_then_navigate.
Qed.

Lemma keepsTimers_call {A : Type} (cb : option (A -> M unit)) (a : A) :
  (forall f, cb = Some f -> keepsTimers (f a)) -> keepsTimers (GameService.call cb a).
Proof.
  intros H. destruct cb as [f|]; cbn; [apply H; reflexivity | apply keepsTimers_ret].
Qed.

Lemma keepsTimers_socketClosed c gameId ev : keepsTimers (socketClosed c gameId ev).
Proof.
  unfold socketClosed, GameService.socket_onclose.
  apply keepsTimers_bind.
  - repeat match goal with
           | |- keepsTimers (if ?b then _ else _) => destruct b
           end;
      try apply keepsTimers_ret;
      (apply keepsTimers_bind; [apply keepsTimers_emit | intros _]);
      apply keepsTimers_onError.
  - intros _. apply keepsTimers_onClose.
Qed.

Lemma keepsTimers_onHandCompletion show cur entry r co :
  keepsTimers (onHandCompletion show cur entry r co).
Proof.
  unfold onHandCompletion.
  destruct (_ || _); [| apply keepsTimers_ret].
  apply keepsTimers_bind; [apply keepsTimers_emit | intros _; apply keepsTimers_emit].
Qed.

Lemma keepsTimers_gameUpdater c gameId data cur :
  keepsTimers (gameUpdater c gameId data cur).
Proof.
  unfold gameUpdater. destruct cur as [cur|]; [| apply keepsTimers_ret].
  apply keepsTimers_bind.
  - destruct (winner_info _); [| apply keepsTimers_ret].
    destruct (_ || _); [apply keepsTimers_onHandCompletion | apply keepsTimers_ret].
  - intros _. apply keepsTimers_bind; [| intros _; apply keepsTimers_ret].
    apply keepsTimers_when, keepsTimers_message_then_navigate.
Qed.

Lemma keepsTimers_onMessage c gameId data : keepsTimers (onMessage c gameId data).
Proof.
  unfold onMessage. destruct data as [|g].
  - apply keepsTimers_message_then_navigate.
  - apply keepsTimers_bind; [apply keepsTimers_getGame | intros cur].
    apply keepsTimers_bind; [apply keepsTimers_gameUpdater | intros g'].
    apply keepsTimers_bind; [apply keepsTimers_setGame | intros _].
    apply keepsTimers_bind; [apply keepsTimers_notifyStatus | intros _].
    apply keepsTimers_bind; intros; apply keepsTimers_emit.
Qed.

Lemma keepsTimers_deliver c gameId ev : keepsTimers (deliver c gameId ev).
Proof.
  destruct ev as [e | | parsed]; cbn.
  - apply keepsTimers_socketClosed.
  - unfold GameService.socket_onerror.
    apply keepsTimers_bind; [apply keepsTimers_emit | intros _].
    cbn. apply keepsTimers_onError.
  - unfold GameService.socket_onmessage. destruct parsed as [data|].
    + apply keepsTimers_onMessage.
    + apply keepsTimers_bind; [apply keepsTimers_emit | intros _].
      cbn. apply keepsTimers_onError.
Qed.

Lemma keepsTimers_poll c response : keepsTimers (poll c response).
Proof.
  unfold poll. destruct response as [g|]; [| apply keepsTimers_ret].
  apply keepsTimers_bind; [apply keepsTimers_setGame | intros _].
  destruct (winner_info g); [| apply keepsTimers_ret].
  destruct (_ && _); [| apply keepsTimers_ret].
  destruct (_ && _); [| apply keepsTimers_ret].
  apply keepsTimers_bind; [apply keepsTimers_emit | intros _; apply keepsTimers_emit].
Qed.

Lemma keepsTimers_handleAction c a amount : keepsTimers (handleAction c a amount).
Proof.
  unfold handleAction.
  apply keepsTimers_bind; [apply keepsTimers_emit | intros _].
  apply keepsTimers_bind; [| intros _; apply keepsTimers_emit].
  destruct (negb _).
  { apply keepsTimers_bind; [apply keepsTimers_showMessage | intros _].
    apply keepsTimers_emit. }
  destruct (_ && _).
  { apply keepsTimers_bind; [apply keepsTimers_showMessage | intros _].
    apply keepsTimers_emit. }
  apply keepsTimers_bind; [apply keepsTimers_when, keepsTimers_emit | intros _].
  apply keepsTimers_bind; [apply keepsTimers_emit | intros _].
  apply keepsTimers_bind; [apply keepsTimers_emit | intros _].
  destruct (takeActionError _ _ _ _).
  - apply keepsTimers_bind; [apply keepsTimers_emit | intros _].
    apply keepsTimers_showMessage.
  - repeat (apply keepsTimers_bind; [apply keepsTimers_emit | intros _]).
    apply keepsTimers_emit.
Qed.

Lemma keepsTimers_turnArrival c g : keepsTimers (turnArrival c g).
Proof.
  unfold turnArrival. destruct (preActionDue c g) as [[[g' p] kind]|];
    [| apply keepsTimers_ret].
  unfold executePreAction.
  apply keepsTimers_bind.
  - destruct (resolvePreAction _ _ _ _) as [[a amt]|];
      [apply keepsTimers_handleAction | apply keepsTimers_ret].
  - intros _. apply keepsTimers_bind; intros; apply keepsTimers_emit.
Qed.

Lemma keepsTimers_react gameId e : keepsTimers (react gameId e).
Proof.
  destruct e as [c [sev | response | a amount | ]]; cbn.
  - apply keepsTimers_deliver.
  - apply keepsTimers_poll.
  - apply keepsTimers_handleAction.
  - apply keepsTimers_bind; [apply keepsTimers_getGame | intros g].
    apply keepsTimers_turnArrival.
Qed.

Lemma timersOk_initial g : timersOk (initialRuntime g).
Proof.
  constructor; cbn; try constructor; try contradiction; discriminate.
Qed.

Lemma timersOk_reactAll gameId es rt :
  timersOk rt -> timersOk (reactAll gameId es rt).
Proof.
  revert rt. induction es as [|e es IH]; intros rt Hok; [exact Hok|].
  cbn. apply IH. apply keepsTimers_react. exact Hok.
Qed.

(** Timers of one kind that all carry the ref's handle are at most one. *)
Lemma tracked_at_most_one (l : list Timer) (p : Timer -> bool) (h : option nat) :
  NoDup (map handle l) ->
  (forall t, In t l -> (p t = true <-> h = Some (handle t))) ->
  (List.length (filter p l) <= 1)%nat.
Proof.
  intros Hnd Htr.
  assert (Hnd' : NoDup (map handle (filter p l))) by (apply handles_distinct_kept; exact Hnd).
  assert (Hall : forall t, In t (filter p l) -> h = Some (handle t)).
  { intros t Ht. apply filter_In in Ht. destruct Ht as [Hin Hp]. apply (Htr t Hin), Hp. }
  destruct (filter p l) as [|a [|b rest]]; cbn; try lia.
  exfalso. cbn in Hnd'. inversion Hnd' as [|? ? Hnotin _]; subst.
  apply Hnotin. left.
  pose proof (Hall a (or_introl eq_refl)) as Ha.
  pose proof (Hall b (or_intror (or_introl eq_refl))) as Hb.
  congruence.
Qed.

(** X1: whatever socket events, poll ticks, betting actions and pre-action
    timers follow the mount, in whatever order, at most one reconnect and at
    most one message auto-hide are pending, and the pending one is the one
    its ref holds. *)
Theorem X1_one_reconnect_one_autohide
    (gameId : Z) (es : list (Closure * AppEvent)) (g : option Game) :
  let rt := reactAll gameId es (initialRuntime g) in
  (List.length (pendingReconnects rt) <= 1)%nat
  /\ (List.length (pendingHides rt) <= 1)%nat
  /\ (forall t, In t (pendingReconnects rt) -> reconnectTimeoutRef rt = Some (handle t))
  /\ (forall t, In t (pendingHides rt) -> messageTimeoutRef rt = Some (handle t)).
Proof.
  cbv zeta.
  pose proof (timersOk_reactAll gameId es _ (timersOk_initial g)) as [H1 H2 H3 H4 H5 H6].
  unfold pendingReconnects, pendingHides. repeat split.
  - eapply tracked_at_most_one; [exact H2 |].
    intros t Ht. apply (H5 t Ht).
  - eapply tracked_at_most_one; [exact H2 |].
    intros t Ht. apply (H6 t Ht).
  - intros t Ht. apply filter_In in Ht. destruct Ht as [Hin Hp]. apply (H5 t Hin), Hp.
  - intros t Ht. apply filter_In in Ht. destruct Ht as [Hin Hp]. apply (H6 t Hin), Hp.
Qed.

Lemma filter_none {A : Type} (p : A -> bool) (l : list A) :
  (forall x, In x l -> p x = false) -> filter p l = [].
Proof.
  induction l as [|x l IH]; cbn; intros H; [reflexivity|].
  rewrite (H x (or_introl eq_refl)). apply IH. intros y Hy. apply H. right. exact Hy.
Qed.

Lemma cancelled_incl (ref : option nat) (l : list Timer) (x : Timer) :
  In x (cancelled ref l) -> In x l.
Proof.
  unfold cancelled. destruct ref; [| auto].
  intros Hx. apply filter_In in Hx. tauto.
Qed.

(** Cancelling the ref's timer removes nothing of another kind. *)
Lemma cancel_keeps_other_kinds (l : list Timer) (p q : Timer -> bool) (ref : option nat) :
  (forall t, In t l -> (p t = true <-> ref = Some (handle t))) ->
  (forall t, q t = true -> p t = false) ->
  filter q (cancelled ref l) = filter q l.
Proof.
  intros Htr Hpq. unfold cancelled. destruct ref as [h|]; [| reflexivity].
  induction l as [|x l IH]; [reflexivity|].
  cbn. assert (IH' := IH (fun t Ht => Htr t (or_intror Ht))).
  destruct (handle x =? h)%nat eqn:E; cbn.
  - destruct (q x) eqn:Eq; [| exact IH'].
    exfalso. apply Nat.eqb_eq in E.
    assert (Hp : p x = true) by (apply (Htr x (or_introl eq_refl)); congruence).
    rewrite (Hpq x Eq) in Hp. discriminate.
  - rewrite IH'. reflexivity.
Qed.

(** What the cleanup does to the runtime. *)
Lemma cleanup_timers (socket : option Socket) (rt : Runtime) :
  timers (exec (cleanup socket) rt)
  = cancelled (messageTimeoutRef rt) (cancelled (reconnectTimeoutRef rt) (timers rt)).
Proof.
  unfold exec, cleanup, bind, getReconnectTimeoutRef, getMessageTimeoutRef, cancelled.
  destruct (reconnectTimeoutRef rt), (messageTimeoutRef rt) eqn:Em; cbn;
    rewrite ?Em; reflexivity.
Qed.

(** X2: on unmount, after any run of events, the cleanup leaves no reconnect
    and no message auto-hide pending, and calls [close] exactly when a
    socket is held.  It cancels nothing else: a navigation armed by a
    handler stays pending and will fire after the unmount. *)
Theorem X2_cleanup_cancels_reconnect_and_autohide
    (gameId : Z) (es : list (Closure * AppEvent)) (g : option Game)
    (socket : option Socket) :
  let rt := reactAll gameId es (initialRuntime g) in
  let rt' := exec (cleanup socket) rt in
  pendingReconnects rt' = []
  /\ pendingHides rt' = []
  /\ pendingNavigations rt' = pendingNavigations rt
  /\ eval (cleanup socket) rt = match socket with Some _ => true | None => false end.
Proof.
  cbv zeta.
  pose proof (timersOk_reactAll gameId es _ (timersOk_initial g)) as Hok.
  set (rt := reactAll gameId es (initialRuntime g)) in *.
  destruct Hok as [H1 H2 H3 H4 H5 H6].
  assert (H6' : forall t, In t (cancelled (reconnectTimeoutRef rt) (timers rt)) ->
                  (isHide (task t) = true <-> messageTimeoutRef rt = Some (handle t))).
  { intros t Ht. apply H6. eapply cancelled_incl, Ht. }
  unfold pendingReconnects, pendingHides, pendingNavigations.
  rewrite cleanup_timers. repeat split.
  - apply filter_none. intros x Hx. apply cancelled_incl in Hx.
    apply (none_left_after_cancel _ (fun t => isReconnect (task t)) _ H5 x Hx).
  - apply filter_none. intros x Hx.
    apply (none_left_after_cancel _ (fun t => isHide (task t)) _ H6' x Hx).
  - rewrite (cancel_keeps_other_kinds _ (fun t => isHide (task t))
               (fun t => isNavigate (task t)) _ H6')
      by (intros t; destruct (task t); cbn; congruence).
    apply (cancel_keeps_other_kinds _ (fun t => isReconnect (task t))
             (fun t => isNavigate (task t)) _ H5).
    intros t; destruct (task t); cbn; congruence.
  - unfold eval, cleanup, bind, getReconnectTimeoutRef, getMessageTimeoutRef.
    destruct (reconnectTimeoutRef rt); cbn;
      match goal with
      | |- context [match ?m with Some _ => _ | None => _ end] => destruct m
      end; reflexivity.
Qed.

(* ------------------------------------------------------------------ *)
(** ** Transport: retryable closures, failed connects, bad messages *)

(** Running a handler whose timer table stays symbolic: evaluate, split on
    one handle comparison, evaluate again, until none is left. *)
Ltac run_handler_deep :=
  cbv -[Nat.eqb];
  repeat (rewrite ?Nat.eqb_refl;
          match goal with
          | |- context [Nat.eqb ?a ?b] =>
              let E := fresh "E" in destruct (Nat.eqb a b) eqn:E
          end;
          cbv -[Nat.eqb]);
  rewrite ?Nat.eqb_refl; cbv -[Nat.eqb];
  repeat match goal with
         | E : Nat.eqb _ _ = true |- _ => apply Nat.eqb_eq in E
         | E : Nat.eqb _ _ = false |- _ => apply Nat.eqb_neq in E
         end;
  first [ exfalso; lia | repeat split; reflexivity ].

(** X3: a closure with any code other than 1000, 4001, 4003 and 4004 leaves
    exactly one reconnect pending, 3000 ms ahead, held by
    [reconnectTimeoutRef], and arms no navigation.  This covers 1006, where
    [onError] arms a reconnect first and [onClose] replaces it. *)
Theorem X3_retryable_close_one_pending_reconnect
    (c : Closure) (gameId : Z) (ev : CloseEvent)
    (g : option Game) (r m : option nat) (n : nat) :
  code ev <> 1000 -> code ev <> 4001 -> code ev <> 4003 -> code ev <> 4004 ->
  let rt := exec (socketClosed c gameId ev) (quiet g r m n) in
  exists h,
    pendingReconnects rt = [mkTimer h 3000 (Reconnect gameId)]
    /\ reconnectTimeoutRef rt = Some h
    /\ pendingNavigations rt = []
    /\ game rt = g.
Proof.
  intros H1000 H4001 H4003 H4004. cbv zeta.
  apply Z.eqb_neq in H1000, H4001, H4003, H4004.
  unfold exec, socketClosed, GameService.socket_onclose, onError, onClose, notifyStatus.
  cbv beta iota delta [GameService.call].
  rewrite H1000, H4001, H4003, H4004.
  destruct (code ev =? 1006).
  - exists (S (S n)).
    destruct (onConnectionStatusChange c), r, m; run_handler_deep.
  - exists n.
    destruct (onConnectionStatusChange c), r; run_handler_deep.
Qed.

Lemma X3_retryable_close_one_pending_reconnect_witness :
  exists h,
    pendingReconnects
      (exec (socketClosed Sample.viewer 7 (mkCloseEvent 1006)) (quiet None None None 1))
    = [mkTimer h 3000 (Reconnect 7)].
Proof.
  assert (H1000 : code (mkCloseEvent 1006) <> 1000) by (cbn [code]; lia).
  assert (H4001 : code (mkCloseEvent 1006) <> 4001) by (cbn [code]; lia).
  assert (H4003 : code (mkCloseEvent 1006) <> 4003) by (cbn [code]; lia).
  assert (H4004 : code (mkCloseEvent 1006) <> 4004) by (cbn [code]; lia).
  destruct (X3_retryable_close_one_pending_reconnect Sample.viewer 7
              (mkCloseEvent 1006) None None None 1%nat H1000 H4001 H4003 H4004)
    as (h & Hp & _).
  exists h. exact Hp.
Defined.

(** X4: [connectWebSocket] with no stored token gets no socket and builds
    none, yet the service's error callback has run the component's
    [onError]: a reconnect timer is left armed, 3000 ms ahead.  The message
    on screen at the end is the one about the failed connection. *)
Theorem X4_connect_without_token_arms_reconnect
    (c : Closure) (gameId : Z) (g : option Game) (r m : option nat) (n : nat) :
  webSocketSupported c = true ->
  Js.truthyStr (accessToken c) = false ->
  let run := connectWebSocket c gameId in
  let rt := exec run (quiet g r m n) in
  eval run (quiet g r m n) = None
  /\ pendingReconnects rt = [mkTimer (S n) 3000 (Reconnect gameId)]
  /\ messagesShown (trace rt)
     = [SetMessage (Some "Connection error: No authentication token");
        SetMessage (Some "Failed to create WebSocket connection")]
  /\ filter (fun x => match x with NewWebSocket _ _ => true | _ => false end) (trace rt)
     = [].
Proof.
  intros Hs Ht. cbv zeta.
  unfold eval, exec, connectWebSocket, GameService.connectToGameSocket, onError,
    notifyStatus.
  rewrite Hs, Ht. cbn [negb].
  destruct (onConnectionStatusChange c), r, m; run_handler_deep.
Qed.

Lemma X4_connect_without_token_arms_reconnect_witness :
  pendingReconnects
    (exec (connectWebSocket Browsers.loggedOut 7) (quiet None None None 1))
  = [mkTimer 2 3000 (Reconnect 7)].
Proof.
  refine (proj1 (proj2
            (X4_connect_without_token_arms_reconnect Browsers.loggedOut 7 None None None
               1%nat eq_refl eq_refl))).
Defined.

(** X28: the reconnect timer's callback compares the route segment, a
    string, with the game id [connectWebSocket] was given.  When that id is a
    number, the guard fails: after a retryable closure the armed timer fires,
    nothing is done and nothing is left pending, so the table is not
    reconnected.  When the id is a non-empty string equal to the route
    segment, the callback is [connectWebSocket]. *)
Theorem X28_fired_reconnect_with_numeric_id_does_nothing
    (c : Closure) (gameId : Z) (ev : CloseEvent) (route : string) (k : Z)
    (g : option Game) (r m : option nat) (n : nat) :
  code ev <> 1000 -> code ev <> 4001 -> code ev <> 4003 -> code ev <> 4004 ->
  let closed := exec (socketClosed c gameId ev) (quiet g r m n) in
  (exists h,
     reconnectTimeoutRef closed = Some h
     /\ pendingReconnects closed = [mkTimer h 3000 (Reconnect gameId)]
     /\ let run := reconnectFires c (IdString route) (IdNumber k) gameId h in
        eval run closed = None
        /\ trace (exec run closed) = trace closed
        /\ pendingReconnects (exec run closed) = []
        /\ game (exec run closed) = g)
  /\ (route <> "" ->
      forall h rt,
        reconnectFires c (IdString route) (IdString route) gameId h rt
        = (timerFired h ;;; connectWebSocket c gameId) rt).
Proof.
  intros H1000 H4001 H4003 H4004. cbv zeta. split.
  - apply Z.eqb_neq in H1000, H4001, H4003, H4004.
    unfold reconnectFires, eval, exec, socketClosed, GameService.socket_onclose,
      onError, onClose, notifyStatus.
    cbv beta iota delta [GameService.call truthyId strictEqId].
    rewrite andb_false_r.
    rewrite H1000, H4001, H4003, H4004.
    destruct (code ev =? 1006).
    + exists (S (S n)).
      destruct (onConnectionStatusChange c), r, m; run_handler_deep.
    + exists n.
      destruct (onConnectionStatusChange c), r; run_handler_deep.
  - intros Hroute h rt. unfold reconnectFires, truthyId, strictEqId.
    apply String.eqb_neq in Hroute. rewrite Hroute, String.eqb_refl. reflexivity.
Qed.

Lemma X28_fired_reconnect_with_numeric_id_does_nothing_witness :
  let closed := exec (socketClosed Sample.viewer 7 (mkCloseEvent 1011))
                  (quiet None None None 1) in
  pendingReconnects closed = [mkTimer 1 3000 (Reconnect 7)]
  /\ exec (reconnectFires Sample.viewer (IdString "7") (IdNumber 7) 7 1) closed
     = {| game := None; reconnectTimeoutRef := Some 1%nat;
          messageTimeoutRef := None; timers := []; nextHandle := 2%nat;
          trace := trace closed |}.
Proof.
  cbv zeta.
  assert (H1000 : code (mkCloseEvent 1011) <> 1000) by (cbn [code]; lia).
  assert (H4001 : code (mkCloseEvent 1011) <> 4001) by (cbn [code]; lia).
  assert (H4003 : code (mkCloseEvent 1011) <> 4003) by (cbn [code]; lia).
  assert (H4004 : code (mkCloseEvent 1011) <> 4004) by (cbn [code]; lia).
  pose proof (proj1 (X28_fired_reconnect_with_numeric_id_does_nothing Sample.viewer 7
                       (mkCloseEvent 1011) "7" 7 None None None 1%nat
                       H1000 H4001 H4003 H4004)) as [h (Href & Hpending & _)].
  split; [| reflexivity].
  injection Href as <-. exact Hpending.
Defined.

(** X5: in a browser without WebSocket support [connectWebSocket] only shows
    a message: no socket, no connection-status change, no reconnect. *)
Theorem X5_connect_unsupported_browser
    (c : Closure) (gameId : Z) (g : option Game) (r m : option nat) (n : nat) :
  webSocketSupported c = false ->
  let run := connectWebSocket c gameId in
  let rt := exec run (quiet g r m n) in
  eval run (quiet g r m n) = None
  /\ trace rt
     = [SetMessage (Some "Real-time updates not supported in this browser");
        SetMessageType "error"; SetTimeout n 3000 HideMessage]
  /\ pendingReconnects rt = [].
Proof.
  intros Hs. cbv zeta.
  unfold eval, exec, connectWebSocket. rewrite Hs. cbn [negb].
  destruct m; run_handler_deep.
Qed.

Lemma X5_connect_unsupported_browser_witness :
  pendingReconnects
    (exec (connectWebSocket Browsers.legacy 7) (quiet None None None 1))
  = [].
Proof.
  refine (proj2 (proj2
            (X5_connect_unsupported_browser Browsers.legacy 7 None None None
               1%nat eq_refl))).
Defined.

(** X6: a socket error event, and a message whose data does not parse, both
    reach [onError]: the stored game is untouched, and a reconnect is armed
    although the socket has not closed. *)
Theorem X6_error_and_bad_message_arm_reconnect
    (c : Closure) (gameId : Z) (g : option Game) (r m : option nat) (n : nat) :
  let bad := exec (deliver c gameId (Received None)) (quiet g r m n) in
  let err := exec (deliver c gameId Errored) (quiet g r m n) in
  game bad = g
  /\ pendingReconnects bad = [mkTimer (S n) 3000 (Reconnect gameId)]
  /\ messagesShown (trace bad)
     = [SetMessage (Some "Connection error: Failed to parse message")]
  /\ game err = g
  /\ pendingReconnects err = [mkTimer (S n) 3000 (Reconnect gameId)].
Proof.
  cbv zeta.
  unfold exec, deliver, GameService.socket_onmessage, GameService.socket_onerror,
    onError, notifyStatus.
  destruct (onConnectionStatusChange c), r, m; run_handler_deep.
Qed.

(* ------------------------------------------------------------------ *)
(** ** Reconciliation: what the merge keeps *)

Lemma mergePlayer_id cps np : pg_id (mergePlayer cps np) = pg_id np.
Proof. rewrite mergePlayer_only_cards. reflexivity. Qed.

(** Looking a seat up in the merged list is merging the seat looked up in the
    inbound list. *)
Lemma find_merged (cps nps : list PlayerGame) (k : Z) :
  find (fun p => pg_id p =? k) (map (mergePlayer cps) nps)
  = option_map (mergePlayer cps) (find (fun p => pg_id p =? k) nps).
Proof.
  induction nps as [|x nps IH]; [reflexivity|].
  cbn. rewrite mergePlayer_id. destruct (pg_id x =? k); [reflexivity | exact IH].
Qed.

(** Merging a seat against the merged list gives the merged seat again. *)
Lemma mergePlayer_again (cps nps : list PlayerGame) (np : PlayerGame) :
  find (fun p => pg_id p =? pg_id np) nps = Some np ->
  mergePlayer (map (mergePlayer cps) nps) np = mergePlayer cps np.
Proof.
  intros Hfind. unfold mergePlayer at 1.
  rewrite find_merged, Hfind. cbn [option_map].
  destruct (cardsLacking (cards np)) eqn:Hl.
  - rewrite andb_true_r.
    destruct (cardsTruthy (cards (mergePlayer cps np))) eqn:Ht.
    + symmetry. apply mergePlayer_only_cards.
    + unfold mergePlayer in Ht |- *.
      destruct (find _ cps) as [e|]; [| reflexivity].
      rewrite Hl, andb_true_r in Ht |- *.
      destruct (cardsTruthy (cards e)) eqn:He; [| reflexivity].
      cbn in Ht. congruence.
  - rewrite andb_false_r. unfold mergePlayer.
    destruct (find _ cps) as [e|]; [| reflexivity].
    rewrite Hl, andb_false_r. reflexivity.
Qed.

Lemma mergeGame_idempotent (data cur : Game) :
  uniqueIds data -> mergeGame data (mergeGame data cur) = mergeGame data cur.
Proof.
  intros Hu.
  destruct (players data) as [nps|] eqn:Hn; destruct (players cur) as [cps|] eqn:Hc.
  - assert (E : mergeGame data cur
                = withPlayers data (Some (map (mergePlayer cps) nps))).
    { unfold mergeGame. rewrite Hn, Hc. reflexivity. }
    rewrite E. unfold mergeGame. rewrite Hn. cbn [players withPlayers].
    do 2 f_equal.
    apply map_ext_in. intros np Hin.
    apply mergePlayer_again.
    unfold uniqueIds in Hu. rewrite Hn in Hu.
    apply find_by_id; auto.
  - assert (E : mergeGame data cur = data).
    { unfold mergeGame. rewrite Hn, Hc. reflexivity. }
    rewrite E. apply mergeGame_self, Hu.
  - assert (E : mergeGame data cur = data).
    { unfold mergeGame. rewrite Hn. reflexivity. }
    rewrite E. unfold mergeGame. rewrite Hn. reflexivity.
  - assert (E : mergeGame data cur = data).
    { unfold mergeGame. rewrite Hn. reflexivity. }
    rewrite E. unfold mergeGame. rewrite Hn. reflexivity.
Qed.

(** X7: pushing a snapshot with unique participant ids a second time leaves
    the stored game exactly as the first push left it. *)
Theorem X7_push_twice_same_game
    (c1 c2 : Closure) (gameId : Z) (data : Game) (rt : Runtime) :
  uniqueIds data ->
  game (afterPush c2 gameId data (afterPush c1 gameId data rt))
  = game (afterPush c1 gameId data rt).
Proof.
  intros Hu. rewrite !afterPush_game.
  destruct (game rt) as [cur|].
  - rewrite (mergeGame_idempotent data cur Hu). reflexivity.
  - rewrite (mergeGame_self data Hu). reflexivity.
Qed.

Lemma X7_push_twice_same_game_witness :
  game (afterPush Sample.viewer 7 Sample.inboundGame
          (afterPush Sample.viewer 7 Sample.inboundGame
             (initialRuntime (Some Sample.localGame))))
  = game (afterPush Sample.viewer 7 Sample.inboundGame
            (initialRuntime (Some Sample.localGame))).
Proof.
  apply (X7_push_twice_same_game Sample.viewer Sample.viewer 7 Sample.inboundGame
           (initialRuntime (Some Sample.localGame))).
  unfold uniqueIds, Sample.inboundGame, players, map, pg_id, withCards,
    Sample.alice, Sample.bob.
  repeat constructor; cbn; intuition discriminate.
Defined.

(** One push keeps the cards held for a participant whose inbound cards are
    missing or empty. *)
Lemma seatCards_afterPush c gameId data rt k cs c' :
  seatCards (game rt) k = Some cs ->
  cardsTruthy cs = true ->
  seatCards (Some data) k = Some c' ->
  cardsLacking c' = true ->
  seatCards (game (afterPush c gameId data rt)) k = Some cs.
Proof.
  intros Hheld Htruthy Hin Hlack.
  rewrite afterPush_game.
  destruct (game rt) as [cur|]; [| discriminate Hheld].
  cbn in Hheld, Hin |- *. unfold mergeGame.
  destruct (players cur) as [cps|]; [| discriminate Hheld].
  destruct (players data) as [nps|] eqn:Hn; [| discriminate Hin].
  cbn. rewrite find_merged.
  destruct (find (fun p => pg_id p =? k) nps) as [np|] eqn:Hnp; [| discriminate Hin].
  cbn in Hin |- *. injection Hin as <-.
  unfold mergePlayer.
  assert (Hk : pg_id np = k).
  { apply find_some in Hnp. destruct Hnp as [_ Hk]. apply Z.eqb_eq in Hk. exact Hk. }
  rewrite Hk.
  destruct (find (fun p => pg_id p =? k) cps) as [e|]; [| discriminate Hheld].
  cbn in Hheld. injection Hheld as ->.
  rewrite Htruthy, Hlack. reflexivity.
Qed.

(** X8: once the client holds a participant's cards, they survive any run of
    pushed snapshots in which that participant is seated with cards missing
    or empty. *)
Theorem X8_cards_survive_masked_pushes
    (gameId : Z) (ds : list (Closure * Game)) (rt : Runtime) (k : Z) (cs : CardsField) :
  seatCards (game rt) k = Some cs ->
  holdsCards cs = true ->
  (forall c data, In (c, data) ds ->
     exists c', seatCards (Some data) k = Some c' /\ cardsLacking c' = true) ->
  seatCards (game (pushAll gameId ds rt)) k = Some cs.
Proof.
  intros Hheld Hcs. revert rt Hheld.
  induction ds as [|[c data] ds IH]; intros rt Hheld Hall; [exact Hheld|].
  cbn. apply IH.
  - destruct (Hall c data (or_introl eq_refl)) as (c' & Hin & Hlack).
    apply (seatCards_afterPush c gameId data rt k cs c'); auto.
    apply holdsCards_truthy, Hcs.
  - intros c0 d0 Hin. apply (Hall c0 d0). right. exact Hin.
Qed.

Lemma X8_cards_survive_masked_pushes_witness :
  seatCards
    (game (pushAll 7 [(Sample.viewer, Sample.inboundGame);
                      (Sample.viewer, Sample.inboundGame)]
             (initialRuntime (Some Sample.localGame)))) 1
  = Some (CardsArray ["AS"; "KD"]).
Proof.
  apply (X8_cards_survive_masked_pushes 7
           [(Sample.viewer, Sample.inboundGame); (Sample.viewer, Sample.inboundGame)]
           (initialRuntime (Some Sample.localGame)) 1 (CardsArray ["AS"; "KD"])).
  - reflexivity.
  - reflexivity.
  - intros c data [[= <- <-] | [[= <- <-] | []]];
      exists (CardsArray []); split; reflexivity.
Defined.

(** X9: the server's word stands wherever it says something: a seat pushed
    with cards that are neither missing nor empty, and a seat the client does
    not know, are stored exactly as pushed, and the stored seats are the
    pushed seats, id by id in the pushed order (seats only the client knew
    are gone). *)
Theorem X9_pushed_seats_are_authoritative
    (data cur : Game) (nps cps : list PlayerGame) :
  players data = Some nps ->
  players cur = Some cps ->
  exists mps,
    players (mergeGame data cur) = Some mps
    /\ map pg_id mps = map pg_id nps
    /\ (forall i np, nth_error nps i = Some np ->
          cardsLacking (cards np) = false
            \/ find (fun p => pg_id p =? pg_id np) cps = None ->
          nth_error mps i = Some np).
Proof.
  intros Hn Hc. exists (map (mergePlayer cps) nps).
  unfold mergeGame. rewrite Hn, Hc. cbn. repeat split.
  - rewrite map_map. apply map_ext. intros x. apply mergePlayer_id.
  - intros i np Hi Hcase. rewrite nth_error_map, Hi. cbn. f_equal.
    unfold mergePlayer. destruct Hcase as [Hl | Hf].
    + destruct (find _ cps); [| reflexivity].
      rewrite Hl, andb_false_r. reflexivity.
    + rewrite Hf. reflexivity.
Qed.

Lemma X9_pushed_seats_are_authoritative_witness :
  exists mps,
    players (mergeGame Sample.inboundGame Sample.localGame) = Some mps
    /\ map pg_id mps = [1; 2].
Proof.
  destruct (X9_pushed_seats_are_authoritative Sample.inboundGame Sample.localGame
              [withCards Sample.alice (CardsArray []); Sample.bob]
              [Sample.alice; Sample.bob] eq_refl eq_refl)
    as (mps & Hp & Hids & _).
  exists mps. split; [exact Hp | exact Hids].
Defined.

(* ------------------------------------------------------------------ *)
(** ** Reconciliation: what is never announced *)

(** X10: the first snapshot pushed to a component that holds no game yet is
    stored as it is and announces nothing, whatever it contains: no popup,
    no message, no timer; only the connection status is set. *)
Theorem X10_first_push_is_silent
    (c : Closure) (gameId : Z) (data : Game) (r m : option nat) (n : nat) :
  let rt := afterPush c gameId data (quiet None r m n) in
  game rt = Some data
  /\ timers rt = []
  /\ trace rt
     = SetConnectionStatus "connected"
       :: (if onConnectionStatusChange c
           then [OnConnectionStatusChange "connected"] else [])
       ++ [SetError None; SetMessage None].
Proof.
  cbv zeta. unfold afterPush, exec, onMessage, gameUpdater, notifyStatus.
  destruct (onConnectionStatusChange c); repeat split; reflexivity.
Qed.

(** X11: a pushed snapshot without winner info never puts the popup up, also
    when its hand count has grown. *)
Theorem X11_no_winner_info_no_popup
    (c : Closure) (gameId : Z) (data : Game) (g : option Game)
    (r m : option nat) (n : nat) :
  winner_info data = None ->
  showsPopup (trace (afterPush c gameId data (quiet g r m n))) = false.
Proof.
  intros Hw.
  unfold afterPush, exec, onMessage, gameUpdater, notifyStatus.
  cbv [bind getGame quiet game].
  destruct g as [cur|].
  - rewrite mergeGame_winner_info, Hw, sessionEnded_mergeGame.
    destruct (sessionEnded data), m, (onConnectionStatusChange c); run_handler_deep.
  - destruct (onConnectionStatusChange c); reflexivity.
Qed.

Lemma X11_no_winner_info_no_popup_witness :
  showsPopup
    (trace (afterPush Sample.viewer 7 Sample.inboundGame
              (quiet (Some Sample.localGame) None None 1))) = false.
Proof.
  apply (X11_no_winner_info_no_popup Sample.viewer 7 Sample.inboundGame
           (Some Sample.localGame) None None 1%nat).
  reflexivity.
Defined.

(** X12: a poll tick reads [showHandResults] from the render that created
    its interval, also after the fetch it awaits.  When that render had the
    popup displayed, or the polled snapshot marks the viewer ready or cashed
    out, the tick issues nothing; a tick whose fetch fails changes nothing at
    all.  When that render had no popup and the polled snapshot is between
    hands with winner info for a viewer neither ready nor cashed out, the
    tick puts the restored entry up, whatever is on screen when the fetch
    returns: a popup put up while the fetch was under way is replaced. *)
Theorem X12_poll_popup_follows_render_flag
    (c : Closure) (g : Game) (rt : Runtime) :
  (showHandResults c = true
   \/ currentPlayerIsReady (userInfo c) g = true
   \/ currentPlayerIsCashedOut (userInfo c) g = true ->
   issued (poll c (Some g)) = [])
  /\ exec (poll c None) rt = rt
  /\ (forall (w : WinnerInfo) (screen : bool * option HandResult),
        showHandResults c = false ->
        phase g = "WAITING_FOR_PLAYERS" ->
        winner_info g = Some w ->
        currentPlayerIsReady (userInfo c) g = false ->
        currentPlayerIsCashedOut (userInfo c) g = false ->
        popupAfter (issued (poll c (Some g))) screen
        = (true, Some (restoredHandResult c g w))).
Proof.
  split; [| split; [reflexivity |]].
  - unfold currentPlayerIsReady, currentPlayerIsCashedOut.
    intros Hcase. unfold issued, exec, poll.
    destruct (winner_info g); [| reflexivity].
    destruct ((phase g =? "WAITING_FOR_PLAYERS")%string); cbn [andb]; [| reflexivity].
    destruct (showHandResults c); cbn [negb]; [reflexivity |].
    destruct Hcase as [Hs | [Hr | Hc]]; [discriminate | |].
    + rewrite Hr. reflexivity.
    + rewrite Hc, andb_false_r. reflexivity.
  - unfold currentPlayerIsReady, currentPlayerIsCashedOut.
    intros w screen Hshow Hphase Hw Hr Hc.
    unfold issued, exec, poll. rewrite Hw, Hphase, Hshow, Hr, Hc.
    reflexivity.
Qed.

(** X12 on the sample table.  With the popup of hand 1 displayed when the
    interval was created, the tick issues nothing.  With nothing displayed
    then, and the split pot's popup put up by a push during the fetch, the
    tick replaces it by the restored result of hand 3. *)
Lemma X12_poll_popup_follows_render_flag_witness :
  issued (poll Browsers.watching (Some Tables.betweenHands)) = []
  /\ popupAfter (issued (poll Sample.viewer (Some Tables.betweenHands)))
       (true, Some Sample.splitHandTwo)
     = (true, Some Hands.handThree).
Proof.
  split.
  - refine (proj1 (X12_poll_popup_follows_render_flag Browsers.watching
                     Tables.betweenHands (initialRuntime None)) (or_introl eq_refl)).
  - refine (proj2 (proj2 (X12_poll_popup_follows_render_flag Sample.viewer
                            Tables.betweenHands (initialRuntime None)))
              (mkWinnerInfo (Some [mkWinner "alice" (Some "Pair") 40])
                 (Some 40) (Some "Showdown"))
              (true, Some Sample.splitHandTwo)
              eq_refl eq_refl eq_refl eq_refl eq_refl).
Defined.

(** Without a popup on screen the same tick brings hand 3's result back. *)
Example poll_restores_popup :
  showsPopup (issued (poll Sample.viewer (Some Tables.betweenHands))) = true.
Proof. reflexivity. Qed.

(* ------------------------------------------------------------------ *)
(** ** Betting actions *)

(** Everything [handleAction] issues, case by case. *)
Lemma handleAction_issued (c : Closure) (a : string) (amount : option Z) :
  let x := match amount with Some n => n | None => betAmount c end in
  issued (handleAction c a amount)
  = SetTakingAction true
    :: (if negb (existsb (String.eqb a) validActionTypes) then
          [SetMessage (Some "Invalid action type"); SetMessageType "error";
           SetTimeout 1 3000 HideMessage; SetTakingAction false]
        else if isBetOrRaise a && (x <? 0) then
          [SetMessage (Some "Invalid bet amount"); SetMessageType "error";
           SetTimeout 1 3000 HideMessage; SetTakingAction false]
        else
          (if isBetOrRaise a && (0 <? x) then [SetLastBetAmount x] else [])
          ++ [Sleep 300; TakeAction (id c) a x]
          ++ match takeActionError c (id c) a x with
             | None =>
                 [SetPreAction None; SetPreActionAmount 0;
                  SetShowBettingInterface false; SetUserModifiedSlider false;
                  SetError None; SetMessage None]
             | Some err =>
                 [ConsoleError "handleAction error:"; SetMessage (Some err);
                  SetMessageType "error"; SetTimeout 1 3000 HideMessage]
             end)
    ++ [SetTakingAction false].
Proof.
  cbv zeta. unfold issued, exec, handleAction.
  destruct (negb (existsb (String.eqb a) validActionTypes)); [reflexivity|].
  destruct (isBetOrRaise a && (_ <? 0)); [reflexivity|].
  destruct (isBetOrRaise a && (0 <? _));
    destruct (takeActionError c (id c) a _); reflexivity.
Qed.

(** X13: every call of [handleAction] ends with the busy flag cleared and
    sends at most one action to the server.  What it sends is the requested
    action for the route's game, of a known type, and a bet or raise is never
    sent with a negative amount.  The pre-action queue is cleared when the
    server accepts the action and left alone in every other case. *)
Theorem X13_handleAction_discipline
    (c : Closure) (a : string) (amount : option Z) (queue : option string * Z) :
  let x := match amount with Some n => n | None => betAmount c end in
  let cmds := issued (handleAction c a amount) in
  takingActionAfter cmds true = false
  /\ (List.length (submissions cmds) <= 1)%nat
  /\ (forall i a' n, In (TakeAction i a' n) cmds ->
        i = id c /\ a' = a /\ n = x /\ In a validActionTypes
        /\ (isBetOrRaise a = true -> 0 <= n))
  /\ preActionAfter cmds queue
     = if existsb (String.eqb a) validActionTypes
          && negb (isBetOrRaise a && (x <? 0))
          && match takeActionError c (id c) a x with None => true | Some _ => false end
       then (None, 0) else queue.
Proof.
  cbv zeta. rewrite handleAction_issued.
  set (x := match amount with Some n => n | None => betAmount c end).
  destruct (existsb (String.eqb a) validActionTypes) eqn:Hv; cbn [negb andb].
  2:{ split; [reflexivity |]. split; [cbn; lia |]. split; [| reflexivity].
      intros i a' n Hcmd. cbn in Hcmd.
      repeat (destruct Hcmd as [Hcmd | Hcmd]; [discriminate Hcmd |]).
      contradiction. }
  destruct (isBetOrRaise a && (x <? 0)) eqn:Hneg; cbn [negb andb].
  { split; [reflexivity |]. split; [cbn; lia |]. split; [| reflexivity].
    intros i a' n Hcmd. cbn in Hcmd.
    repeat (destruct Hcmd as [Hcmd | Hcmd]; [discriminate Hcmd |]).
    contradiction. }
  assert (Hin : In a validActionTypes).
  { apply existsb_exists in Hv. destruct Hv as (y & Hy & Heq).
    apply String.eqb_eq in Heq. subst y. exact Hy. }
  assert (Hpos : isBetOrRaise a = true -> 0 <= x).
  { intros Hb. rewrite Hb in Hneg. cbn in Hneg. apply Z.ltb_ge in Hneg. exact Hneg. }
  destruct (isBetOrRaise a && (0 <? x));
    destruct (takeActionError c (id c) a x); cbn [app];
    (split; [reflexivity |]; split; [cbn; lia |]; split; [| reflexivity]);
    intros i a' n Hcmd; cbn in Hcmd;
    repeat (destruct Hcmd as [Hcmd | Hcmd]; [try discriminate Hcmd |]);
    try contradiction;
    injection Hcmd as <- <- <-; auto.
Qed.

(** X14: a FOLD or CHECK_FOLD that is due (the viewer is seated, on turn and
    not cashed out, with that pre-action queued) is acted on by every firing
    of the pre-action timer: the firing sends exactly one action, a check
    when nothing is owed under CHECK_FOLD and a fold otherwise, with the bet
    input as its amount, and empties the queue.  The effect arms one timer
    per render and cancels none: after two renders in which the pre-action
    is due both timers are pending, and their firings send the action
    twice. *)
Theorem X14_queued_fold_sent_at_every_firing
    (c1 c2 : Closure) (g1 g2 : Game) (p1 p2 : PlayerGame) (kind : string)
    (g : option Game) (r m : option nat) (n : nat) :
  preActionDue c1 (Some g1) = Some (g1, p1, kind) ->
  preActionDue c2 (Some g2) = Some (g2, p2, kind) ->
  kind = "FOLD" \/ kind = "CHECK_FOLD" ->
  let sent (c : Closure) (g : Game) (p : PlayerGame) :=
    TakeAction (id c)
      (if (kind =? "CHECK_FOLD")%string && canCheck g p then "CHECK" else "FOLD")
      (betAmount c) in
  let once := issued (turnArrival c1 (Some g1)) in
  submissions once = [sent c1 g1 p1]
  /\ preActionAfter once (preAction c1, preActionAmount c1) = (None, 0)
  /\ timers (exec (preActionEffects c1 c2 (Some g1) (Some g2)) (quiet g r m n))
     = [mkTimer n 100 ExecutePreAction; mkTimer (S n) 100 ExecutePreAction]
  /\ submissions (issued (preActionTimersFire c1 c2 (Some g1) (Some g2)))
     = [sent c1 g1 p1; sent c2 g2 p2].
Proof.
  intros Hdue1 Hdue2 Hkind. cbv zeta.
  split; [| split; [| split]].
  - unfold turnArrival. rewrite Hdue1. unfold executePreAction.
    rewrite issued_then_emit2.
    unfold submissions. rewrite filter_app. cbn [filter app]. rewrite app_nil_r.
    destruct Hkind as [-> | ->]; unfold resolvePreAction.
    + change (("FOLD" =? "CHECK_FOLD")%string) with false.
      change (("FOLD" =? "CALL")%string) with false.
      change (("FOLD" =? "CHECK")%string) with false.
      change (("FOLD" =? "FOLD")%string) with true.
      cbn [andb].
      apply (handleAction_submits c1 "FOLD" None); [cbn; tauto | discriminate].
    + change (("CHECK_FOLD" =? "CHECK_FOLD")%string) with true. cbn [andb].
      destruct (canCheck g1 p1).
      * apply (handleAction_submits c1 "CHECK" None); [cbn; tauto | discriminate].
      * apply (handleAction_submits c1 "FOLD" None); [cbn; tauto | discriminate].
  - unfold turnArrival. rewrite Hdue1. unfold executePreAction.
    rewrite issued_then_emit2. apply preActionAfter_cleared.
  - unfold exec, preActionEffects, preActionEffect. rewrite Hdue1, Hdue2.
    reflexivity.
  - unfold issued, exec, preActionTimersFire, turnArrival.
    rewrite Hdue1, Hdue2. unfold executePreAction, handleAction.
    destruct Hkind as [-> | ->]; unfold resolvePreAction.
    + change (("FOLD" =? "CHECK_FOLD")%string) with false.
      change (("FOLD" =? "CALL")%string) with false.
      change (("FOLD" =? "CHECK")%string) with false.
      change (("FOLD" =? "FOLD")%string) with true.
      cbn [andb].
      destruct (takeActionError c1 (id c1) "FOLD" (betAmount c1)),
        (takeActionError c2 (id c2) "FOLD" (betAmount c2)); reflexivity.
    + change (("CHECK_FOLD" =? "CHECK_FOLD")%string) with true. cbn [andb].
      destruct (canCheck g1 p1), (canCheck g2 p2);
        match goal with
        | |- context [takeActionError c1 (id c1) ?a (betAmount c1)] =>
            destruct (takeActionError c1 (id c1) a (betAmount c1))
        end;
        match goal with
        | |- context [takeActionError c2 (id c2) ?a (betAmount c2)] =>
            destruct (takeActionError c2 (id c2) a (betAmount c2))
        end; reflexivity.
Qed.

(** X14 on the sample table: alice has queued check-or-fold, bob's bet of 50
    is owed at her turn, and two snapshots of that turn are rendered before
    the first fold is answered: two timers are armed and two folds are
    sent. *)
Lemma X14_queued_fold_sent_at_every_firing_witness :
  let c := {| id := 7; userInfo := Some (mkUserInfo (Some 101) (Some "alice"));
              showHandResults := false; currentHandResult := None;
              preAction := Some "CHECK_FOLD"; preActionAmount := 0;
              betAmount := 0; now := 0; onConnectionStatusChange := false;
              webSocketSupported := true; accessToken := Some "token";
              constructorThrows := false;
              takeActionError := fun _ _ _ => None |} in
  submissions (issued (turnArrival c (Some Sample.raisedGame)))
  = [TakeAction 7 "FOLD" 0]
  /\ submissions
       (issued (preActionTimersFire c c (Some Sample.raisedGame) (Some Sample.raisedGame)))
     = [TakeAction 7 "FOLD" 0; TakeAction 7 "FOLD" 0].
Proof.
  cbv zeta.
  destruct (X14_queued_fold_sent_at_every_firing
              {| id := 7; userInfo := Some (mkUserInfo (Some 101) (Some "alice"));
                 showHandResults := false; currentHandResult := None;
                 preAction := Some "CHECK_FOLD"; preActionAmount := 0;
                 betAmount := 0; now := 0; onConnectionStatusChange := false;
                 webSocketSupported := true; accessToken := Some "token";
                 constructorThrows := false;
                 takeActionError := fun _ _ _ => None |}
              {| id := 7; userInfo := Some (mkUserInfo (Some 101) (Some "alice"));
                 showHandResults := false; currentHandResult := None;
                 preAction := Some "CHECK_FOLD"; preActionAmount := 0;
                 betAmount := 0; now := 0; onConnectionStatusChange := false;
                 webSocketSupported := true; accessToken := Some "token";
                 constructorThrows := false;
                 takeActionError := fun _ _ _ => None |}
              Sample.raisedGame Sample.raisedGame Sample.alice Sample.alice
              "CHECK_FOLD" None None None 1%nat
              eq_refl eq_refl (or_intror eq_refl))
    as (Honce & _ & _ & Htwice).
  split; [exact Honce | exact Htwice].
Defined.

(* ------------------------------------------------------------------ *)
(** ** Betting controls against the pre-action queue *)

(** The resolution chain on a queued bet and on a queued raise. *)
Lemma resolve_bet (g : Game) (p : PlayerGame) (a : Z) :
  resolvePreAction g p "BET" a
  = if (currentBet g =? 0) && (minBet g <=? a) then Some ("BET", Some a) else None.
Proof. reflexivity. Qed.

Lemma resolve_raise (g : Game) (p : PlayerGame) (a : Z) :
  resolvePreAction g p "RAISE" a
  = if (0 <? currentBet g) && (minRaise g <=? a) then Some ("RAISE", Some a) else None.
Proof. reflexivity. Qed.

(** A bet or raise of at least the slider's minimum passes the resolution
    chain on the game it was sized for. *)
Lemma floor_amount_resolves (g : Game) (p : PlayerGame) (a : Z) :
  0 <= currentBet g ->
  Controls.betFloor g <= a ->
  resolvePreAction g p (Controls.betKind g) a = Some (Controls.betKind g, Some a).
Proof.
  unfold Controls.betFloor, Controls.betKind.
  intros Hcb Hfloor.
  destruct (currentBet g =? 0) eqn:E.
  - apply Z.leb_le in Hfloor. rewrite resolve_bet, E, Hfloor. reflexivity.
  - apply Z.eqb_neq in E.
    assert (Hpos : (0 <? currentBet g) = true) by (apply Z.ltb_lt; lia).
    apply Z.leb_le in Hfloor. rewrite resolve_raise, Hpos, Hfloor. reflexivity.
Qed.

(** X15: what the "Min Bet"/"Min Raise" button and the "Bet"/"Raise to"
    button hand to the queue passes the turn-arrival check as long as the
    betting parameters are those the button was rendered with: resolved
    against the same game it is submitted as queued. *)
Theorem X15_bet_controls_queue_valid_preactions
    (g : Game) (p : PlayerGame) (betSliderValue : Z) (kind : string) (amount : Z) :
  0 <= currentBet g ->
  Controls.minButton g = (kind, amount)
    \/ Controls.executeBetButton g betSliderValue = Some (kind, amount) ->
  resolvePreAction g p kind amount = Some (kind, Some amount).
Proof.
  intros Hcb [Hmin | Hexec].
  - unfold Controls.minButton in Hmin. injection Hmin as <- <-.
    apply floor_amount_resolves; [exact Hcb | lia].
  - unfold Controls.executeBetButton in Hexec.
    destruct (Controls.betFloor g <=? betSliderValue) eqn:E; [| discriminate].
    injection Hexec as <- <-.
    apply floor_amount_resolves; [exact Hcb | apply Z.leb_le, E].
Qed.

Lemma X15_bet_controls_queue_valid_preactions_witness :
  resolvePreAction Sample.raisedGame Sample.alice "RAISE" 100
  = Some ("RAISE", Some 100).
Proof.
  apply (X15_bet_controls_queue_valid_preactions Sample.raisedGame Sample.alice
           0 "RAISE" 100).
  - cbn. lia.
  - left. reflexivity.
Defined.

(** X16: the "All-In" button of a stack too short for the minimum hands over
    an amount below the slider's minimum.  On the viewer's turn it is sent to
    the server as it is; queued ahead of the turn, it is dropped when the
    turn arrives on the same game. *)
Theorem X16_short_all_in_sent_on_turn_dropped_from_queue
    (c : Closure) (g : Game) (p : PlayerGame) (kind : string) (amount : Z) :
  Controls.allInButton g p = Some (kind, amount) ->
  0 <= playerBet p ->
  amount < Controls.betFloor g ->
  submissions (issued (Controls.handlePreAction c true kind amount))
    = [TakeAction (id c) kind amount]
  /\ issued (Controls.handlePreAction c false kind amount)
     = [SetPreAction (Some kind); SetPreActionAmount amount]
  /\ resolvePreAction g p kind amount = None.
Proof.
  unfold Controls.allInButton, Controls.betFloor, Controls.betKind.
  intros Hbtn Hbet Hshort.
  destruct (0 <? Controls.playerStack p) eqn:Hstack; [| discriminate].
  apply Z.ltb_lt in Hstack.
  injection Hbtn as <- <-.
  assert (Hamount : 0 <= Controls.betCeiling g p).
  { unfold Controls.betCeiling. destruct (currentBet g =? 0); lia. }
  split; [| split].
  - unfold Controls.handlePreAction.
    apply (handleAction_submits c _ (Some (Controls.betCeiling g p))).
    + destruct (currentBet g =? 0); cbn; tauto.
    + intros _. exact Hamount.
  - reflexivity.
  - destruct (currentBet g =? 0) eqn:E.
    + apply Z.leb_gt in Hshort. rewrite resolve_bet, E, Hshort. reflexivity.
    + apply Z.leb_gt in Hshort. rewrite resolve_raise, Hshort, andb_false_r.
      reflexivity.
Qed.

(** Alice has 15 chips left; bob's bet of 50 makes the minimum raise 100. *)
Lemma X16_short_all_in_sent_on_turn_dropped_from_queue_witness :
  resolvePreAction Sample.raisedGame Tables.shortAlice "RAISE" 15 = None.
Proof.
  refine (proj2 (proj2
            (X16_short_all_in_sent_on_turn_dropped_from_queue Sample.viewer
               Sample.raisedGame Tables.shortAlice "RAISE" 15 eq_refl _ _))).
  - cbn. lia.
  - cbn. lia.
Defined.

(* ------------------------------------------------------------------ *)
(** ** Seating around the table *)

Lemma findIndexFrom_found (i : Z) (ps : list PlayerGame) (k : Z) :
  In k (map pg_id ps) ->
  i <= Seating.findIndexFrom i ps (Some k) < i + Z.of_nat (List.length ps).
Proof.
  revert i. induction ps as [|p ps IH]; intros i Hin; [contradiction|].
  cbn [Seating.findIndexFrom List.length]. rewrite Nat2Z.inj_succ.
  destruct (pg_id p =? k) eqn:E; [lia|].
  destruct Hin as [Hp | Hin]; [apply Z.eqb_neq in E; contradiction|].
  specialize (IH (i + 1) Hin). lia.
Qed.

Lemma findIndexFrom_absent (i : Z) (ps : list PlayerGame) (k : option Z) :
  match k with Some k => ~ In k (map pg_id ps) | None => True end ->
  Seating.findIndexFrom i ps k = -1.
Proof.
  revert i. induction ps as [|p ps IH]; intros i Hk; [reflexivity|].
  cbn [Seating.findIndexFrom]. destruct k as [k|].
  - destruct (pg_id p =? k) eqn:E.
    + apply Z.eqb_eq in E. exfalso. apply Hk. left. exact E.
    + apply IH. intros Hin. apply Hk. right. exact Hin.
  - apply IH. exact I.
Qed.

(** Seats with different ids sit at different indices. *)
Lemma findIndexFrom_injective (i : Z) (ps : list PlayerGame) (k1 k2 : Z) :
  In k1 (map pg_id ps) -> In k2 (map pg_id ps) ->
  Seating.findIndexFrom i ps (Some k1) = Seating.findIndexFrom i ps (Some k2) ->
  k1 = k2.
Proof.
  revert i. induction ps as [|p ps IH]; intros i H1 H2 Heq; [contradiction|].
  cbn [Seating.findIndexFrom] in Heq.
  destruct (pg_id p =? k1) eqn:E1, (pg_id p =? k2) eqn:E2.
  - apply Z.eqb_eq in E1, E2. congruence.
  - exfalso. apply Z.eqb_neq in E2.
    destruct H2 as [H2 | H2]; [contradiction|].
    pose proof (findIndexFrom_found (i + 1) ps k2 H2). lia.
  - exfalso. apply Z.eqb_neq in E1.
    destruct H1 as [H1 | H1]; [contradiction|].
    pose proof (findIndexFrom_found (i + 1) ps k1 H1). lia.
  - apply Z.eqb_neq in E1, E2.
    destruct H1 as [H1 | H1]; [contradiction|].
    destruct H2 as [H2 | H2]; [contradiction|].
    apply (IH (i + 1)); assumption.
Qed.

Lemma in_indices (n : nat) (x : Z) : 0 <= x < Z.of_nat n -> In x (Seating.indices n).
Proof.
  intros Hx. unfold Seating.indices. apply in_map_iff.
  exists (Z.to_nat x). split; [lia |]. apply in_seq. lia.
Qed.

Lemma placement_eqb_refl (a : Seating.Placement) : Seating.placement_eqb a a = true.
Proof.
  unfold Seating.placement_eqb.
  rewrite String.eqb_refl, !(option_eqb_refl _ _ Z.eqb_refl). reflexivity.
Qed.

(** The table layouts for 2 to 8 seats keep any viewer's opponents apart. *)
Lemma opponentsApart_2_to_8 (n : nat) :
  (2 <= n <= 8)%nat -> Seating.opponentsApart n = true.
Proof.
  intros Hn.
  assert (H : (n = 2 \/ n = 3 \/ n = 4 \/ n = 5 \/ n = 6 \/ n = 7 \/ n = 8)%nat) by lia.
  destruct H as [-> | [-> | [-> | [-> | [-> | [-> | ->]]]]]]; vm_compute; reflexivity.
Qed.

(** X17: at a table of 2 to 8 seats, seen by a seated viewer, two different
    opponents are never drawn at the same place: their placements differ in
    side or in index on that side. *)
Theorem X17_opponents_get_distinct_places
    (players : list PlayerGame) (viewer t1 t2 : Z) :
  (2 <= List.length players <= 8)%nat ->
  In viewer (map pg_id players) ->
  In t1 (map pg_id players) ->
  In t2 (map pg_id players) ->
  t1 <> viewer -> t2 <> viewer -> t1 <> t2 ->
  Seating.calculatePlayerPosition players (Some viewer) t1
  <> Seating.calculatePlayerPosition players (Some viewer) t2.
Proof.
  intros Hn Hv H1 H2 Hv1 Hv2 H12.
  pose proof (findIndexFrom_found 0 players viewer Hv) as Rv.
  pose proof (findIndexFrom_found 0 players t1 H1) as R1.
  pose proof (findIndexFrom_found 0 players t2 H2) as R2.
  unfold Seating.calculatePlayerPosition, Seating.findIndex.
  set (c := Seating.findIndexFrom 0 players (Some viewer)) in *.
  set (i1 := Seating.findIndexFrom 0 players (Some t1)) in *.
  set (i2 := Seating.findIndexFrom 0 players (Some t2)) in *.
  assert (Ec : (c =? -1) = false) by (apply Z.eqb_neq; lia).
  assert (E1 : (i1 =? -1) = false) by (apply Z.eqb_neq; lia).
  assert (E2 : (i2 =? -1) = false) by (apply Z.eqb_neq; lia).
  rewrite Ec, E1, E2. cbn [orb].
  assert (D1 : i1 <> c).
  { intros E. apply Hv1. apply (findIndexFrom_injective 0 players t1 viewer H1 Hv E). }
  assert (D2 : i2 <> c).
  { intros E. apply Hv2. apply (findIndexFrom_injective 0 players t2 viewer H2 Hv E). }
  assert (D12 : i1 <> i2).
  { intros E. apply H12. apply (findIndexFrom_injective 0 players t1 t2 H1 H2 E). }
  pose proof (opponentsApart_2_to_8 _ Hn) as Hall.
  unfold Seating.opponentsApart in Hall.
  rewrite forallb_forall in Hall.
  assert (Ic : In c (Seating.indices (List.length players))) by (apply in_indices; lia).
  assert (I1 : In i1 (Seating.indices (List.length players))) by (apply in_indices; lia).
  assert (I2 : In i2 (Seating.indices (List.length players))) by (apply in_indices; lia).
  specialize (Hall c Ic).
  rewrite forallb_forall in Hall.
  specialize (Hall i1 I1).
  rewrite forallb_forall in Hall.
  specialize (Hall i2 I2).
  apply Z.eqb_neq in D1, D2, D12. rewrite D1, D2, D12 in Hall. cbn [orb] in Hall.
  apply negb_true_iff in Hall.
  intros Heq. rewrite Heq, placement_eqb_refl in Hall. discriminate.
Qed.

Lemma X17_opponents_get_distinct_places_witness :
  Seating.calculatePlayerPosition Tables.threeSeats (Some 1) 2
  <> Seating.calculatePlayerPosition Tables.threeSeats (Some 1) 3.
Proof.
  apply (X17_opponents_get_distinct_places Tables.threeSeats 1 2 3).
  - cbn. lia.
  - cbn. tauto.
  - cbn. tauto.
  - cbn. tauto.
  - lia.
  - lia.
  - lia.
Defined.

(** X18: when the viewer is not seated (or no viewer is known), every seat
    gets the fallback: position "top" with no [positionIndex], the early
    return naming its field [index]. *)
Theorem X18_unseated_viewer_fallback
    (players : list PlayerGame) (viewer : option Z) (target : Z) :
  match viewer with
  | Some v => ~ In v (map pg_id players)
  | None => True
  end ->
  Seating.calculatePlayerPosition players viewer target
  = {| Seating.position := "top"; Seating.positionIndex := None;
       Seating.index := Some 0 |}.
Proof.
  intros Hv. unfold Seating.calculatePlayerPosition, Seating.findIndex.
  rewrite (findIndexFrom_absent 0 players viewer Hv). reflexivity.
Qed.

Lemma X18_unseated_viewer_fallback_witness :
  Seating.positionIndex (Seating.calculatePlayerPosition Tables.threeSeats None 2)
  = None.
Proof.
  rewrite (X18_unseated_viewer_fallback Tables.threeSeats None 2 I). reflexivity.
Defined.

(* ------------------------------------------------------------------ *)
(** ** Tokens and interceptors *)

Lemma requestInterceptor_keeps (s : Auth.LocalStorage) (config : Auth.Request) :
  Auth.url (Auth.requestInterceptor s config) = Auth.url config
  /\ Auth._retry (Auth.requestInterceptor s config) = Auth._retry config.
Proof.
  unfold Auth.requestInterceptor. destruct (Js.truthyStr _); split; reflexivity.
Qed.

(** A request that has been retried once never triggers a refresh: one step
    settles it. *)
Lemma retried_settles_in_one_step (fuel : nat) (b : Auth.Backend)
    (config : Auth.Request) (w : Auth.World) :
  Auth._retry config = true ->
  Auth.apiClient (S fuel) b config w = Auth.apiClient 1 b config w
  /\ fst (Auth.apiClient 1 b config w) <> Auth.OutOfFuel
  /\ Auth.storage (snd (Auth.apiClient 1 b config w)) = Auth.storage w
  /\ Auth.href (snd (Auth.apiClient 1 b config w)) = Auth.href w
  /\ Auth.refreshCalls (snd (Auth.apiClient 1 b config w)) = Auth.refreshCalls w
  /\ Auth.wire (snd (Auth.apiClient 1 b config w))
     = Auth.wire w ++ [Auth.requestInterceptor (Auth.storage w) config].
Proof.
  intros Hretry.
  destruct (requestInterceptor_keeps (Auth.storage w) config) as [_ Hr].
  cbn [Auth.apiClient]. rewrite Hr, Hretry.
  destruct (Auth.respond b _ _) as [data | status |]; cbn [negb andb fst snd];
    rewrite ?andb_false_r; cbn; repeat split; discriminate.
Qed.

(** X19: two rounds always settle a call of [apiClient]: more fuel changes
    nothing and fuel never runs out.  A call makes at most one token refresh
    and puts at most two requests on the wire. *)
Theorem X19_at_most_one_refresh_per_call
    (fuel : nat) (b : Auth.Backend) (config : Auth.Request) (w : Auth.World) :
  let r := Auth.apiClient 2 b config w in
  Auth.apiClient (S (S fuel)) b config w = r
  /\ fst r <> Auth.OutOfFuel
  /\ (List.length (Auth.refreshCalls (snd r))
      <= List.length (Auth.refreshCalls w) + 1)%nat
  /\ (List.length (Auth.wire (snd r)) <= List.length (Auth.wire w) + 2)%nat.
Proof.
  cbv zeta.
  change 2%nat with (S 1).
  remember (S fuel) as f1 eqn:Ef1. remember 1%nat as one eqn:Eone.
  cbn [Auth.apiClient].
  destruct (Auth.respond b _ _) as [data | status |].
  - cbn [fst snd Auth.refreshCalls Auth.wire]. rewrite length_app. cbn.
    repeat split; try discriminate; lia.
  - destruct ((status =? 401) && negb _).
    + destruct (Auth.refresh b _) as [access|].
      * subst f1 one.
        match goal with
        | |- Auth.apiClient (S fuel) b ?cfg ?w' = _ /\ _ =>
            destruct (retried_settles_in_one_step fuel b cfg w' eq_refl)
              as (Hs & Hfuel & _ & _ & Hrefresh & Hwire)
        end.
        rewrite Hs. split; [reflexivity |]. split; [exact Hfuel |].
        rewrite Hrefresh, Hwire. cbn [Auth.setStorage Auth.refreshCalls Auth.wire].
        rewrite !length_app. cbn [List.length]. lia.
      * cbn [fst snd Auth.refreshCalls Auth.wire]. rewrite !length_app. cbn.
        repeat split; try discriminate; lia.
    + cbn [fst snd Auth.refreshCalls Auth.wire]. rewrite length_app. cbn.
      repeat split; try discriminate; lia.
  - cbn [fst snd Auth.refreshCalls Auth.wire]. rewrite length_app. cbn.
    repeat split; try discriminate; lia.
Qed.

(** X20: when the first answer is a 401 and the refresh call fails, the call
    is rejected with the refresh error, both tokens are removed (the stored
    user stays), the page is sent to /login, and nothing is retried.  From
    then on [isAuthenticated] is false and [connectToGameSocket] refuses to
    open a socket. *)
Theorem X20_failed_refresh_logs_out
    (b : Auth.Backend) (config : Auth.Request) (w : Auth.World)
    (gameId : Z) (onMessageCallback : Inbound -> M unit) (rt : Runtime) :
  Auth._retry config = false ->
  (let sent := Auth.requestInterceptor (Auth.storage w) config in
   Auth.respond b (Auth.url sent) (Auth.authorization sent) = Auth.Failure 401) ->
  Auth.refresh b (Auth.refreshTokenItem (Auth.storage w)) = None ->
  let r := Auth.apiClient 2 b config w in
  fst r = Auth.Rejected Auth.RefreshError
  /\ Auth.storage (snd r)
     = Auth.logout (Auth.storage w)
  /\ Auth.href (snd r) = Some "/login"
  /\ Auth.wire (snd r)
     = Auth.wire w ++ [Auth.requestInterceptor (Auth.storage w) config]
  /\ Auth.isAuthenticated (Auth.storage (snd r)) = false
  /\ eval (GameService.connectToGameSocket
             (Auth.accessTokenItem (Auth.storage (snd r))) false gameId
             onMessageCallback None None) rt = None.
Proof.
  cbv zeta. intros Hretry Hresp Hrefresh.
  destruct (requestInterceptor_keeps (Auth.storage w) config) as [_ Hr].
  cbn [Auth.apiClient]. rewrite Hresp, Hr, Hretry. cbn [Z.eqb Pos.eqb negb andb].
  cbn [Auth.storage]. rewrite Hrefresh.
  repeat split.
Qed.

Lemma X20_failed_refresh_logs_out_witness :
  Auth.storage
    (snd (Auth.apiClient 2 Auth.expiredBackend (Auth.request "/games/7/")
            (Auth.freshWorld
               (Auth.mkLocalStorage (Some "a1") (Some "stale") Auth.NoUser))))
  = Auth.logout (Auth.mkLocalStorage (Some "a1") (Some "stale") Auth.NoUser).
Proof.
  refine (proj1 (proj2
            (X20_failed_refresh_logs_out Auth.expiredBackend (Auth.request "/games/7/")
               (Auth.freshWorld
                  (Auth.mkLocalStorage (Some "a1") (Some "stale") Auth.NoUser))
               7 (fun _ => ret tt) (initialRuntime None) eq_refl eq_refl eq_refl))).
Defined.

Lemma retried_outcome (b : Auth.Backend) (config : Auth.Request) (w : Auth.World) :
  Auth._retry config = true ->
  fst (Auth.apiClient 1 b config w)
  = match Auth.respond b
            (Auth.url (Auth.requestInterceptor (Auth.storage w) config))
            (Auth.authorization (Auth.requestInterceptor (Auth.storage w) config)) with
    | Auth.Answer data => Auth.Resolved data
    | Auth.Failure status => Auth.Rejected (Auth.HttpError status)
    | Auth.NoResponse => Auth.Rejected Auth.TypeError
    end.
Proof.
  intros Hretry.
  destruct (requestInterceptor_keeps (Auth.storage w) config) as [_ Hr].
  cbn [Auth.apiClient]. rewrite Hr, Hretry.
  destruct (Auth.respond b _ _); cbn [negb andb fst]; rewrite ?andb_false_r; reflexivity.
Qed.

Lemma interceptor_with_token (s : Auth.LocalStorage) (config : Auth.Request)
    (access : string) :
  Auth.accessTokenItem s = Some access -> access <> "" ->
  Auth.requestInterceptor s config
  = {| Auth.url := Auth.url config;
       Auth.authorization := Some (String.append "Bearer " access);
       Auth._retry := Auth._retry config |}.
Proof.
  intros Hs Haccess. unfold Auth.requestInterceptor. rewrite Hs.
  cbn [Js.truthyStr]. apply String.eqb_neq in Haccess. rewrite Haccess. reflexivity.
Qed.

(** X21: when the first answer is a 401 and the refresh succeeds, the new
    access token is stored beside the unchanged refresh token and the request
    is retried once with the new token in its header.  The call ends as the
    retry ends: a second 401 is handed to the caller as it is, with no second
    refresh and nobody logged out. *)
Theorem X21_refresh_then_single_retry
    (b : Auth.Backend) (config : Auth.Request) (w : Auth.World) (access : string) :
  Auth._retry config = false ->
  access <> "" ->
  (let sent := Auth.requestInterceptor (Auth.storage w) config in
   Auth.respond b (Auth.url sent) (Auth.authorization sent) = Auth.Failure 401) ->
  Auth.refresh b (Auth.refreshTokenItem (Auth.storage w)) = Some access ->
  let r := Auth.apiClient 2 b config w in
  let retried := {| Auth.url := Auth.url config;
                    Auth.authorization := Some (String.append "Bearer " access);
                    Auth._retry := true |} in
  fst r = match Auth.respond b (Auth.url config)
                  (Some (String.append "Bearer " access)) with
          | Auth.Answer data => Auth.Resolved data
          | Auth.Failure status => Auth.Rejected (Auth.HttpError status)
          | Auth.NoResponse => Auth.Rejected Auth.TypeError
          end
  /\ Auth.storage (snd r)
     = {| Auth.accessTokenItem := Some access;
          Auth.refreshTokenItem := Auth.refreshTokenItem (Auth.storage w);
          Auth.userItem := Auth.userItem (Auth.storage w) |}
  /\ Auth.href (snd r) = Auth.href w
  /\ Auth.wire (snd r)
     = Auth.wire w ++ [Auth.requestInterceptor (Auth.storage w) config; retried]
  /\ Auth.refreshCalls (snd r)
     = Auth.refreshCalls w ++ [Auth.refreshTokenItem (Auth.storage w)].
Proof.
  cbv zeta. intros Hretry Haccess Hresp Hrefresh.
  destruct (requestInterceptor_keeps (Auth.storage w) config) as [Hu Hr].
  change 2%nat with (S 1). remember 1%nat as one eqn:Eone.
  cbn [Auth.apiClient]. rewrite Hresp, Hr, Hretry. cbn [Z.eqb Pos.eqb negb andb].
  cbn [Auth.storage]. rewrite Hrefresh. subst one.
  match goal with
  | |- context [Auth.apiClient 1 b ?cfg ?w'] =>
      destruct (retried_settles_in_one_step 0 b cfg w' eq_refl)
        as (_ & _ & Hst & Hhref & Hrefr & Hwire);
      pose proof (retried_outcome b cfg w' eq_refl) as Hout;
      rewrite (interceptor_with_token (Auth.storage w') cfg access eq_refl Haccess)
        in Hout, Hwire
  end.
  rewrite Hout, Hst, Hhref, Hrefr, Hwire.
  cbn [Auth.url Auth.authorization Auth._retry Auth.setStorage Auth.storage
       Auth.href Auth.wire Auth.refreshCalls].
  rewrite Hu, <- app_assoc. repeat split.
Qed.

Lemma X21_refresh_then_single_retry_witness :
  fst (Auth.apiClient 2 Auth.expiredBackend (Auth.request "/games/7/")
         (Auth.freshWorld (Auth.mkLocalStorage (Some "a1") (Some "r1") Auth.NoUser)))
  = Auth.Rejected (Auth.HttpError 401).
Proof.
  refine (proj1
            (X21_refresh_then_single_retry Auth.expiredBackend (Auth.request "/games/7/")
               (Auth.freshWorld (Auth.mkLocalStorage (Some "a1") (Some "r1") Auth.NoUser))
               "a2" eq_refl _ eq_refl eq_refl)).
  discriminate.
Defined.

(** X22: a failure that is not a first 401 is handed to the caller with
    storage and page location untouched and no refresh attempted; when the
    server gave no response at all, what the caller gets is the TypeError
    raised by reading the missing response's status. *)
Theorem X22_other_failures_leave_tokens_alone
    (fuel : nat) (b : Auth.Backend) (config : Auth.Request) (w : Auth.World)
    (reply : Auth.Reply) :
  let sent := Auth.requestInterceptor (Auth.storage w) config in
  let r := Auth.apiClient (S fuel) b config w in
  Auth.respond b (Auth.url sent) (Auth.authorization sent) = reply ->
  match reply with
  | Auth.Failure status => status <> 401 \/ Auth._retry config = true
  | _ => True
  end ->
  fst r = match reply with
          | Auth.Answer data => Auth.Resolved data
          | Auth.Failure status => Auth.Rejected (Auth.HttpError status)
          | Auth.NoResponse => Auth.Rejected Auth.TypeError
          end
  /\ Auth.storage (snd r) = Auth.storage w
  /\ Auth.href (snd r) = Auth.href w
  /\ Auth.refreshCalls (snd r) = Auth.refreshCalls w
  /\ Auth.wire (snd r) = Auth.wire w ++ [sent].
Proof.
  cbv zeta. intros Hreply Hcase.
  destruct (requestInterceptor_keeps (Auth.storage w) config) as [_ Hr].
  cbn [Auth.apiClient]. rewrite Hreply, Hr.
  destruct reply as [data | status |].
  - repeat split.
  - assert (Hno : (status =? 401) && negb (Auth._retry config) = false).
    { destruct Hcase as [Hs | Hre].
      - apply Z.eqb_neq in Hs. rewrite Hs. reflexivity.
      - rewrite Hre, andb_false_r. reflexivity. }
    rewrite Hno. repeat split.
  - repeat split.
Qed.

Lemma X22_other_failures_leave_tokens_alone_witness :
  fst (Auth.apiClient 1
         (Auth.mkBackend (fun _ _ => Auth.NoResponse) (fun _ => None))
         (Auth.request "/games/7/")
         (Auth.freshWorld (Auth.mkLocalStorage (Some "a1") (Some "r1") Auth.NoUser)))
  = Auth.Rejected Auth.TypeError.
Proof.
  refine (proj1
            (X22_other_failures_leave_tokens_alone 0
               (Auth.mkBackend (fun _ _ => Auth.NoResponse) (fun _ => None))
               (Auth.request "/games/7/")
               (Auth.freshWorld (Auth.mkLocalStorage (Some "a1") (Some "r1") Auth.NoUser))
               Auth.NoResponse eq_refl I)).
Defined.

(** X23: logging out removes both tokens and nothing else: the game socket
    can no longer be opened, while [isAdmin] and [getCurrentUser], which read
    the stored user, answer as before.  A successful login with a non-empty
    access token makes [isAuthenticated] true again. *)
Theorem X23_logout_keeps_stored_user
    (s : Auth.LocalStorage) (gameId : Z) (onMessageCallback : Inbound -> M unit)
    (rt : Runtime) (access refreshTok : string) :
  Auth.isAuthenticated (Auth.logout s) = false
  /\ eval (GameService.connectToGameSocket
             (Auth.accessTokenItem (Auth.logout s)) false gameId
             onMessageCallback None None) rt = None
  /\ Auth.isAdmin (Auth.logout s) = Auth.isAdmin s
  /\ Auth.getCurrentUser (Auth.logout s) = Auth.getCurrentUser s
  /\ (access <> "" ->
      Auth.isAuthenticated
        (snd (Auth.login (Some (access, refreshTok)) (Auth.logout s))) = true)
  /\ Auth.login None s = (false, s).
Proof.
  repeat split.
  intros Haccess. cbn. apply negb_true_iff, String.eqb_neq, Haccess.
Qed.

(* ------------------------------------------------------------------ *)
(** ** Ready, cash out, buy back in, leave *)

(** X24: [handleBuyBackIn] contacts the server exactly when the viewer is
    seated and cashed out, the amount is positive, the table is known and
    the amount lies within its buy-in limits; the request then carries that
    amount.  In every other case all it does is show one error message.  The
    dialog is closed and the amount reset only when the server accepts. *)
Theorem X24_buy_back_in_validation
    (ui : option UserInfo) (g : Game) (buyInAmount : Z)
    (table : option Dialogs.Limits) (reply : option string) :
  let calls := Dialogs.handleBuyBackIn ui g buyInAmount table reply in
  let admissible :=
    match Dialogs.seatOf ui g, table with
    | Some p, Some t =>
        cashed_out p && (0 <? buyInAmount)
        && (Dialogs.min_buy_in t <=? buyInAmount)
        && (buyInAmount <=? Dialogs.max_buy_in t)
    | _, _ => false
    end in
  Dialogs.posts calls
    = (if admissible then [Dialogs.Post "buy_back_in" (Some buyInAmount)] else [])
  /\ (admissible = false -> exists n, calls = [Dialogs.Notify n "error" 3000])
  /\ (In (Dialogs.SetShowBuyInDialog false) calls
      <-> admissible = true /\ reply = None).
Proof.
  cbv zeta. unfold Dialogs.handleBuyBackIn.
  assert (Hzero : negb (Js.truthyNum (Some buyInAmount)) || (buyInAmount <=? 0)
                  = negb (0 <? buyInAmount)).
  { cbn. destruct (Z.eqb_spec buyInAmount 0), (Z.leb_spec buyInAmount 0),
      (Z.ltb_spec 0 buyInAmount); cbn; try reflexivity; lia. }
  rewrite Hzero.
  destruct (Dialogs.seatOf ui g) as [p|], table as [t|];
    try rewrite (Z.leb_antisym buyInAmount (Dialogs.min_buy_in t));
    try rewrite (Z.leb_antisym (Dialogs.max_buy_in t) buyInAmount);
    try destruct (cashed_out p);
    destruct (0 <? buyInAmount);
    try destruct (buyInAmount <? Dialogs.min_buy_in t);
    try destruct (Dialogs.max_buy_in t <? buyInAmount);
    destruct reply as [err|]; cbn;
    (split; [reflexivity |]);
    (split; [first [ intros _; eexists; reflexivity | intros Hf; discriminate Hf ] |]);
    (split;
     [ intros Hin;
       repeat (destruct Hin as [Hin | Hin]; [try discriminate Hin |]);
       try contradiction; split; reflexivity
     | intros [Ha Hr]; first [ discriminate Ha | discriminate Hr | tauto ] ]).
Qed.

(** X25: the result popup is dismissed by "ready" and by "cash out" only when
    the server accepts.  When the call is rejected the popup stays and an
    error message is shown; a cash out that is not confirmed, or asked by a
    viewer who is not seated or has cashed out already, contacts nobody.
    Whenever cash out raises its busy flag it lowers it again. *)
Theorem X25_popup_dismissed_only_on_success
    (ui : option UserInfo) (g : Game) (confirmed : bool) (reply : option string) :
  let ready := Dialogs.handlePlayerReady reply in
  let cash := Dialogs.handleCashOut ui g confirmed reply in
  let mayCashOut :=
    match Dialogs.seatOf ui g with
    | Some p => negb (cashed_out p) && confirmed
    | None => false
    end in
  Dialogs.dismissesPopup ready = match reply with None => true | Some _ => false end
  /\ Dialogs.dismissesPopup cash
     = mayCashOut && match reply with None => true | Some _ => false end
  /\ Dialogs.posts cash
     = (if mayCashOut then [Dialogs.Post "cash_out" None] else [])
  /\ Dialogs.cashingOutAfter cash false = false.
Proof.
  cbv zeta. unfold Dialogs.handlePlayerReady, Dialogs.handleCashOut.
  destruct (Dialogs.seatOf ui g) as [p|]; [| destruct reply; repeat split].
  destruct (cashed_out p), confirmed, reply; repeat split.
Qed.

(** X26: [handleLeaveTable] contacts the server only for a seated viewer who
    has cashed out and confirmed.  Once it has, the view leaves for the table
    list 2000 ms later whether the server accepted or not; otherwise no
    navigation is armed. *)
Theorem X26_leave_navigates_even_on_failure
    (ui : option UserInfo) (g : Game) (confirmed : bool) (reply : option string) :
  let calls := Dialogs.handleLeaveTable ui g confirmed reply in
  let mayLeave :=
    match Dialogs.seatOf ui g with
    | Some p => cashed_out p && confirmed
    | None => false
    end in
  Dialogs.posts calls = (if mayLeave then [Dialogs.Post "leave" None] else [])
  /\ Dialogs.navigations calls
     = (if mayLeave then [Dialogs.NavigateAfter ToTables 2000] else []).
Proof.
  cbv zeta. unfold Dialogs.handleLeaveTable.
  destruct (Dialogs.seatOf ui g) as [p|]; [| split; reflexivity].
  destruct (cashed_out p), confirmed, reply; split; reflexivity.
Qed.

(** X27: the slider's step buttons never leave its range: from a value
    between the slider's minimum and maximum, with a big blind that is not
    negative, minus lands between the minimum and the value, plus between the
    value and the maximum, and the "Bet"/"Raise to" button accepts both. *)
Theorem X27_slider_steps_stay_in_range
    (g : Game) (p : PlayerGame) (betSliderValue : Z) :
  0 <= minBet g ->
  Controls.betFloor g <= betSliderValue <= Controls.betCeiling g p ->
  let down := Controls.sliderMinus g betSliderValue in
  let up := Controls.sliderPlus g p betSliderValue in
  Controls.betFloor g <= down <= betSliderValue
  /\ betSliderValue <= up <= Controls.betCeiling g p
  /\ Controls.executeBetButton g down = Some (Controls.betKind g, down)
  /\ Controls.executeBetButton g up = Some (Controls.betKind g, up).
Proof.
  intros Hbb Hrange. cbv zeta.
  unfold Controls.sliderMinus, Controls.sliderPlus, Controls.executeBetButton.
  assert (Hd : Controls.betFloor g
               <= Z.max (betSliderValue - minBet g) (Controls.betFloor g)
               <= betSliderValue) by lia.
  assert (Hu : betSliderValue
               <= Z.min (betSliderValue + minBet g) (Controls.betCeiling g p)
               <= Controls.betCeiling g p) by lia.
  repeat split; try lia.
  - destruct (Z.leb_spec (Controls.betFloor g)
                (Z.max (betSliderValue - minBet g) (Controls.betFloor g)));
      [reflexivity | lia].
  - destruct (Z.leb_spec (Controls.betFloor g)
                (Z.min (betSliderValue + minBet g) (Controls.betCeiling g p)));
      [reflexivity | lia].
Qed.

Lemma X27_slider_steps_stay_in_range_witness :
  Controls.betFloor Sample.raisedGame
  <= Controls.sliderMinus Sample.raisedGame 105 <= 105.
Proof.
  refine (proj1 (X27_slider_steps_stay_in_range Sample.raisedGame Sample.alice 105 _ _)).
  - cbn. lia.
  - cbn. lia.
Defined.

Lemma X23_logout_keeps_stored_user_witness :
  Auth.isAuthenticated
    (snd (Auth.login (Some ("a1", "r1"))
            (Auth.logout (Auth.mkLocalStorage (Some "a0") (Some "r0")
                            (Auth.GoodUser (Auth.mkStoredUser false true (Some "alice")))))))
  = true.
Proof.
  refine (proj1 (proj2 (proj2 (proj2 (proj2
            (X23_logout_keeps_stored_user
               (Auth.mkLocalStorage (Some "a0") (Some "r0")
                  (Auth.GoodUser (Auth.mkStoredUser false true (Some "alice"))))
               7 (fun _ => ret tt) (initialRuntime None) "a1" "r1"))))) _).
  discriminate.
Defined.

Lemma X24_buy_back_in_validation_witness :
  exists n,
    Dialogs.handleBuyBackIn (Some (mkUserInfo (Some 101) (Some "alice")))
      Sample.finishedGame 5 (Some (Dialogs.mkLimits 100 1000)) None
    = [Dialogs.Notify n "error" 3000].
Proof.
  refine (proj1 (proj2
            (X24_buy_back_in_validation (Some (mkUserInfo (Some 101) (Some "alice")))
               Sample.finishedGame 5 (Some (Dialogs.mkLimits 100 1000)) None)) eq_refl).
Defined.
